(** * Prompt Master 2.0: the relay, its generation pathways and the project file

    A shallow embedding of

    - [functions/api/[[proxy]].ts]: the relay ([onRequestPost],
      [handleGenerate], [handleAnalyze], [arrayBufferToBase64]);
    - [src/services/gemini.service.ts]: the request and response types
      (its [generateProfessionalPrompt] selects the base prompt with the same
      expression and polls with the same loop, on an interval of 10000 ms),
      and the service itself, which calls the provider from the browser
      ([generateProfessionalPrompt], [analyzePromptQuality]);
    - [src/app.component.ts]: [exportProject] and [onProjectImport]; the
      other methods of the component ([generatePrompt], [analyzePrompt],
      [toggleMasterLanguage], [onFileSelected], [removeFile],
      [fillExample]) and its computed signals; the service that calls the
      relay ([postToProxy] and its two callers).

    The asynchronous handlers are interaction trees over the calls they
    [await]: every call to the generative-model provider, the timer, the
    download of the produced asset and the read of the request body is an
    event answered by the environment.  The [while (!operation.done)] loop is
    [ITree.iter].  A fuel-bounded runner executes a tree against an
    environment and keeps the list of calls made, so that statements about
    what is called, how often and in which order are statements about that
    list, and a handler that never returns is one that exhausts every amount
    of fuel.

    Values are taken at their declared TypeScript types, with two
    exceptions where the program itself goes beyond them.  The structured
    completion is declared as [{ prompts: { language; prompt }[] }] and is
    not checked: [Untyped] is the generation handler on every document that
    [JSON.parse] can return.  A number can be [NaN], an infinity or the
    negative zero, which [JSON.stringify] does not write back: [Js.written]
    is the value read back from what was written.  Strings are byte strings
    holding UTF-8. *)

From Stdlib Require Import String Ascii List ZArith QArith Bool Arith Lia.
From Stdlib Require Import DecimalString.
From ITree Require Import ITree Eq.Shallow.
Import ListNotations.
Close Scope Q_scope.
Local Open Scope list_scope.
Local Open Scope string_scope.

Set Implicit Arguments.
Set Warnings "-register-all".

(* ===================================================================== *)
(** * JavaScript values and string operations *)
(* ===================================================================== *)

Module Js.

(** Line feed and the double quote, which the templates below contain. *)
Definition nl : string := String (ascii_of_nat 10) EmptyString.
Definition dq : string := String (ascii_of_nat 34) EmptyString.

(** A string is truthy when it is not empty. *)
Definition truthy (s : string) : bool := negb (s =? "").

(** [s || d] on strings. *)
Definition or_else (s d : string) : string := if truthy s then s else d.

(** An optional string: [undefined] is [None]. [truthy_opt] is the test
    [if (x)], [interpolate] is [${x}] in a template. *)
Definition truthy_opt (o : option string) : bool :=
  match o with Some s => truthy s | None => false end.

Definition interpolate (o : option string) : string :=
  match o with Some s => s | None => "undefined" end.

(** The string in a variable that passed [if (x)]. *)
Definition value (o : option string) : string :=
  match o with Some s => s | None => "" end.

(** [String.prototype.toLowerCase], on the letters A-Z.  The code compares
    its result with ['english'] only; a character outside ASCII never
    lowercases to one of the letters of that word, so the comparison has the
    same answer as in JavaScript. *)
Definition lower_ascii (c : ascii) : ascii :=
  let n := nat_of_ascii c in
  if (65 <=? n)%nat && (n <=? 90)%nat then ascii_of_nat (n + 32) else c.

Fixpoint toLowerCase (s : string) : string :=
  match s with
  | EmptyString => EmptyString
  | String c r => String (lower_ascii c) (toLowerCase r)
  end.

(** [s.split(sep)] for a one-character separator: never empty, one more
    component than there are separators. *)
Fixpoint split (sep : ascii) (s : string) : list string :=
  match s with
  | EmptyString => [EmptyString]
  | String c r =>
      if Ascii.eqb c sep then EmptyString :: split sep r
      else match split sep r with
           | h :: t => String c h :: t
           | [] => [String c EmptyString]
           end
  end.

(** [arr.includes(x)] and [arr.join(sep)] on arrays of strings,
    [s.startsWith(p)]. *)
Definition includes (arr : list string) (x : string) : bool :=
  existsb (String.eqb x) arr.

Definition join (sep : string) (arr : list string) : string :=
  String.concat sep arr.

Definition startsWith (s p : string) : bool := String.prefix p s.

(** The numbers of this program (temperature, topP) are stored and
    forwarded, never computed with: an exact rational stands for the finite
    double other than the negative zero; the remaining numbers are
    [special], below. *)
Definition number : Type := Q.

(** The numbers of JavaScript that no rational stands for.  A signal, and
    any value in memory, can hold each of them; [JSON.parse] returns the
    infinities for a literal out of the range of the doubles and the
    negative zero for [-0]; [JSON.stringify] writes none of them back, see
    [written]. *)
Inductive special : Type :=
| NaN
| PositiveInfinity
| NegativeInfinity
| NegativeZero.

(** A value of the shape of JSON: a document as [JSON.parse] returns it, or
    a value in memory that is handed to [JSON.stringify].  An object keeps
    its keys in insertion order. *)
Inductive json : Type :=
| JNull
| JBool (b : bool)
| JNum (n : number)
| JStr (s : string)
| JArr (items : list json)
| JObj (fields : list (string * json))
| JSpecial (x : special).

(** [JSON.parse(JSON.stringify(v))]: the document read back from the text
    written from [v].  [NaN] and the infinities are written as [null], the
    negative zero as [0], in an array or an object as anywhere else; every
    other value is read back as it was. *)
Fixpoint written (v : json) : json :=
  match v with
  | JSpecial NegativeZero => JNum (0 # 1)%Q
  | JSpecial _ => JNull
  | JArr items => JArr (map written items)
  | JObj fields =>
      JObj (map (fun kv => match kv with (k, x) => (k, written x) end) fields)
  | _ => v
  end.

(** A value that holds none of these numbers. *)
Fixpoint writable (v : json) : bool :=
  match v with
  | JSpecial _ => false
  | JArr items => forallb writable items
  | JObj fields =>
      forallb (fun kv => match kv with (_, x) => writable x end) fields
  | _ => true
  end.

(** An object literal handed to [JSON.stringify]: a property whose value is
    [undefined] is left out. *)
Fixpoint object (props : list (string * option json)) : list (string * json) :=
  match props with
  | [] => []
  | (k, Some v) :: rest => (k, v) :: object rest
  | (_, None) :: rest => object rest
  end.

(** [o.k] on a parsed document: [None] is [undefined]. *)
Fixpoint assoc (k : string) (fields : list (string * json)) : option json :=
  match fields with
  | [] => None
  | (k', v) :: rest => if k' =? k then Some v else assoc k rest
  end.

Definition get (k : string) (o : json) : option json :=
  match o with
  | JObj fields => assoc k fields
  | _ => None
  end.

(** [x ?? d]: the default replaces [undefined] and [null], nothing else. *)
Definition nullish (x : option json) (d : json) : json :=
  match x with
  | None | Some JNull => d
  | Some v => v
  end.

(** What a [throw] or a rejected promise carries: an [Error] with its
    message, or some other value. *)
Inductive thrown : Type :=
| JsError (message : string)
| NonError.

(** [btoa] on a binary string (every character is one byte). *)
Definition b64_alphabet : string :=
  "ABCDEFGHIJKLMNOPQRSTUVWXYZabcdefghijklmnopqrstuvwxyz0123456789+/".

Definition b64_digit (n : N) : ascii :=
  match String.get (N.to_nat n) b64_alphabet with
  | Some c => c
  | None => "="%char
  end.

Fixpoint btoa (s : string) : string :=
  match s with
  | EmptyString => EmptyString
  | String a EmptyString =>
      let x := N_of_ascii a in
      String (b64_digit (x / 4))
        (String (b64_digit ((x mod 4) * 16)) "==")
  | String a (String b EmptyString) =>
      let x := N_of_ascii a in
      let y := N_of_ascii b in
      String (b64_digit (x / 4))
        (String (b64_digit ((x mod 4) * 16 + y / 16))
           (String (b64_digit ((y mod 16) * 4)) "="))
  | String a (String b (String c r)) =>
      let x := N_of_ascii a in
      let y := N_of_ascii b in
      let z := N_of_ascii c in
      String (b64_digit (x / 4))
        (String (b64_digit ((x mod 4) * 16 + y / 16))
           (String (b64_digit ((y mod 16) * 4 + z / 64))
              (String (b64_digit (z mod 64)) (btoa r))))
  end%N.

End Js.

(* ===================================================================== *)
(** * The types of [gemini.service.ts] and of the provider's client *)
(* ===================================================================== *)

Module Types.
Import Js.

(** [file?: { data: string; mimeType: string }] *)
Record InlineFile : Type := {
  data : string;
  mimeType : string
}.

(** [PromptGenerationRequest] *)
Record PromptGenerationRequest : Type := {
  context : string;
  objective : string;
  role : string;
  expectations : string;
  systemInstruction : string;
  promptBody : string;
  mediaInstruction : string;
  aiPlatform : string;
  outputType : string;
  file : option InlineFile;
  previewLanguage : string;
  masterPromptLanguages : list string;
  temperature : number;
  topP : number;
  aspectRatio : string
}.

(** One element of [masterPrompts: { language: string; prompt: string }[]]. *)
Record MasterPrompt : Type := {
  language : string;
  prompt : string
}.

(** The parsed structured completion, [{ prompts }]; [None] when the
    property is missing or null. *)
Record PromptsResult : Type := {
  prompts : option (list MasterPrompt)
}.

(** [preview: { type: 'text' | 'image' | 'video' | null; content: string }];
    the content is [None] when the provider's [text] is [undefined]. *)
Inductive PreviewType : Type := PreviewText | PreviewImage | PreviewVideo.

Record Preview : Type := {
  preview_type : option PreviewType;
  preview_content : option string
}.

(** The schema language of the provider's client ([Type], [Schema]). *)
Inductive SchemaType : Type := OBJECT | ARRAY | STRING | NUMBER.

Inductive Schema : Type :=
  mkSchema (type_ : SchemaType) (description : option string)
           (properties : list (string * Schema)) (items : option Schema)
           (required : list string).

(** [Part]: a text part or inline binary data. *)
Inductive Part : Type :=
| TextPart (text : string)
| InlineDataPart (mime data_ : string).

(** The arguments of [ai.models.generateContent]: [contents] is a string or
    [{ parts }], [config] asks for a structured reply or sets the sampling. *)
Inductive Contents : Type :=
| ContentsText (s : string)
| ContentsParts (parts : list Part).

Inductive ContentConfig : Type :=
| StructuredConfig (responseMimeType : string) (responseSchema : Schema)
| SamplingConfig (temperature_ topP_ : number).

Record GenerateContentParameters : Type := {
  gc_model : string;
  gc_contents : Contents;
  gc_config : ContentConfig
}.

Record GenerateContentResponse : Type := {
  text : option string
}.

(** [ai.models.generateImages] *)
Record GenerateImagesParameters : Type := {
  gi_model : string;
  gi_prompt : string;
  numberOfImages : Z;
  outputMimeType : string;
  gi_aspectRatio : string
}.

Record Image : Type := { imageBytes : option string }.
Record GeneratedImage : Type := { image : option Image }.
Record GenerateImagesResponse : Type := {
  generatedImages : option (list GeneratedImage)
}.

(** [ai.models.generateVideos] and the operation it returns *)
Record VideoSeedImage : Type := {
  seed_imageBytes : option string;
  seed_mimeType : string
}.

Record GenerateVideosParameters : Type := {
  gv_model : string;
  gv_prompt : string;
  numberOfVideos : Z;
  gv_image : option VideoSeedImage
}.

Record Video : Type := { uri : option string }.
Record GeneratedVideo : Type := { video : option Video }.
Record GenerateVideosResponse : Type := {
  generatedVideos : option (list GeneratedVideo)
}.

Record GenerateVideosOperation : Type := {
  name : string;
  done : option bool;
  response : option GenerateVideosResponse
}.

(** The downloaded asset: [videoResponse.blob()] and its bytes. *)
Record Blob : Type := {
  blob_type : string;
  blob_bytes : string
}.

End Types.

(** What the JavaScript engine supplies and this development does not
    re-implement: [trim], [JSON.parse] at the two types it is used at, and
    the message text of the [TypeError] raised by a property access on
    [undefined].  [JSON.parse] answers [inl msg] when it throws a
    [SyntaxError] with message [msg]. *)
Class Platform : Type := {
  trim : string -> string;
  JSON_parse : string -> string + Js.json;
  JSON_parse_prompts : string -> string + Types.PromptsResult;
  type_error_message : string -> string
}.

(* ===================================================================== *)
(** * Awaited calls, exceptions and the runner *)
(* ===================================================================== *)

Module Async.
Import Js Types.

(** The body of the request, [{ type, payload }].  The payload has one of
    the two shapes the client sends. *)
Inductive Payload : Type :=
| GeneratePayload (data : PromptGenerationRequest)
| AnalyzePayload (promptToAnalyze : string).

Record ProxyRequestBody : Type := {
  type : string;
  payload : Payload
}.

(** Every call a handler awaits, with the type of its answer.  A rejected
    promise is [inl]. [fetch] stands for the download, [blob()] and
    [arrayBuffer()] together. *)
Variant callE : Type -> Type :=
| request_json : callE (thrown + ProxyRequestBody)
| generateContent (p : GenerateContentParameters)
    : callE (thrown + GenerateContentResponse)
| generateImages (p : GenerateImagesParameters)
    : callE (thrown + GenerateImagesResponse)
| generateVideos (p : GenerateVideosParameters)
    : callE (thrown + GenerateVideosOperation)
| getVideosOperation (operation : GenerateVideosOperation)
    : callE (thrown + GenerateVideosOperation)
| setTimeout (ms : Z) : callE unit
| fetch (url : string) : callE (thrown + Blob)
| console_error (label : string) (error : thrown) : callE unit.

(** A call that was made. *)
Definition call : Type := sigT callE.

Definition made {T} (e : callE T) : call := existT _ T e.

(** An asynchronous function that may throw. *)
Definition js (A : Type) : Type := itree callE (thrown + A).

Definition ret {A} (a : A) : js A := Ret (inr a).

Definition throw {A} (e : thrown) : js A := Ret (inl e).

Definition bind {A B} (m : js A) (k : A -> js B) : js B :=
  ITree.bind m (fun r =>
    match r with
    | inl e => Ret (inl e)
    | inr a => k a
    end).

(** [await f(...)]: the call, whose rejection is thrown here. *)
Definition await {A} (e : callE (thrown + A)) : js A := ITree.trigger e.

(** [try { m } catch (error) { h error }] *)
Definition try_catch {A} (m : js A) (h : thrown -> itree callE A)
  : itree callE A :=
  ITree.bind m (fun r =>
    match r with
    | inl e => h e
    | inr a => Ret a
    end).

Module Notations.
Notation "'let*' x ':=' m 'in' k" := (bind m (fun x => k))
  (at level 10, x name, m at level 100, k at level 200).
End Notations.

(** ** Running a handler against an environment

    The environment answers each call from its state.  One unit of fuel is
    spent per call and per loop iteration. *)
Inductive outcome (S R : Type) : Type :=
| Done (r : R) (s : S) (calls : list call) (fuel_left : nat)
| OutOfFuel (s : S) (calls : list call).

Arguments Done {S R}.
Arguments OutOfFuel {S R}.

Definition after {S R} (c : call) (o : outcome S R) : outcome S R :=
  match o with
  | Done r s calls f => Done r s (c :: calls) f
  | OutOfFuel s calls => OutOfFuel s (c :: calls)
  end.

Definition Environment (S : Type) : Type := forall T, callE T -> S -> S * T.

Fixpoint run {S R} (answer : Environment S) (fuel : nat)
    (t : itree callE R) (s : S) : outcome S R :=
  match observe t with
  | RetF r => Done r s [] fuel
  | TauF t' =>
      match fuel with
      | O => OutOfFuel s []
      | Datatypes.S fuel' => run answer fuel' t' s
      end
  | VisF e k =>
      match fuel with
      | O => OutOfFuel s []
      | Datatypes.S fuel' =>
          let (s', a) := answer _ e s in
          after (made e) (run answer fuel' (k a) s')
      end
  end.

(** What a run returned and which calls it made, when it returned. *)
Definition finished {S R} (o : outcome S R) : option (R * list call) :=
  match o with
  | Done r _ calls _ => Some (r, calls)
  | OutOfFuel _ _ => None
  end.

(** The calls made so far, finished or not. *)
Definition calls_of {S R} (o : outcome S R) : list call :=
  match o with
  | Done _ _ calls _ => calls
  | OutOfFuel _ calls => calls
  end.

Definition is_status_check (c : call) : bool :=
  match projT2 c with
  | getVideosOperation _ => true
  | _ => false
  end.

Definition is_sleep (c : call) : bool :=
  match projT2 c with
  | setTimeout _ => true
  | _ => false
  end.

(** A call to the generative-model provider or to the asset's URL. *)
Definition is_provider_call (c : call) : bool :=
  match projT2 c with
  | generateContent _ | generateImages _ | generateVideos _
  | getVideosOperation _ | fetch _ => true
  | _ => false
  end.

End Async.

(* ===================================================================== *)
(** * The relay: [functions/api/[[proxy]].ts] *)
(* ===================================================================== *)

Module Relay.
Import Js Types Async Async.Notations.

Section WithPlatform.
Context {platform : Platform}.

(** [interface Env { API_KEY: string }]; a variable that is not set is
    [None]. *)
Record Env : Type := {
  API_KEY : option string
}.

(** The handler's [context]: the request is read through [request_json]. *)
Record Context : Type := {
  env : Env
}.

Record GoogleGenAI : Type := {
  apiKey : string
}.

Record Response : Type := {
  status : Z;
  headers : list (string * string);
  body : json
}.

(** [jsonResponse(data, status = 200)]; the body of the model is [data],
    the value handed to [JSON.stringify]: what a reader of the response gets
    is [written data]. *)
Definition jsonResponse (data : json) (status : Z) : Response :=
  {| status := status;
     headers := [("Content-Type", "application/json")];
     body := data |}.

(** [{ error: message }] *)
Definition error_body (message : string) : json :=
  JObj [("error", JStr message)].

(** [arrayBufferToBase64]: the bytes become a binary string, character by
    character, which [btoa] encodes. *)
Definition arrayBufferToBase64 (buffer : string) : string :=
  let fix loop (bytes binary : string) : string :=
    match bytes with
    | EmptyString => binary
    | String b rest => loop rest (binary ++ String b EmptyString)
    end in
  btoa (loop buffer "").

(** A [TypeError], with the engine's message for the failing access. *)
Definition TypeError (access : string) : thrown :=
  JsError (type_error_message access).

(** The meta-prompt of [handleGenerate]. *)
Definition generate_metaPrompt (d : PromptGenerationRequest)
    (languagesString : string) : string :=
  let context := d.(context) in
  let objective := d.(objective) in
  let role := d.(role) in
  let expectations := d.(expectations) in
  let systemInstruction := d.(systemInstruction) in
  let promptBody := d.(promptBody) in
  let mediaInstruction := d.(mediaInstruction) in
  let aiPlatform := d.(aiPlatform) in
  let outputType := d.(outputType) in
    nl ++
    "      You are a world-class prompt engineering expert AI. Your task is to create a " ++ dq ++ "Master Prompt" ++ dq ++ " based on the user's structured input using the C.O.R.E framework." ++ nl ++
    "      The goal is to synthesize the provided components into a powerful, clear, and effective prompt tailored for the specified AI platform and desired output format." ++ nl ++
    nl ++
    "      **User's Input Components (C.O.R.E Framework):**" ++ nl ++
    "      1.  **Context (Bối cảnh):** " ++ context ++ nl ++
    "      2.  **Objective (Mục tiêu):** " ++ objective ++ nl ++
    "      3.  **Role (Vai trò AI cần đảm nhận):** " ++ role ++ nl ++
    "      4.  **Expectations (Kỳ vọng về kết quả):** " ++ expectations ++ nl ++
    nl ++
    "      **Additional Instructions:**" ++ nl ++
    "      *   **System Instruction (Overall AI Persona):** " ++ systemInstruction ++ nl ++
    "      *   **Main Prompt Body (The Core Task):** " ++ promptBody ++ nl ++
    "      *   **Media Instructions (If any):** " ++ or_else mediaInstruction "Không có" ++ nl ++
    "      *   **Target AI Platform:** " ++ aiPlatform ++ nl ++
    "      *   **Output Format:** " ++ outputType ++ nl ++
    nl ++
    "      **Your Instructions:**" ++ nl ++
    "      1.  Analyze all components to understand the user's ultimate goal. Use the **Objective** to understand the *purpose* and the **Output Format** to determine the structure and style of the final product." ++ nl ++
    "      2.  Combine and refine the components into a single, cohesive " ++ dq ++ "Master Prompt" ++ dq ++ "." ++ nl ++
    "      3.  The Master Prompt should start with the Role, then integrate Context, Objective, and Expectations clearly." ++ nl ++
    "      4.  Ensure the prompt uses advanced techniques to guide the AI model effectively." ++ nl ++
    "      5.  Provide the final Master Prompt in the following languages: " ++ languagesString ++ "." ++ nl ++
    "      6.  Your response MUST be a valid JSON object. Do not include any text, comments, or markdown formatting (like ```json) before or after the JSON object." ++ nl ++
    "    "
.

Definition prompts_schema : Schema :=
  mkSchema OBJECT None
    [("prompts",
      mkSchema ARRAY
        (Some "An array of master prompts, one for each requested language.")
        []
        (Some (mkSchema OBJECT None
                 [("language", mkSchema STRING None [] None []);
                  ("prompt", mkSchema STRING None [] None [])]
                 None ["language"; "prompt"]))
        [])]
    None ["prompts"].

(** [masterPrompts.find(p => p.language.toLowerCase() === 'english')?.prompt
      || masterPrompts[0].prompt]; [None] is the [TypeError] of reading
    [prompt] of an absent first element. *)
Definition basePromptForPreview (masterPrompts : list MasterPrompt)
  : option string :=
  let found :=
    option_map prompt
      (find (fun p => toLowerCase p.(language) =? "english") masterPrompts) in
  if truthy_opt found then found
  else option_map prompt (nth_error masterPrompts 0).

(** [previewPromptParts]: the base prompt, preceded by the inline file when
    the second component of its data URL is truthy. *)
Definition previewPromptParts (basePrompt : string) (file : option InlineFile)
  : list Part :=
  let parts := [TextPart basePrompt] in
  match file with
  | Some file =>
      let base64Data := nth_error (split ","%char file.(data)) 1 in
      if truthy_opt base64Data
      then InlineDataPart file.(mimeType) (value base64Data) :: parts
      else parts
  | None => parts
  end.

Definition IMAGE_OUTPUT_TYPES : list string := ["Image"; "Ảnh"; "Hình ảnh"].
Definition VIDEO_OUTPUT_TYPES : list string := ["Video"; "Phim ngắn"].

(** The three preview pathways, and the one the chain
    [if (IMAGE_OUTPUT_TYPES.includes(outputType)) ... else if
    (VIDEO_OUTPUT_TYPES.includes(outputType)) ... else ...] takes. *)
Inductive Pathway : Type := ImagePathway | VideoPathway | TextPathway.

Definition pathway_of (outputType : string) : Pathway :=
  if includes IMAGE_OUTPUT_TYPES outputType then ImagePathway
  else if includes VIDEO_OUTPUT_TYPES outputType then VideoPathway
  else TextPathway.

Definition preview_kind (p : Pathway) : PreviewType :=
  match p with
  | ImagePathway => PreviewImage
  | VideoPathway => PreviewVideo
  | TextPathway => PreviewText
  end.

(** The image branch. *)
Definition images_request (basePrompt : string) (d : PromptGenerationRequest)
  : GenerateImagesParameters :=
  {| gi_model := "imagen-3.0-generate-002";
     gi_prompt := basePrompt;
     numberOfImages := 1;
     outputMimeType := "image/png";
     gi_aspectRatio := d.(aspectRatio) |}.

Definition image_preview (basePrompt : string) (d : PromptGenerationRequest)
  : js Preview :=
  let* imageResponse := await (generateImages (images_request basePrompt d)) in
  match imageResponse.(generatedImages) with
  | None => throw (TypeError "generatedImages[0]")
  | Some generatedImages =>
      match nth_error generatedImages 0 with
      | None => throw (TypeError "generatedImages[0].image")
      | Some first =>
          match first.(image) with
          | None => throw (TypeError "generatedImages[0].image.imageBytes")
          | Some image =>
              let base64ImageBytes := image.(imageBytes) in
              ret {| preview_type := Some PreviewImage;
                     preview_content :=
                       Some ("data:image/png;base64,"
                             ++ interpolate base64ImageBytes) |}
          end
      end
  end.

(** [!operation.done] *)
Definition not_done (operation : GenerateVideosOperation) : bool :=
  match operation.(done) with
  | Some true => false
  | _ => true
  end.

(** [while (!operation.done) { await sleep; operation = await
    getVideosOperation({ operation }) }]: the loop ends with the first
    operation that is done, or with what a status check throws. *)
Definition poll_until_done (interval : Z) (operation : GenerateVideosOperation)
  : js GenerateVideosOperation :=
  ITree.iter (fun operation =>
    if not_done operation then
      ITree.bind (ITree.trigger (setTimeout interval)) (fun _ =>
      ITree.bind (ITree.trigger (getVideosOperation operation)) (fun r =>
        match r with
        | inl e => Ret (inr (inl e))
        | inr operation' => Ret (inl operation')
        end))
    else Ret (inr (inr operation))) operation.

(** [operation.response?.generatedVideos?.[0]?.video?.uri] *)
Definition downloadLink_of (operation : GenerateVideosOperation)
  : option string :=
  match operation.(response) with
  | None => None
  | Some response =>
      match response.(generatedVideos) with
      | None => None
      | Some videos =>
          match nth_error videos 0 with
          | None => None
          | Some first =>
              match first.(video) with
              | None => None
              | Some v => v.(uri)
              end
          end
      end
  end.

(** The video branch: [videoGenParams], seeded with the file when it is an
    image. *)
Definition videoGenParams (basePrompt : string) (d : PromptGenerationRequest)
  : GenerateVideosParameters :=
  {| gv_model := "veo-2.0-generate-001";
     gv_prompt := basePrompt;
     numberOfVideos := 1;
     gv_image :=
       match d.(file) with
       | Some file =>
           if startsWith file.(mimeType) "image/"
           then Some {| seed_imageBytes :=
                          nth_error (split ","%char file.(data)) 1;
                        seed_mimeType := file.(mimeType) |}
           else None
       | None => None
       end |}.

Definition video_preview (basePrompt : string) (d : PromptGenerationRequest)
    (apiKey : string) : js Preview :=
  let* operation := await (generateVideos (videoGenParams basePrompt d)) in
  let* operation := poll_until_done 5000 operation in
  let downloadLink := downloadLink_of operation in
  if truthy_opt downloadLink then
    let* videoBlob :=
      await (fetch (interpolate downloadLink ++ "&key=" ++ apiKey)) in
    let videoBase64 := arrayBufferToBase64 videoBlob.(blob_bytes) in
    let videoDataUrl :=
      "data:" ++ videoBlob.(blob_type) ++ ";base64," ++ videoBase64 in
    ret {| preview_type := Some PreviewVideo;
           preview_content := Some videoDataUrl |}
  else throw (JsError "Could not generate video.").

(** The text branch: the instruction to answer in [previewLanguage] is
    appended to the last part when that part is a text part. *)
Fixpoint append_to_last_text (parts : list Part) (suffix : string)
  : list Part :=
  match parts with
  | [] => []
  | [TextPart t] => [TextPart (t ++ suffix)]
  | p :: rest => p :: append_to_last_text rest suffix
  end.

Definition text_request (parts : list Part) (d : PromptGenerationRequest)
  : GenerateContentParameters :=
  let finalPromptForTextPreview :=
    append_to_last_text parts
      (nl ++ nl ++ "--- IMPORTANT: Please provide your entire response in "
       ++ d.(previewLanguage) ++ ". ---") in
  {| gc_model := "gemini-2.5-flash";
     gc_contents := ContentsParts finalPromptForTextPreview;
     gc_config := SamplingConfig d.(temperature) d.(topP) |}.

Definition text_preview (parts : list Part) (d : PromptGenerationRequest)
  : js Preview :=
  let* textPreviewResponse := await (generateContent (text_request parts d)) in
  ret {| preview_type := Some PreviewText;
         preview_content := textPreviewResponse.(text) |}.

(** [JSON.stringify({ masterPrompts, preview })] *)
Definition masterPrompt_json (p : MasterPrompt) : json :=
  JObj [("language", JStr p.(language)); ("prompt", JStr p.(prompt))].

Definition preview_type_json (t : option PreviewType) : json :=
  match t with
  | None => JNull
  | Some PreviewText => JStr "text"
  | Some PreviewImage => JStr "image"
  | Some PreviewVideo => JStr "video"
  end.

Definition preview_json (p : Preview) : json :=
  JObj (object [("type", Some (preview_type_json p.(preview_type)));
                ("content", option_map JStr p.(preview_content))]).

Definition generation_json (masterPrompts : list MasterPrompt)
    (preview : Preview) : json :=
  JObj [("masterPrompts", JArr (map masterPrompt_json masterPrompts));
        ("preview", preview_json preview)].

(** The structured completion of [handleGenerate], up to the check that it
    holds prompts. *)
Definition prompts_request (d : PromptGenerationRequest)
  : GenerateContentParameters :=
  let languagesString := join ", " d.(masterPromptLanguages) in
  let metaPrompt := generate_metaPrompt d languagesString in
  {| gc_model := "gemini-2.5-flash";
     gc_contents := ContentsText metaPrompt;
     gc_config := StructuredConfig "application/json" prompts_schema |}.

Definition request_masterPrompts (d : PromptGenerationRequest)
  : js (list MasterPrompt) :=
  let* promptGenerationResult := await (generateContent (prompts_request d)) in
  match promptGenerationResult.(text) with
  | None => throw (TypeError "text.trim")
  | Some text =>
      match JSON_parse_prompts (trim text) with
      | inl message => throw (JsError message)
      | inr result =>
          match result.(prompts) with
          | None | Some [] => throw (JsError "AI did not return any prompts.")
          | Some masterPrompts => ret masterPrompts
          end
      end
  end.

(** [handleGenerate(ai, data, apiKey)].  A payload without the generation
    fields fails at [masterPromptLanguages.join]. *)
Definition handleGenerate (ai : GoogleGenAI) (data : Payload)
    (apiKey : string) : js Response :=
  match data with
  | AnalyzePayload _ => throw (TypeError "masterPromptLanguages.join")
  | GeneratePayload d =>
      let* masterPrompts := request_masterPrompts d in
      match basePromptForPreview masterPrompts with
      | None => throw (TypeError "masterPrompts[0].prompt")
      | Some basePrompt =>
          let parts := previewPromptParts basePrompt d.(file) in
          let* preview :=
            if includes IMAGE_OUTPUT_TYPES d.(outputType) then
              image_preview basePrompt d
            else if includes VIDEO_OUTPUT_TYPES d.(outputType) then
              video_preview basePrompt d apiKey
            else
              text_preview parts d in
          ret (jsonResponse (generation_json masterPrompts preview) 200)
      end
  end.

(** The meta-prompt of [handleAnalyze]. *)
Definition analyze_metaPrompt (promptToAnalyze : option string) : string :=
    nl ++
    "      You are a world-class prompt engineering expert AI. Your task is to analyze and evaluate the quality of a given prompt based on the C.O.R.E framework (Context, Objective, Role, Expectations)." ++ nl ++
    nl ++
    "      **User's Prompt to Analyze:**" ++ nl ++
    "      " ++ dq ++ dq ++ dq ++ nl ++
    "      " ++ interpolate promptToAnalyze ++ nl ++
    "      " ++ dq ++ dq ++ dq ++ nl ++
    nl ++
    "      **Your Instructions:**" ++ nl ++
    "      1.  **Deconstruct the Prompt:** Break down the provided prompt and identify elements that correspond to Context, Objective, Role, and Expectations. If a component is missing or weak, state that clearly." ++ nl ++
    "      2.  **Score the Prompt:** Provide a numerical score from 0 to 100, where 100 is a perfect, highly effective prompt. The score should be based on the clarity, completeness, and effectiveness of the C.O.R.E components." ++ nl ++
    "      3.  **Provide Detailed Analysis:** For each C.O.R.E component, give a brief analysis of its quality in the provided prompt." ++ nl ++
    "      4.  **Give Actionable Suggestions:** Offer concrete, actionable suggestions for how to improve the prompt." ++ nl ++
    "      5.  Your response MUST be a valid JSON object. Do not include any text, comments, or markdown formatting (like ```json) before or after the JSON object." ++ nl ++
    "    "
.

Definition analysis_schema : Schema :=
  mkSchema OBJECT None
    [("score", mkSchema NUMBER None [] None []);
     ("analysis",
      mkSchema OBJECT None
        [("context", mkSchema STRING None [] None []);
         ("objective", mkSchema STRING None [] None []);
         ("role", mkSchema STRING None [] None []);
         ("expectations", mkSchema STRING None [] None [])]
        None ["context"; "objective"; "role"; "expectations"]);
     ("suggestions", mkSchema STRING None [] None [])]
    None ["score"; "analysis"; "suggestions"].

Definition analysis_request (promptToAnalyze : option string)
  : GenerateContentParameters :=
  let metaPrompt := analyze_metaPrompt promptToAnalyze in
  {| gc_model := "gemini-2.5-flash";
     gc_contents := ContentsText metaPrompt;
     gc_config := StructuredConfig "application/json" analysis_schema |}.

(** [handleAnalyze(ai, data)]: the parsed completion is returned as it is. *)
Definition handleAnalyze (ai : GoogleGenAI) (data : Payload) : js Response :=
  let promptToAnalyze :=
    match data with
    | AnalyzePayload p => Some p
    | GeneratePayload _ => None
    end in
  let* result := await (generateContent (analysis_request promptToAnalyze)) in
  match result.(text) with
  | None => throw (TypeError "text.trim")
  | Some text =>
      match JSON_parse (trim text) with
      | inl message => throw (JsError message)
      | inr parsed => ret (jsonResponse parsed 200)
      end
  end.

(** [error instanceof Error ? error.message : 'An unknown error occurred.'] *)
Definition errorMessage_of (error : thrown) : string :=
  match error with
  | JsError message => message
  | NonError => "An unknown error occurred."
  end.

(** The [switch] on [body.type], inside the [try]. *)
Definition dispatch (apiKey : string) : js Response :=
  let* body := await request_json in
  let ai := {| apiKey := apiKey |} in
  if body.(type) =? "generate" then handleGenerate ai body.(payload) apiKey
  else if body.(type) =? "analyze" then handleAnalyze ai body.(payload)
  else ret (jsonResponse (error_body "Invalid request type") 400).

(** [onRequestPost]: the main handler. *)
Definition onRequestPost (context : Context) : itree callE Response :=
  let apiKey := context.(env).(API_KEY) in
  if negb (truthy_opt apiKey) then
    Ret (jsonResponse (error_body "API_KEY is not configured on the server.") 500)
  else
    try_catch (dispatch (value apiKey)) (fun error =>
      ITree.bind (ITree.trigger (console_error "Error in proxy function:" error))
        (fun _ =>
           let errorMessage := errorMessage_of error in
           Ret (jsonResponse (error_body errorMessage) 500))).

End WithPlatform.
End Relay.

(* ===================================================================== *)
(** * A scripted environment: one client request, one provider *)
(* ===================================================================== *)

Module Script.
Import Js Types Async.

(** The request body the client sent and what the provider answers.  The
    video job is a sequence of status reports: [submission] answers
    [generateVideos] and [status_report k] answers the status check number
    [k] (from 0).  The state of the environment is the number of status
    checks answered so far. *)
Record World : Type := {
  request_body : thrown + ProxyRequestBody;
  on_generateContent
    : GenerateContentParameters -> thrown + GenerateContentResponse;
  on_generateImages
    : GenerateImagesParameters -> thrown + GenerateImagesResponse;
  submission : GenerateVideosParameters -> thrown + GenerateVideosOperation;
  status_report : nat -> thrown + GenerateVideosOperation;
  on_fetch : string -> thrown + Blob
}.

Definition world (w : World) : Environment nat :=
  fun T (e : callE T) (k : nat) =>
    match e in callE T return nat * T with
    | request_json => (k, w.(request_body))
    | generateContent p => (k, w.(on_generateContent) p)
    | generateImages p => (k, w.(on_generateImages) p)
    | generateVideos p => (k, w.(submission) p)
    | getVideosOperation _ => (S k, w.(status_report) k)
    | setTimeout _ => (k, tt)
    | fetch url => (k, w.(on_fetch) url)
    | console_error _ _ => (k, tt)
    end.

(** The job's status reports in the order the handler obtains them: the
    operation returned by the submission, then the answers of the status
    checks. *)
Definition job_report (w : World) (p : GenerateVideosParameters) (k : nat)
  : thrown + GenerateVideosOperation :=
  match k with
  | O => w.(submission) p
  | S k' => w.(status_report) k'
  end.

(** A call whose answer carries the job's status. *)
Definition obtains_status (c : call) : bool :=
  match projT2 c with
  | generateVideos _ | getVideosOperation _ => true
  | _ => false
  end.

(** [n] rounds of the polling loop over the operations [op 0], [op 1], ...:
    a sleep, then the status check on the operation in hand. *)
Definition polling_rounds (interval : Z) (op : nat -> GenerateVideosOperation)
    (n : nat) : list call :=
  flat_map (fun i => [made (setTimeout interval);
                      made (getVideosOperation (op i))]) (seq 0 n).

(** The first call of each pathway. *)
Definition pathway_call (p : Relay.Pathway) (basePrompt : string)
    (d : PromptGenerationRequest) : call :=
  match p with
  | Relay.ImagePathway =>
      made (generateImages (Relay.images_request basePrompt d))
  | Relay.VideoPathway =>
      made (generateVideos (Relay.videoGenParams basePrompt d))
  | Relay.TextPathway =>
      made (generateContent
              (Relay.text_request
                 (Relay.previewPromptParts basePrompt d.(file)) d))
  end.

(** What the [catch] of [onRequestPost] answers to a failure, and the call
    it makes. *)
Definition caught (error : thrown) : Relay.Response * list call :=
  (Relay.jsonResponse (Relay.error_body (Relay.errorMessage_of error)) 500,
   [made (console_error "Error in proxy function:" error)]).

(** What follows the polling loop once it has left with [operation]: the
    response, and the calls made after the loop. *)
Definition materialized (w : World) (apiKey : string)
    (masterPrompts : list MasterPrompt) (operation : GenerateVideosOperation)
  : Relay.Response * list call :=
  let downloadLink := Relay.downloadLink_of operation in
  let url := interpolate downloadLink ++ "&key=" ++ apiKey in
  if truthy_opt downloadLink then
    match w.(on_fetch) url with
    | inr videoBlob =>
        (Relay.jsonResponse
           (Relay.generation_json masterPrompts
              {| preview_type := Some PreviewVideo;
                 preview_content :=
                   Some ("data:" ++ videoBlob.(blob_type) ++ ";base64,"
                         ++ Relay.arrayBufferToBase64
                              videoBlob.(blob_bytes)) |})
           200,
         [made (fetch url)])
    | inl error =>
        (fst (caught error), made (fetch url) :: snd (caught error))
    end
  else caught (JsError "Could not generate video.").

(** A response delivered after the calls that lead to it, on the fuel at
    hand: one unit per call. *)
Definition deliver {S} (fuel : nat) (s : S) (x : Relay.Response * list call)
  : outcome S Relay.Response :=
  if (length (snd x) <=? fuel)%nat
  then Done (fst x) s (snd x) (fuel - length (snd x))
  else OutOfFuel s (firstn fuel (snd x)).

(** The same provider, another request body. *)
Definition with_body (w : World) (b : thrown + ProxyRequestBody) : World :=
  {| request_body := b;
     on_generateContent := w.(on_generateContent);
     on_generateImages := w.(on_generateImages);
     submission := w.(submission);
     status_report := w.(status_report);
     on_fetch := w.(on_fetch) |}.

(** The body of a generation request, and the same request without its
    file. *)
Definition generate_body (d : PromptGenerationRequest) : ProxyRequestBody :=
  {| type := "generate"; payload := GeneratePayload d |}.

Definition without_file (d : PromptGenerationRequest)
  : PromptGenerationRequest :=
  {| context := d.(context);
     objective := d.(objective);
     role := d.(role);
     expectations := d.(expectations);
     systemInstruction := d.(systemInstruction);
     promptBody := d.(promptBody);
     mediaInstruction := d.(mediaInstruction);
     aiPlatform := d.(aiPlatform);
     outputType := d.(outputType);
     file := None;
     previewLanguage := d.(previewLanguage);
     masterPromptLanguages := d.(masterPromptLanguages);
     temperature := d.(temperature);
     topP := d.(topP);
     aspectRatio := d.(aspectRatio) |}.

(** The rest of the calls of a pathway, after its first call, in a response
    that succeeded: the video pathway polls and fetches, the other two make
    no further call. *)
Definition pathway_rest (p : Relay.Pathway) (rest : list call) : Prop :=
  match p with
  | Relay.VideoPathway =>
      exists (op : nat -> GenerateVideosOperation) n url,
        rest = (polling_rounds 5000 op n ++ [made (fetch url)])%list
  | _ => rest = []
  end.

(** The first entry whose language is English, whatever the case of its
    letters. *)
Definition english_entry (masterPrompts : list MasterPrompt)
  : option MasterPrompt :=
  find (fun p => toLowerCase p.(language) =? "english") masterPrompts.



(** The calls of a list, put in front of an outcome. *)
Definition after_all {S R} (cs : list call) (o : outcome S R) : outcome S R :=
  fold_right after o cs.

(** An outcome with its result seen through [g]. *)
Definition map_outcome {S A B} (g : A -> B) (o : outcome S A) : outcome S B :=
  match o with
  | Done r s calls f => Done (g r) s calls f
  | OutOfFuel s calls => OutOfFuel s calls
  end.

(** An outcome followed by the run of a continuation on what is left of the
    fuel. *)
Definition seq_outcome {S A B} (o : outcome S A)
    (k : A -> S -> nat -> outcome S B) : outcome S B :=
  match o with
  | Done r s calls f => after_all calls (k r s f)
  | OutOfFuel s calls => OutOfFuel s calls
  end.

End Script.

(* ===================================================================== *)
(** * The project file: [src/app.component.ts] *)
(* ===================================================================== *)

Module App.
Import Js.

Inductive Tab : Type := create | analyze.

(** The signals that [exportProject] reads and [onProjectImport] sets.  A
    signal holds the value last set, which after an import is whatever the
    file held: a value of a JSON document. *)
Record Signals : Type := {
  activeTab : Tab;
  context : json;
  objective : json;
  role : json;
  expectations : json;
  systemInstruction : json;
  promptBody : json;
  mediaInstruction : json;
  aiPlatform : json;
  outputType : json;
  uploadedFile : json;
  previewLanguage : json;
  masterLanguages : json;
  temperature : json;
  topP : json;
  aspectRatio : json;
  generationState : json
}.

Definition default_masterLanguages : json :=
  JObj [("English", JBool true); ("Vietnamese", JBool true);
        ("Chinese", JBool false); ("French", JBool false);
        ("Japanese", JBool false); ("Spanish", JBool false)].

Definition default_generationState : json :=
  JObj [("masterPrompts", JArr []);
        ("preview", JObj [("type", JNull); ("content", JStr "")]);
        ("isLoading", JBool false);
        ("error", JNull);
        ("loadingMessage", JStr "...")].

(** The values the signals are created with. *)
Definition initial : Signals :=
  {| activeTab := create;
     context := JStr "";
     objective := JStr "";
     role := JStr "";
     expectations := JStr "";
     systemInstruction := JStr "";
     promptBody := JStr "";
     mediaInstruction := JStr "";
     aiPlatform := JStr "Gemini";
     outputType := JStr "Image";
     uploadedFile := JNull;
     previewLanguage := JStr "Vietnamese";
     masterLanguages := default_masterLanguages;
     temperature := JNum (7 # 10)%Q;
     topP := JNum (95 # 100)%Q;
     aspectRatio := JStr "1:1";
     generationState := default_generationState |}.

(** The fields of [PromptProject], with the key each has in the file, the
    signal it is read from and written to, and the default [onProjectImport]
    gives it. *)
Inductive Field : Type :=
| f_context
| f_objective
| f_role
| f_expectations
| f_systemInstruction
| f_promptBody
| f_mediaInstruction
| f_aiPlatform
| f_outputType
| f_uploadedFile
| f_previewLanguage
| f_masterLanguages
| f_temperature
| f_topP
| f_aspectRatio
| f_generationState.

Definition all_fields : list Field :=
  [f_context; f_objective; f_role; f_expectations; f_systemInstruction; f_promptBody; f_mediaInstruction; f_aiPlatform; f_outputType; f_uploadedFile; f_previewLanguage; f_masterLanguages; f_temperature; f_topP; f_aspectRatio; f_generationState].

Definition key (f : Field) : string :=
  match f with
  | f_context => "context"
  | f_objective => "objective"
  | f_role => "role"
  | f_expectations => "expectations"
  | f_systemInstruction => "systemInstruction"
  | f_promptBody => "promptBody"
  | f_mediaInstruction => "mediaInstruction"
  | f_aiPlatform => "aiPlatform"
  | f_outputType => "outputType"
  | f_uploadedFile => "uploadedFile"
  | f_previewLanguage => "previewLanguage"
  | f_masterLanguages => "masterLanguages"
  | f_temperature => "temperature"
  | f_topP => "topP"
  | f_aspectRatio => "aspectRatio"
  | f_generationState => "generationState"
  end.

Definition read (f : Field) (s : Signals) : json :=
  match f with
  | f_context => s.(context)
  | f_objective => s.(objective)
  | f_role => s.(role)
  | f_expectations => s.(expectations)
  | f_systemInstruction => s.(systemInstruction)
  | f_promptBody => s.(promptBody)
  | f_mediaInstruction => s.(mediaInstruction)
  | f_aiPlatform => s.(aiPlatform)
  | f_outputType => s.(outputType)
  | f_uploadedFile => s.(uploadedFile)
  | f_previewLanguage => s.(previewLanguage)
  | f_masterLanguages => s.(masterLanguages)
  | f_temperature => s.(temperature)
  | f_topP => s.(topP)
  | f_aspectRatio => s.(aspectRatio)
  | f_generationState => s.(generationState)
  end.

Definition default (f : Field) : json :=
  match f with
  | f_context => JStr ""
  | f_objective => JStr ""
  | f_role => JStr ""
  | f_expectations => JStr ""
  | f_systemInstruction => JStr ""
  | f_promptBody => JStr ""
  | f_mediaInstruction => JStr ""
  | f_aiPlatform => JStr "Gemini"
  | f_outputType => JStr "Image"
  | f_uploadedFile => JNull
  | f_previewLanguage => JStr "Vietnamese"
  | f_masterLanguages => default_masterLanguages
  | f_temperature => JNum (7 # 10)%Q
  | f_topP => JNum (95 # 100)%Q
  | f_aspectRatio => JStr "1:1"
  | f_generationState => default_generationState
  end.

(** [exportProject]: the document that the downloaded file holds, which is
    what [JSON.parse] reads from the text [JSON.stringify(project, null, 2)]
    wrote from the signals. *)
Definition exportProject (s : Signals) : json :=
  written (JObj [
    ("context", s.(context));
    ("objective", s.(objective));
    ("role", s.(role));
    ("expectations", s.(expectations));
    ("systemInstruction", s.(systemInstruction));
    ("promptBody", s.(promptBody));
    ("mediaInstruction", s.(mediaInstruction));
    ("aiPlatform", s.(aiPlatform));
    ("outputType", s.(outputType));
    ("uploadedFile", s.(uploadedFile));
    ("previewLanguage", s.(previewLanguage));
    ("masterLanguages", s.(masterLanguages));
    ("temperature", s.(temperature));
    ("topP", s.(topP));
    ("aspectRatio", s.(aspectRatio));
    ("generationState", s.(generationState))
  ]).

(** [{ ...s, error: message }]: the own properties of [s] with [error] set.
    A value that is not an object has no own property, but for the indices
    of an array (and of a string, not followed here). *)
Fixpoint set_prop (k : string) (v : json) (fields : list (string * json))
  : list (string * json) :=
  match fields with
  | [] => [(k, v)]
  | (k', v') :: rest =>
      if k' =? k then (k, v) :: rest else (k', v') :: set_prop k v rest
  end.

Definition index_key (i : nat) : string :=
  NilEmpty.string_of_uint (Nat.to_uint i).

Definition spread (o : json) : list (string * json) :=
  match o with
  | JObj fields => fields
  | JArr items => combine (map index_key (seq 0 (length items))) items
  | _ => []
  end.

(** The [catch] of [onProjectImport]. *)
Definition import_failed (s : Signals) : Signals :=
  {| activeTab := create;
     context := s.(context);
     objective := s.(objective);
     role := s.(role);
     expectations := s.(expectations);
     systemInstruction := s.(systemInstruction);
     promptBody := s.(promptBody);
     mediaInstruction := s.(mediaInstruction);
     aiPlatform := s.(aiPlatform);
     outputType := s.(outputType);
     uploadedFile := s.(uploadedFile);
     previewLanguage := s.(previewLanguage);
     masterLanguages := s.(masterLanguages);
     temperature := s.(temperature);
     topP := s.(topP);
     aspectRatio := s.(aspectRatio);
     generationState :=
       JObj (set_prop "error"
               (JStr "Tệp dự án không hợp lệ hoặc bị hỏng.")
               (spread s.(generationState))) |}.

(** What the file input holds when [onProjectImport] runs: no file, or a
    file whose text [JSON.parse] rejects ([inl]) or parses ([inr]). *)
Inductive ChosenFile : Type :=
| NoFile
| FileText (parsed : string + json).

(** [onProjectImport]: every field is [project.field ?? default]; reading
    a property of [null] throws and lands in the [catch]. *)
Definition onProjectImport (chosen : ChosenFile) (s : Signals) : Signals :=
  match chosen with
  | NoFile => s
  | FileText (inl _) => import_failed s
  | FileText (inr JNull) => import_failed s
  | FileText (inr project) =>
      {| activeTab := create;
         context := nullish (get "context" project) (JStr "");
         objective := nullish (get "objective" project) (JStr "");
         role := nullish (get "role" project) (JStr "");
         expectations := nullish (get "expectations" project) (JStr "");
         systemInstruction := nullish (get "systemInstruction" project) (JStr "");
         promptBody := nullish (get "promptBody" project) (JStr "");
         mediaInstruction := nullish (get "mediaInstruction" project) (JStr "");
         aiPlatform := nullish (get "aiPlatform" project) (JStr "Gemini");
         outputType := nullish (get "outputType" project) (JStr "Image");
         uploadedFile := nullish (get "uploadedFile" project) (JNull);
         previewLanguage := nullish (get "previewLanguage" project) (JStr "Vietnamese");
         masterLanguages := nullish (get "masterLanguages" project) (default_masterLanguages);
         temperature := nullish (get "temperature" project) (JNum (7 # 10)%Q);
         topP := nullish (get "topP" project) (JNum (95 # 100)%Q);
         aspectRatio := nullish (get "aspectRatio" project) (JStr "1:1");
         generationState :=
           nullish (get "generationState" project) default_generationState
      |}
  end.

(** The declared types of [PromptProject], as far as [null] goes: a string,
    a number, an object, or (for the uploaded file) an object or [null]. *)
Definition is_string (j : json) : bool :=
  match j with JStr _ => true | _ => false end.

Definition is_number (j : json) : bool :=
  match j with JNum _ | JSpecial _ => true | _ => false end.

Definition is_object (j : json) : bool :=
  match j with JObj _ => true | _ => false end.

Definition is_object_or_null (j : json) : bool :=
  match j with JObj _ | JNull => true | _ => false end.

Definition declared (f : Field) : json -> bool :=
  match f with
  | f_uploadedFile => is_object_or_null
  | f_masterLanguages => is_object
  | f_temperature => is_number
  | f_topP => is_number
  | f_generationState => is_object
  | _ => is_string
  end.

Definition well_typed (s : Signals) : bool :=
  forallb (fun f => declared f (read f s)) all_fields.

(** No signal holds a number that JSON cannot write. *)
Definition all_writable (s : Signals) : bool :=
  forallb (fun f => writable (read f s)) all_fields.

(** The signals with the tab an import leaves. *)
Definition on_create_tab (s : Signals) : Signals :=
  {| activeTab := create;
     context := s.(context);
     objective := s.(objective);
     role := s.(role);
     expectations := s.(expectations);
     systemInstruction := s.(systemInstruction);
     promptBody := s.(promptBody);
     mediaInstruction := s.(mediaInstruction);
     aiPlatform := s.(aiPlatform);
     outputType := s.(outputType);
     uploadedFile := s.(uploadedFile);
     previewLanguage := s.(previewLanguage);
     masterLanguages := s.(masterLanguages);
     temperature := s.(temperature);
     topP := s.(topP);
     aspectRatio := s.(aspectRatio);
     generationState := s.(generationState) |}.

End App.

(* ===================================================================== *)
(** * Sample requests, providers and engine *)
(* ===================================================================== *)

Module Examples.
Import Js Types Async Script.

Definition q (s : string) : string := dq ++ s ++ dq.

(** The JSON text of a structured completion. *)
Definition prompts_text (masterPrompts : list MasterPrompt) : string :=
  "{" ++ q "prompts" ++ ":["
  ++ join ","
       (map (fun p => "{" ++ q "language" ++ ":" ++ q p.(language) ++ ","
                      ++ q "prompt" ++ ":" ++ q p.(prompt) ++ "}")
          masterPrompts)
  ++ "]}".

Definition bilingual : list MasterPrompt :=
  [{| language := "English";
      prompt := "Draw a red kite over the dunes at dawn." |};
   {| language := "Vietnamese";
      prompt := "Vẽ một cánh diều đỏ trên đồi cát lúc bình minh." |}].

(** One entry for two requested languages, and its prompt is empty. *)
Definition english_blank : list MasterPrompt :=
  [{| language := "English"; prompt := "" |}].

(** The English entry comes second and its prompt is empty. *)
Definition french_first : list MasterPrompt :=
  [{| language := "French"; prompt := "Dessine un cerf-volant rouge." |};
   {| language := "English"; prompt := "" |}].

(** The English entry comes second, in capitals. *)
Definition english_second : list MasterPrompt :=
  [{| language := "French"; prompt := "Dessine un cerf-volant rouge." |};
   {| language := "ENGLISH"; prompt := "Draw a red kite." |}].

(** An engine that parses the completions above and nothing else; the
    sample texts carry no white space around them. *)
Definition engine : Platform :=
  {| trim := fun s => s;
     JSON_parse := fun s =>
       if s =? "{}" then inr (JObj [])
       else inl "Unexpected end of JSON input";
     JSON_parse_prompts := fun s =>
       match find (fun ps => s =? prompts_text ps)
               [bilingual; english_blank; []] with
       | Some ps => inr {| prompts := Some ps |}
       | None => inl "Unexpected token in JSON"
       end;
     type_error_message := fun access =>
       "Cannot read properties of undefined (reading '" ++ access ++ "')" |}.

Definition configured : Relay.Context :=
  {| Relay.env := {| Relay.API_KEY := Some "k-123" |} |}.

Definition unconfigured : Relay.Context :=
  {| Relay.env := {| Relay.API_KEY := None |} |}.

(** A request for the two default languages. *)
Definition request (outputType : string) (file : option InlineFile)
  : PromptGenerationRequest :=
  {| context := "A seaside town";
     objective := "Announce the kite festival";
     role := "You are a poster artist";
     expectations := "One striking picture";
     systemInstruction := "";
     promptBody := "A kite festival poster";
     mediaInstruction := "";
     aiPlatform := "Gemini";
     outputType := outputType;
     file := file;
     previewLanguage := "Vietnamese";
     masterPromptLanguages := ["English"; "Vietnamese"];
     temperature := (7 # 10)%Q;
     topP := (95 # 100)%Q;
     aspectRatio := "1:1" |}.

Definition pending_operation : GenerateVideosOperation :=
  {| name := "operations/kite"; done := None; response := None |}.

Definition finished_operation : GenerateVideosOperation :=
  {| name := "operations/kite";
     done := Some true;
     response :=
       Some {| generatedVideos :=
                 Some [{| video :=
                            Some {| uri := Some "https://files/kite?alt=media" |}
                       |}] |} |}.

(** Done, but without a video. *)
Definition empty_operation : GenerateVideosOperation :=
  {| name := "operations/kite";
     done := Some true;
     response := Some {| generatedVideos := Some [] |} |}.

(** A provider that answers the structured completion with [masterPrompts],
    submits a pending job whose status checks report "not done" [pending]
    times and then [final], paints one image and writes one line. *)
Definition studio (body : thrown + ProxyRequestBody)
    (masterPrompts : list MasterPrompt) (pending : nat)
    (final : GenerateVideosOperation) : World :=
  {| request_body := body;
     on_generateContent := fun p =>
       match p.(gc_config) with
       | StructuredConfig _ _ =>
           inr {| text := Some (prompts_text masterPrompts) |}
       | SamplingConfig _ _ => inr {| text := Some "Lễ hội diều" |}
       end;
     on_generateImages := fun _ =>
       inr {| generatedImages :=
                Some [{| image := Some {| imageBytes := Some "iVBORw0KGgo=" |} |}] |};
     submission := fun _ => inr pending_operation;
     status_report := fun k =>
       inr (if (k <? pending)%nat then pending_operation else final);
     on_fetch := fun _ => inr {| blob_type := "video/mp4"; blob_bytes := "Man" |}
  |}.

(** The same provider with a job that never reports done. *)
Definition stalled_studio (body : thrown + ProxyRequestBody)
    (masterPrompts : list MasterPrompt) : World :=
  let w := studio body masterPrompts 0 finished_operation in
  {| request_body := w.(request_body);
     on_generateContent := w.(on_generateContent);
     on_generateImages := w.(on_generateImages);
     submission := w.(submission);
     status_report := fun _ => inr pending_operation;
     on_fetch := w.(on_fetch) |}.

(** A data URL whose comma is followed by nothing. *)
Definition hollow_file : InlineFile :=
  {| data := "data:text/plain;base64,"; mimeType := "text/plain" |}.

(** What [JSON.parse] returns for a project file that holds
    [{ temperature: 1e999, topP: -0 }]: the literal is out of the range of
    the doubles. *)
Definition overflowing_snapshot : json :=
  JObj [("temperature", JSpecial PositiveInfinity);
        ("topP", JSpecial NegativeZero)].

(** The signals of a session that holds a file and a generated response. *)
Definition session : App.Signals :=
  {| App.activeTab := App.analyze;
     App.context := JStr "A seaside town";
     App.objective := JStr "Announce the kite festival";
     App.role := JStr "You are a poster artist";
     App.expectations := JStr "";
     App.systemInstruction := JStr "";
     App.promptBody := JStr "A kite festival poster";
     App.mediaInstruction := JStr "";
     App.aiPlatform := JStr "Midjourney";
     App.outputType := JStr "Video";
     App.uploadedFile :=
       JObj [("data", JStr "data:image/png;base64,iVBORw0KGgo=");
             ("mimeType", JStr "image/png");
             ("name", JStr "kite.png")];
     App.previewLanguage := JStr "English";
     App.masterLanguages :=
       JObj [("English", JBool true); ("Vietnamese", JBool false)];
     App.temperature := JNum (3 # 10)%Q;
     App.topP := JNum (1 # 2)%Q;
     App.aspectRatio := JStr "16:9";
     App.generationState :=
       JObj [("masterPrompts",
              JArr (map Relay.masterPrompt_json bilingual));
             ("preview",
              JObj [("type", JStr "video");
                    ("content", JStr "data:video/mp4;base64,TWFu")]);
             ("isLoading", JBool false);
             ("error", JNull);
             ("loadingMessage", JStr "")] |}.

(** A file written before the sampling parameters existed. *)
Definition older_snapshot : json :=
  JObj [("context", JStr "A seaside town");
        ("outputType", JStr "Image");
        ("uploadedFile", JNull)].

End Examples.

(* ===================================================================== *)
(** * The order of the calls of one request *)
(* ===================================================================== *)

Module Protocol.
Import Js Types Async.

(** The kinds of call. *)
Definition is_body_read (c : call) : bool :=
  match projT2 c with
  | request_json => true
  | _ => false
  end.

Definition is_log (c : call) : bool :=
  match projT2 c with
  | console_error _ _ => true
  | _ => false
  end.

Definition is_completion (c : call) : bool :=
  match projT2 c with
  | generateContent _ => true
  | _ => false
  end.

Definition is_image_call (c : call) : bool :=
  match projT2 c with
  | generateImages _ => true
  | _ => false
  end.

Definition is_submission (c : call) : bool :=
  match projT2 c with
  | generateVideos _ => true
  | _ => false
  end.

Definition is_download (c : call) : bool :=
  match projT2 c with
  | fetch _ => true
  | _ => false
  end.

(** Where a request stands, told from the calls made so far: nothing yet,
    the body read, the structured completion asked for, the image or the
    text preview asked for, the video job submitted or checked, the sleep
    before the next check, the asset downloaded, the failure logged. *)
Inductive Phase : Type :=
| Arrived
| BodyRead
| PromptsAsked
| PreviewAsked
| Submitted
| Slept
| Downloaded
| Logged.

(** The calls that the control flow of [onRequestPost], [handleGenerate] and
    [handleAnalyze] allows in each phase; [interval] is the sleep of the
    polling loop. *)
Definition step (interval : Z) (p : Phase) (c : call) : option Phase :=
  match projT2 c with
  | request_json =>
      match p with
      | Arrived => Some BodyRead
      | _ => None
      end
  | generateContent _ =>
      match p with
      | BodyRead => Some PromptsAsked
      | PromptsAsked => Some PreviewAsked
      | _ => None
      end
  | generateImages _ =>
      match p with
      | PromptsAsked => Some PreviewAsked
      | _ => None
      end
  | generateVideos _ =>
      match p with
      | PromptsAsked => Some Submitted
      | _ => None
      end
  | setTimeout ms =>
      match p with
      | Submitted => if (ms =? interval)%Z then Some Slept else None
      | _ => None
      end
  | getVideosOperation _ =>
      match p with
      | Slept => Some Submitted
      | _ => None
      end
  | fetch _ =>
      match p with
      | Submitted => Some Downloaded
      | _ => None
      end
  | console_error _ _ =>
      match p with
      | BodyRead | PromptsAsked | PreviewAsked | Submitted | Downloaded =>
          Some Logged
      | _ => None
      end
  end.

Fixpoint follows (interval : Z) (p : Phase) (calls : list call)
  : option Phase :=
  match calls with
  | [] => Some p
  | c :: rest =>
      match step interval p c with
      | Some q => follows interval q rest
      | None => None
      end
  end.

Definition phase_eqb (p q : Phase) : bool :=
  match p, q with
  | Arrived, Arrived | BodyRead, BodyRead | PromptsAsked, PromptsAsked
  | PreviewAsked, PreviewAsked | Submitted, Submitted | Slept, Slept
  | Downloaded, Downloaded | Logged, Logged => true
  | _, _ => false
  end.

(** The calls are allowed from phase [p] on and lead to one of the phases
    [allowed]. *)
Definition ends_in (interval : Z) (p : Phase) (calls : list call)
    (allowed : list Phase) : bool :=
  match follows interval p calls with
  | Some q => existsb (phase_eqb q) allowed
  | None => false
  end.

(** The phases in which a failure can be caught and logged. *)
Definition failing : list Phase :=
  [BodyRead; PromptsAsked; PreviewAsked; Submitted; Downloaded].

Definition any_phase : list Phase :=
  [Arrived; BodyRead; PromptsAsked; PreviewAsked; Submitted; Slept;
   Downloaded; Logged].

End Protocol.

(* ===================================================================== *)
(** * The browser's engine *)
(* ===================================================================== *)

(** What the browser supplies to the client and this development does not
    re-implement: [String(value)] and [Number(value)] on a value of a JSON
    document that is not already a string or a number ([None] is [NaN]);
    [FileReader.readAsDataURL], which answers [None] when the read fails;
    and the truth value of [Object.prototype[k]], which is what [o[k]] reads
    when the object [o] has no property [k] of its own ([toString],
    [constructor] and the like are truthy). *)
Class Browser : Type := {
  String_of : Js.json -> string;
  Number_of : Js.json -> option Js.number;
  readAsDataURL : Types.Blob -> option string;
  inherited_truthy : string -> bool
}.

(* ===================================================================== *)
(** * The service that calls the provider from the browser:
      [src/services/gemini.service.ts] *)
(* ===================================================================== *)

Module Service.
Import Js Types Async Async.Notations.

Section WithPlatform.
Context {platform : Platform} {browser : Browser}.

(** [process.env]; a variable that is not set is [None]. *)
Record ProcessEnv : Type := {
  API_KEY : option string
}.

(** [PromptGenerationResponse] *)
Record PromptGenerationResponse : Type := {
  masterPrompts : list MasterPrompt;
  preview : Preview
}.

(** The constructor warns when the key is not set, and builds the client
    all the same. *)
Definition constructor_warning (env : ProcessEnv) : option string :=
  if negb (truthy_opt env.(API_KEY))
  then Some "API_KEY environment variable not set."
  else None.

(** The schema of the structured completion: the relay's, with a description
    on each of the two strings. *)
Definition prompts_schema : Schema :=
  mkSchema OBJECT None
    [("prompts",
      mkSchema ARRAY
        (Some "An array of master prompts, one for each requested language.")
        []
        (Some (mkSchema OBJECT None
                 [("language",
                   mkSchema STRING
                     (Some "The language of the prompt (e.g., 'English', 'Vietnamese').")
                     [] None []);
                  ("prompt",
                   mkSchema STRING
                     (Some "The master prompt text in the specified language.")
                     [] None [])]
                 None ["language"; "prompt"]))
        [])]
    None ["prompts"].

(** The meta-prompt is, character for character, the one of the relay's
    [handleGenerate]. *)
Definition prompts_request (data : PromptGenerationRequest)
  : GenerateContentParameters :=
  let languagesString := join ", " data.(masterPromptLanguages) in
  let metaPrompt := Relay.generate_metaPrompt data languagesString in
  {| gc_model := "gemini-2.5-flash";
     gc_contents := ContentsText metaPrompt;
     gc_config := StructuredConfig "application/json" prompts_schema |}.

Definition request_masterPrompts (data : PromptGenerationRequest)
  : js (list MasterPrompt) :=
  let* promptGenerationResult :=
    await (generateContent (prompts_request data)) in
  match promptGenerationResult.(text) with
  | None => throw (Relay.TypeError "text.trim")
  | Some text =>
      match JSON_parse_prompts (trim text) with
      | inl message => throw (JsError message)
      | inr result =>
          match result.(prompts) with
          | None | Some [] => throw (JsError "AI did not return any prompts.")
          | Some masterPrompts => ret masterPrompts
          end
      end
  end.

(** The video branch: the loop sleeps 10000 ms, the key in the URL of the
    asset is the variable of the environment, and the asset is read as a
    data URL by a [FileReader], whose failure rejects with the event, which
    is no [Error]. *)
Definition video_preview (env : ProcessEnv) (basePrompt : string)
    (data : PromptGenerationRequest) : js Preview :=
  let* operation :=
    await (generateVideos (Relay.videoGenParams basePrompt data)) in
  let* operation := Relay.poll_until_done 10000 operation in
  let downloadLink := Relay.downloadLink_of operation in
  if truthy_opt downloadLink then
    let* videoBlob :=
      await (fetch (interpolate downloadLink ++ "&key="
                    ++ interpolate env.(API_KEY))) in
    match readAsDataURL videoBlob with
    | Some videoDataUrl =>
        ret {| preview_type := Some PreviewVideo;
               preview_content := Some videoDataUrl |}
    | None => throw NonError
    end
  else throw (JsError "Không thể tạo video.").

(** [error instanceof Error ? error.message : 'Lỗi không xác định.'] *)
Definition errorMessage_of (error : thrown) : string :=
  match error with
  | JsError message => message
  | NonError => "Lỗi không xác định."
  end.

(** The [try] block of [generateProfessionalPrompt]: the steps of the
    relay's [handleGenerate]; the image and the text branch are those of the
    relay, line for line. *)
Definition generation (env : ProcessEnv) (data : PromptGenerationRequest)
  : js PromptGenerationResponse :=
  let* masterPrompts := request_masterPrompts data in
  match Relay.basePromptForPreview masterPrompts with
  | None => throw (Relay.TypeError "masterPrompts[0].prompt")
  | Some basePrompt =>
      let parts := Relay.previewPromptParts basePrompt data.(file) in
      let* preview :=
        if includes Relay.IMAGE_OUTPUT_TYPES data.(outputType) then
          Relay.image_preview basePrompt data
        else if includes Relay.VIDEO_OUTPUT_TYPES data.(outputType) then
          video_preview env basePrompt data
        else
          Relay.text_preview parts data in
      ret {| masterPrompts := masterPrompts; preview := preview |}
  end.

(** [generateProfessionalPrompt(data)]: the promise resolves with the
    response ([inr]) or rejects with a new [Error], of which [inl] is the
    message. *)
Definition generateProfessionalPrompt (env : ProcessEnv)
    (data : PromptGenerationRequest)
  : itree callE (string + PromptGenerationResponse) :=
  try_catch
    (let* response := generation env data in ret (inr response))
    (fun error =>
       ITree.bind
         (ITree.trigger (console_error "Error in generation process:" error))
         (fun _ =>
            let errorMessage := errorMessage_of error in
            Ret (inl ("Không thể tạo prompt. Lỗi: " ++ errorMessage)))).

(** The schema of the analysis: the relay's, with descriptions. *)
Definition analysis_schema : Schema :=
  mkSchema OBJECT None
    [("score",
      mkSchema NUMBER (Some "A score from 0 to 100 for the prompt's quality.")
        [] None []);
     ("analysis",
      mkSchema OBJECT None
        [("context",
          mkSchema STRING (Some "Analysis of the Context component.")
            [] None []);
         ("objective",
          mkSchema STRING (Some "Analysis of the Objective component.")
            [] None []);
         ("role",
          mkSchema STRING (Some "Analysis of the Role component.") [] None []);
         ("expectations",
          mkSchema STRING (Some "Analysis of the Expectations component.")
            [] None [])]
        None ["context"; "objective"; "role"; "expectations"]);
     ("suggestions",
      mkSchema STRING
        (Some "A paragraph of actionable suggestions for improving the prompt.")
        [] None [])]
    None ["score"; "analysis"; "suggestions"].

Definition analysis_request (promptToAnalyze : string)
  : GenerateContentParameters :=
  let metaPrompt := Relay.analyze_metaPrompt (Some promptToAnalyze) in
  {| gc_model := "gemini-2.5-flash";
     gc_contents := ContentsText metaPrompt;
     gc_config := StructuredConfig "application/json" analysis_schema |}.

(** The [try] block of [analyzePromptQuality]. *)
Definition analysis (promptToAnalyze : string) : js json :=
  let* result := await (generateContent (analysis_request promptToAnalyze)) in
  match result.(text) with
  | None => throw (Relay.TypeError "text.trim")
  | Some text =>
      match JSON_parse (trim text) with
      | inl message => throw (JsError message)
      | inr parsed => ret parsed
      end
  end.

(** [analyzePromptQuality(promptToAnalyze)]: the parsed completion, as it
    is, or a new [Error]. *)
Definition analyzePromptQuality (promptToAnalyze : string)
  : itree callE (string + json) :=
  try_catch
    (let* result := analysis promptToAnalyze in ret (inr result))
    (fun error =>
       ITree.bind
         (ITree.trigger (console_error "Error analyzing prompt:" error))
         (fun _ =>
            let errorMessage := errorMessage_of error in
            Ret (inl ("Không thể phân tích prompt. Lỗi: " ++ errorMessage)))).

End WithPlatform.
End Service.

(* ===================================================================== *)
(** * The service that calls the relay: [postToProxy] *)
(* ===================================================================== *)

Module Client.
Import Js Types Async.

(** What [fetch] resolved with, as far as [postToProxy] looks at it:
    [response.ok], [response.statusText] and what [response.json()] settles
    with. *)
Record FetchResponse : Type := {
  ok : bool;
  statusText : string;
  parsed : thrown + json
}.

(** The network: what the [fetch] of a body settles with, [None] when it
    never settles. *)
Definition Network : Type :=
  ProxyRequestBody -> option (thrown + FetchResponse).

(** The truth value of a value of a JSON document. *)
Definition truthy_json (v : json) : bool :=
  match v with
  | JNull => false
  | JBool b => b
  | JNum n => negb (Qeq_bool n 0)
  | JStr s => truthy s
  | JArr _ | JObj _ => true
  | JSpecial NaN | JSpecial NegativeZero => false
  | JSpecial PositiveInfinity | JSpecial NegativeInfinity => true
  end.

Section WithPlatform.
Context {platform : Platform} {browser : Browser}.

(** The message of [new Error(value)]. *)
Definition message_of (v : json) : string :=
  match v with
  | JStr s => s
  | _ => String_of v
  end.

(** [error instanceof Error ? error.message
      : 'Lỗi không xác định khi giao tiếp với server.'] *)
Definition errorMessage_of (error : thrown) : string :=
  match error with
  | JsError message => message
  | NonError => "Lỗi không xác định khi giao tiếp với server."
  end.

(** The [try] block of [postToProxy], once [fetch] has settled. *)
Definition attempt (fetched : thrown + FetchResponse) : thrown + json :=
  match fetched with
  | inl error => inl error
  | inr response =>
      match response.(parsed) with
      | inl error => inl error
      | inr result =>
          if negb response.(ok) then
            match result with
            | JNull => inl (Relay.TypeError "error")
            | _ =>
                let fallback :=
                  JStr ("Server error: " ++ response.(statusText)) in
                let reported :=
                  match get "error" result with
                  | Some e => if truthy_json e then e else fallback
                  | None => fallback
                  end in
                inl (JsError (message_of reported))
            end
          else inr result
      end
  end.

(** [postToProxy(body)]: the result ([inr]) or the message of the new
    [Error] it rejects with ([inl]), and what it logged. *)
Definition postToProxy (network : Network) (body : ProxyRequestBody)
  : option ((string + json) * list call) :=
  match network body with
  | None => None
  | Some fetched =>
      Some
        match attempt fetched with
        | inr result => (inr result, [])
        | inl error =>
            let errorMessage := errorMessage_of error in
            (inl ("Không thể thực hiện yêu cầu. Lỗi: " ++ errorMessage),
             [made (console_error
                      ("Error calling proxy for type " ++ body.(type) ++ ":")
                      error)])
        end
  end.

Definition generateProfessionalPrompt (network : Network)
    (data : PromptGenerationRequest) : option ((string + json) * list call) :=
  postToProxy network {| type := "generate"; payload := GeneratePayload data |}.

Definition analyzePromptQuality (network : Network) (promptToAnalyze : string)
  : option ((string + json) * list call) :=
  postToProxy network
    {| type := "analyze"; payload := AnalyzePayload promptToAnalyze |}.

(** ** The relay behind the network *)

(** The response of the relay as [fetch] hands it over: [ok] is a status
    from 200 to 299, [reason] is the status text the transport gives a
    status, and [response.json()] reads back the text that [JSON.stringify]
    wrote from the value the relay answered with. *)
Definition served (reason : Z -> string) (r : Relay.Response)
  : FetchResponse :=
  {| ok := ((200 <=? r.(Relay.status)) && (r.(Relay.status) <=? 299))%Z;
     statusText := reason r.(Relay.status);
     parsed := inr (written r.(Relay.body)) |}.

(** What the relay, with the provider [w], answers to a body: a response
    on some fuel, or none on any. *)
Definition relay_answers (w : Script.World) (ctx : Relay.Context)
    (body : ProxyRequestBody) (answer : option Relay.Response) : Prop :=
  let run_on fuel :=
    finished
      (run (Script.world (Script.with_body w (inr body))) fuel
         (Relay.onRequestPost ctx) 0) in
  match answer with
  | Some r => exists fuel calls, run_on fuel = Some (r, calls)
  | None => forall fuel, run_on fuel = None
  end.

End WithPlatform.
End Client.

(* ===================================================================== *)
(** * The generation handler on a completion of any shape *)
(* ===================================================================== *)

(** What the engine supplies, besides [Platform], when a value is not of
    its declared type: [String(value)] for a value that is no string, which
    is what [+=] makes of it before it appends a string; the message of the
    [TypeError] raised by a property access on [null]; and the message of
    the [TypeError] raised by the call of what is no function. *)
Class Runtime : Type := {
  to_string : Js.json -> string;
  null_error_message : string -> string;
  not_a_function_message : string -> string
}.

(** [Relay.handleGenerate] takes the structured completion at its declared
    type, [{ prompts: { language: string; prompt: string }[] }].  The
    provider is asked for that shape, but the relay does not check the
    text it gets: here is the same handler on every document that
    [JSON.parse] can return, with the reads of lines 130 to 136 as
    JavaScript makes them.  The calls of the provider's client keep their
    declared types: where the relay would hand the client a prompt that is
    no string, the model stops and says so ([Beyond]). *)
Module Untyped.
Import Js Types Async Async.Notations.

Inductive Beyond : Type :=
| prompt_not_a_string (prompt : option json).

Section WithPlatform.
Context {platform : Platform} {runtime : Runtime}.

Definition NullError (access : string) : thrown :=
  JsError (null_error_message access).

Definition NotAFunction (access : string) : thrown :=
  JsError (not_a_function_message access).

(** [const masterPrompts = result.prompts; if (!masterPrompts ||
    masterPrompts.length === 0) throw ...], and the array that
    [masterPrompts.find] needs: only an array has a [find] to call. *)
Definition masterPrompts_of (result : json) : thrown + list json :=
  match result with
  | JNull => inl (NullError "result.prompts")
  | _ =>
      match get "prompts" result with
      | None => inl (JsError "AI did not return any prompts.")
      | Some masterPrompts =>
          if negb (Client.truthy_json masterPrompts)
          then inl (JsError "AI did not return any prompts.")
          else
            match masterPrompts with
            | JArr [] => inl (JsError "AI did not return any prompts.")
            | JArr items => inr items
            | JObj fields =>
                match assoc "length" fields with
                | Some (JNum n) =>
                    if Qeq_bool n 0
                    then inl (JsError "AI did not return any prompts.")
                    else inl (NotAFunction "masterPrompts.find")
                | Some (JSpecial NegativeZero) =>
                    inl (JsError "AI did not return any prompts.")
                | _ => inl (NotAFunction "masterPrompts.find")
                end
            | _ => inl (NotAFunction "masterPrompts.find")
            end
      end
  end.

(** [masterPrompts.find(p => p.language.toLowerCase() === 'english')]: the
    entries are tested in their order, up to the first that passes; the
    test throws on an entry that is [null], that has no [language] or whose
    [language] is no string. *)
Fixpoint find_english (masterPrompts : list json) : thrown + option json :=
  match masterPrompts with
  | [] => inr None
  | p :: rest =>
      match p with
      | JNull => inl (NullError "p.language")
      | _ =>
          match get "language" p with
          | None => inl (Relay.TypeError "p.language.toLowerCase")
          | Some JNull => inl (NullError "p.language.toLowerCase")
          | Some (JStr language) =>
              if toLowerCase language =? "english" then inr (Some p)
              else find_english rest
          | Some _ => inl (NotAFunction "p.language.toLowerCase")
          end
      end
  end.

(** The truth value of what a property access returned. *)
Definition truthy_value (v : option json) : bool :=
  match v with
  | Some v => Client.truthy_json v
  | None => false
  end.

(** [... ?.prompt || masterPrompts[0].prompt]: a value of any type, or
    [undefined] ([None]). *)
Definition basePromptForPreview (masterPrompts : list json)
  : thrown + option json :=
  match find_english masterPrompts with
  | inl error => inl error
  | inr found =>
      let prompt :=
        match found with
        | Some p => get "prompt" p
        | None => None
        end in
      if truthy_value prompt then inr prompt
      else
        match nth_error masterPrompts 0 with
        | None => inl (Relay.TypeError "masterPrompts[0].prompt")
        | Some JNull => inl (NullError "masterPrompts[0].prompt")
        | Some first => inr (get "prompt" first)
        end
  end.

(** The text of the part [{ text: basePromptForPreview }] once
    [text += ...] has run on it. *)
Definition text_of (basePrompt : option json) : string :=
  match basePrompt with
  | None => "undefined"
  | Some (JStr s) => s
  | Some v => to_string v
  end.

(** [jsonResponse({ masterPrompts, preview })]: the entries as they were
    parsed. *)
Definition success (masterPrompts : list json) (preview : Preview)
  : Relay.Response :=
  Relay.jsonResponse
    (JObj [("masterPrompts", JArr masterPrompts);
           ("preview", Relay.preview_json preview)])
    200.

Definition handleGenerate (ai : Relay.GoogleGenAI) (data : Payload)
    (apiKey : string) : js (Beyond + Relay.Response) :=
  match data with
  | AnalyzePayload _ => throw (Relay.TypeError "masterPromptLanguages.join")
  | GeneratePayload d =>
      let* promptGenerationResult :=
        await (generateContent (Relay.prompts_request d)) in
      match promptGenerationResult.(text) with
      | None => throw (Relay.TypeError "text.trim")
      | Some text =>
          match JSON_parse (trim text) with
          | inl message => throw (JsError message)
          | inr result =>
              match masterPrompts_of result with
              | inl error => throw error
              | inr masterPrompts =>
                  match basePromptForPreview masterPrompts with
                  | inl error => throw error
                  | inr basePrompt =>
                      if includes Relay.IMAGE_OUTPUT_TYPES d.(outputType) then
                        match basePrompt with
                        | Some (JStr prompt) =>
                            let* preview := Relay.image_preview prompt d in
                            ret (inr (success masterPrompts preview))
                        | _ => ret (inl (prompt_not_a_string basePrompt))
                        end
                      else if includes Relay.VIDEO_OUTPUT_TYPES d.(outputType)
                      then
                        match basePrompt with
                        | Some (JStr prompt) =>
                            let* preview :=
                              Relay.video_preview prompt d apiKey in
                            ret (inr (success masterPrompts preview))
                        | _ => ret (inl (prompt_not_a_string basePrompt))
                        end
                      else
                        let parts :=
                          Relay.previewPromptParts (text_of basePrompt)
                            d.(file) in
                        let* preview := Relay.text_preview parts d in
                        ret (inr (success masterPrompts preview))
                  end
              end
          end
      end
  end.

(** The [switch] of [onRequestPost] and the handler itself, around this
    [handleGenerate]. *)
Definition dispatch (apiKey : string) : js (Beyond + Relay.Response) :=
  let* body := await request_json in
  let ai := {| Relay.apiKey := apiKey |} in
  if body.(type) =? "generate" then handleGenerate ai body.(payload) apiKey
  else if body.(type) =? "analyze" then
    let* response := Relay.handleAnalyze ai body.(payload) in
    ret (inr response)
  else
    ret (inr (Relay.jsonResponse
                (Relay.error_body "Invalid request type") 400)).

Definition onRequestPost (context : Relay.Context)
  : itree callE (Beyond + Relay.Response) :=
  let apiKey := context.(Relay.env).(Relay.API_KEY) in
  if negb (truthy_opt apiKey) then
    Ret (inr (Relay.jsonResponse
                (Relay.error_body "API_KEY is not configured on the server.")
                500))
  else
    try_catch (dispatch (value apiKey)) (fun error =>
      ITree.bind
        (ITree.trigger (console_error "Error in proxy function:" error))
        (fun _ =>
           let errorMessage := Relay.errorMessage_of error in
           Ret (inr (Relay.jsonResponse (Relay.error_body errorMessage)
                       500)))).

(** The engine's two parses agree on the text [s]: [JSON_parse_prompts]
    returns the view, at the declared type, of the document that
    [JSON_parse] returns. *)
Definition parses_agree (s : string) : Prop :=
  match JSON_parse_prompts s with
  | inl message => JSON_parse s = inl message
  | inr {| prompts := None |} =>
      exists result,
        JSON_parse s = inr result
        /\ result <> JNull
        /\ (get "prompts" result = None \/ get "prompts" result = Some JNull)
  | inr {| prompts := Some masterPrompts |} =>
      exists result,
        JSON_parse s = inr result
        /\ get "prompts" result
           = Some (JArr (map Relay.masterPrompt_json masterPrompts))
  end.

End WithPlatform.
End Untyped.


(* ===================================================================== *)
(** * The component: the methods of [AppComponent] *)
(* ===================================================================== *)

Module Component.
Import Js Types.

(** The signals, each at its declared type.  An object is the list of its
    properties in the order in which JavaScript enumerates them. *)
Record UploadedFile : Type := {
  data : string;
  mimeType : string;
  name : string
}.

(** [GenerationState]; [masterPrompts] and [preview] hold what the service
    answered, [None] when the answer has no such property; a [null] error is
    [None]. *)
Record GenerationState : Type := {
  masterPrompts : option json;
  preview : option json;
  isLoading : bool;
  error : option string;
  loadingMessage : string
}.

(** [AnalysisState]; a [null] result is [JNull]. *)
Record AnalysisState : Type := {
  result : json;
  analysis_isLoading : bool;
  analysis_error : option string
}.

Record State : Type := {
  activeTab : App.Tab;
  context : string;
  objective : string;
  role : string;
  expectations : string;
  systemInstruction : string;
  promptBody : string;
  mediaInstruction : string;
  aiPlatform : string;
  outputType : string;
  uploadedFile : option UploadedFile;
  previewLanguage : string;
  masterLanguages : list (string * bool);
  temperature : number;
  topP : number;
  aspectRatio : string;
  generationState : GenerationState;
  promptToAnalyze : string;
  analysisState : AnalysisState
}.

Definition default_masterLanguages : list (string * bool) :=
  [("English", true); ("Vietnamese", true); ("Chinese", false);
   ("French", false); ("Japanese", false); ("Spanish", false)].

(** The values the signals are created with. *)
Definition initial : State :=
  {| activeTab := App.create;
     context := "";
     objective := "";
     role := "";
     expectations := "";
     systemInstruction := "";
     promptBody := "";
     mediaInstruction := "";
     aiPlatform := "Gemini";
     outputType := "Image";
     uploadedFile := None;
     previewLanguage := "Vietnamese";
     masterLanguages := default_masterLanguages;
     temperature := (7 # 10)%Q;
     topP := (95 # 100)%Q;
     aspectRatio := "1:1";
     generationState :=
       {| masterPrompts := Some (JArr []);
          preview := Some (JObj [("type", JNull); ("content", JStr "")]);
          isLoading := false;
          error := None;
          loadingMessage := "..." |};
     promptToAnalyze := "";
     analysisState :=
       {| result := JNull; analysis_isLoading := false;
          analysis_error := None |} |}.

(** The static data of the form. *)
Definition platforms : list string :=
  ["Gemini"; "ChatGPT"; "Claude"; "Midjourney"; "DALL-E 3";
   "Stable Diffusion"].

Definition outputTypes : list string :=
  ["Image"; "Video"; "App"; "Landing Page"; "Web"; "Bài viết Blog";
   "Code Snippet"; "Kịch bản"; "Email"].


(** [signal.set(v)] on the signals the methods write. *)

Definition set_uploadedFile (v : option UploadedFile) (s : State) : State :=
  {| activeTab := s.(activeTab);
     context := s.(context);
     objective := s.(objective);
     role := s.(role);
     expectations := s.(expectations);
     systemInstruction := s.(systemInstruction);
     promptBody := s.(promptBody);
     mediaInstruction := s.(mediaInstruction);
     aiPlatform := s.(aiPlatform);
     outputType := s.(outputType);
     uploadedFile := v;
     previewLanguage := s.(previewLanguage);
     masterLanguages := s.(masterLanguages);
     temperature := s.(temperature);
     topP := s.(topP);
     aspectRatio := s.(aspectRatio);
     generationState := s.(generationState);
     promptToAnalyze := s.(promptToAnalyze);
     analysisState := s.(analysisState) |}.

Definition set_masterLanguages (v : list (string * bool)) (s : State) : State :=
  {| activeTab := s.(activeTab);
     context := s.(context);
     objective := s.(objective);
     role := s.(role);
     expectations := s.(expectations);
     systemInstruction := s.(systemInstruction);
     promptBody := s.(promptBody);
     mediaInstruction := s.(mediaInstruction);
     aiPlatform := s.(aiPlatform);
     outputType := s.(outputType);
     uploadedFile := s.(uploadedFile);
     previewLanguage := s.(previewLanguage);
     masterLanguages := v;
     temperature := s.(temperature);
     topP := s.(topP);
     aspectRatio := s.(aspectRatio);
     generationState := s.(generationState);
     promptToAnalyze := s.(promptToAnalyze);
     analysisState := s.(analysisState) |}.

Definition set_generationState (v : GenerationState) (s : State) : State :=
  {| activeTab := s.(activeTab);
     context := s.(context);
     objective := s.(objective);
     role := s.(role);
     expectations := s.(expectations);
     systemInstruction := s.(systemInstruction);
     promptBody := s.(promptBody);
     mediaInstruction := s.(mediaInstruction);
     aiPlatform := s.(aiPlatform);
     outputType := s.(outputType);
     uploadedFile := s.(uploadedFile);
     previewLanguage := s.(previewLanguage);
     masterLanguages := s.(masterLanguages);
     temperature := s.(temperature);
     topP := s.(topP);
     aspectRatio := s.(aspectRatio);
     generationState := v;
     promptToAnalyze := s.(promptToAnalyze);
     analysisState := s.(analysisState) |}.

Definition set_analysisState (v : AnalysisState) (s : State) : State :=
  {| activeTab := s.(activeTab);
     context := s.(context);
     objective := s.(objective);
     role := s.(role);
     expectations := s.(expectations);
     systemInstruction := s.(systemInstruction);
     promptBody := s.(promptBody);
     mediaInstruction := s.(mediaInstruction);
     aiPlatform := s.(aiPlatform);
     outputType := s.(outputType);
     uploadedFile := s.(uploadedFile);
     previewLanguage := s.(previewLanguage);
     masterLanguages := s.(masterLanguages);
     temperature := s.(temperature);
     topP := s.(topP);
     aspectRatio := s.(aspectRatio);
     generationState := s.(generationState);
     promptToAnalyze := s.(promptToAnalyze);
     analysisState := v |}.


(** ** Objects with computed keys *)

(** The property [k] of [o] itself. *)
Fixpoint lookup {A} (k : string) (o : list (string * A)) : option A :=
  match o with
  | [] => None
  | (k', v) :: rest => if k' =? k then Some v else lookup k rest
  end.

(** [Object.keys(o)] *)
Definition Object_keys {A} (o : list (string * A)) : list string :=
  map fst o.

(** An array index: the decimal numeral, without a leading zero, of an
    integer below [2^32 - 1].  JavaScript enumerates the properties whose
    key is an array index first, in ascending order, and the other
    properties after them in the order of their creation. *)
Definition array_index (k : string) : option N :=
  match NilEmpty.uint_of_string k with
  | Some u =>
      let n := N.of_uint u in
      if (k =? NilEmpty.string_of_uint (N.to_uint n)) && (n <? 4294967295)%N
      then Some n
      else None
  | None => None
  end.

Fixpoint replace_property {A} (k : string) (v : A) (o : list (string * A))
  : list (string * A) :=
  match o with
  | [] => []
  | (k', v') :: rest =>
      if k' =? k then (k, v) :: rest else (k', v') :: replace_property k v rest
  end.

Fixpoint insert_index {A} (n : N) (k : string) (v : A)
    (o : list (string * A)) : list (string * A) :=
  match o with
  | [] => [(k, v)]
  | (k', v') :: rest =>
      match array_index k' with
      | Some n' =>
          if (n' <? n)%N then (k', v') :: insert_index n k v rest
          else (k, v) :: o
      | None => (k, v) :: o
      end
  end.

(** [{ ...o, [k]: v }]: a property that exists keeps its place, a new one
    takes the place its key gives it. *)
Definition with_property {A} (k : string) (v : A) (o : list (string * A))
  : list (string * A) :=
  match lookup k o with
  | Some _ => replace_property k v o
  | None =>
      match array_index k with
      | Some n => insert_index n k v o
      | None => o ++ [(k, v)]
      end
  end.

(** ** The computed signals *)

(** [isMediaOutput] *)
Definition isMediaOutput (s : State) : bool :=
  includes ["Image"; "Video"] s.(outputType).

Section WithBrowser.
Context {platform : Platform} {browser : Browser}.

(** The truth value of [o[k]] on an object of booleans: the property of
    [o] itself, or else what it inherits. *)
Definition property_truthy (k : string) (o : list (string * bool)) : bool :=
  match lookup k o with
  | Some b => b
  | None => inherited_truthy k
  end.

(** [scoreColorClass]: [>=] compares numbers; a score that is no number is
    converted by the engine, and nothing compares with [NaN]. *)
Definition at_least (score : json) (bound : number) : bool :=
  match score with
  | JNum n => Qle_bool bound n
  | JSpecial PositiveInfinity => true
  | JSpecial NegativeInfinity | JSpecial NaN => false
  | JSpecial NegativeZero => Qle_bool bound (0 # 1)%Q
  | _ =>
      match Number_of score with
      | Some n => Qle_bool bound n
      | None => false
      end
  end.

Definition scoreColorClass (s : State) : string :=
  let score :=
    match s.(analysisState).(result) with
    | JNull => None
    | result => get "score" result
    end in
  match score with
  | None | Some JNull => "text-gray-400"
  | Some score =>
      if at_least score (85 # 1)%Q then "text-green-400"
      else if at_least score (60 # 1)%Q then "text-yellow-400"
      else "text-red-400"
  end.

(** ** [generatePrompt] *)

(** [Object.keys(this.masterLanguages()).filter(lang =>
    this.masterLanguages()[lang])] *)
Definition selectedLanguages (s : State) : list string :=
  filter (fun lang => property_truthy lang s.(masterLanguages))
    (Object_keys s.(masterLanguages)).

(** The request handed to the service; [file] is the uploaded file, of
    which the service reads [data] and [mimeType]. *)
Definition generation_request (s : State) (selectedLanguages : list string)
  : PromptGenerationRequest :=
  {| Types.context := s.(context);
     Types.objective := s.(objective);
     Types.role := s.(role);
     Types.expectations := s.(expectations);
     Types.systemInstruction := s.(systemInstruction);
     Types.promptBody := s.(promptBody);
     Types.mediaInstruction := s.(mediaInstruction);
     Types.aiPlatform := s.(aiPlatform);
     Types.outputType := s.(outputType);
     Types.file :=
       match s.(uploadedFile) with
       | Some f =>
           Some {| Types.data := f.(data); Types.mimeType := f.(mimeType) |}
       | None => None
       end;
     Types.previewLanguage := s.(previewLanguage);
     Types.masterPromptLanguages := selectedLanguages;
     Types.temperature := s.(temperature);
     Types.topP := s.(topP);
     Types.aspectRatio := s.(aspectRatio) |}.

(** Up to the [await]: the state the method leaves, and the request it
    awaits, if any. *)
Definition generatePrompt_begin (s : State)
  : State * option PromptGenerationRequest :=
  let selectedLanguages := selectedLanguages s in
  if (length selectedLanguages =? 0)%nat then
    let state := s.(generationState) in
    (set_generationState
       {| masterPrompts := state.(masterPrompts);
          preview := state.(preview);
          isLoading := state.(isLoading);
          error :=
            Some "Vui lòng chọn ít nhất một ngôn ngữ cho Prompt Master.";
          loadingMessage := state.(loadingMessage) |} s,
     None)
  else
    let state := s.(generationState) in
    (set_generationState
       {| masterPrompts := state.(masterPrompts);
          preview := state.(preview);
          isLoading := true;
          error := None;
          loadingMessage :=
            if isMediaOutput s
            then "Đang tạo media... Quá trình này có thể mất vài phút."
            else "AI đang sáng tạo prompt và kết quả..." |} s,
     Some (generation_request s selectedLanguages)).

(** From the [await] on, in the state the method finds when the service has
    settled: [inr] is the response, [inl] the message of the [Error] the
    service rejected with.  Reading a property of a [null] response throws
    inside the [try]. *)
Definition generatePrompt_settled (answer : string + json) (s : State)
  : State :=
  let failed (message : string) :=
    let state := s.(generationState) in
    set_generationState
      {| masterPrompts := state.(masterPrompts);
         preview := state.(preview);
         isLoading := false;
         error := Some message;
         loadingMessage := state.(loadingMessage) |} s in
  match answer with
  | inr JNull => failed (type_error_message "masterPrompts")
  | inr response =>
      set_generationState
        {| masterPrompts := get "masterPrompts" response;
           preview := get "preview" response;
           isLoading := false;
           error := None;
           loadingMessage := "" |} s
  | inl message => failed message
  end.

(** [generatePrompt()], with nothing else happening while it awaits: the
    service answers the request with [service request], [None] when it
    never settles. *)
Definition generatePrompt
    (service : PromptGenerationRequest -> option (string + json))
    (s : State) : State :=
  let (loading, awaited) := generatePrompt_begin s in
  match awaited with
  | None => loading
  | Some request =>
      match service request with
      | None => loading
      | Some answer => generatePrompt_settled answer loading
      end
  end.

(** ** [analyzePrompt] *)

Definition analyzePrompt_begin (s : State) : State * option string :=
  if negb (truthy (trim s.(promptToAnalyze))) then
    let state := s.(analysisState) in
    (set_analysisState
       {| result := state.(result);
          analysis_isLoading := state.(analysis_isLoading);
          analysis_error := Some "Vui lòng nhập một prompt để phân tích." |}
       s,
     None)
  else
    (set_analysisState
       {| result := JNull; analysis_isLoading := true;
          analysis_error := None |} s,
     Some s.(promptToAnalyze)).

Definition analyzePrompt_settled (answer : string + json) (s : State)
  : State :=
  match answer with
  | inr result =>
      set_analysisState
        {| result := result; analysis_isLoading := false;
           analysis_error := None |} s
  | inl message =>
      let state := s.(analysisState) in
      set_analysisState
        {| result := state.(result);
           analysis_isLoading := false;
           analysis_error := Some message |} s
  end.

Definition analyzePrompt (service : string -> option (string + json))
    (s : State) : State :=
  let (loading, awaited) := analyzePrompt_begin s in
  match awaited with
  | None => loading
  | Some promptToAnalyze =>
      match service promptToAnalyze with
      | None => loading
      | Some answer => analyzePrompt_settled answer loading
      end
  end.

(** [toggleMasterLanguage(lang)] *)
Definition toggleMasterLanguage (lang : string) (s : State) : State :=
  let langs := s.(masterLanguages) in
  set_masterLanguages
    (with_property lang (negb (property_truthy lang langs)) langs) s.

End WithBrowser.

(** ** The file and the example *)

(** [onFileSelected]: [chosen] is the file of the input once it is read as
    a data URL, [None] when no file was chosen or the read did not end. *)
Definition onFileSelected (chosen : option UploadedFile) (s : State)
  : State :=
  match chosen with
  | Some file => set_uploadedFile (Some file) s
  | None => s
  end.

(** [removeFile] *)
Definition removeFile (s : State) : State := set_uploadedFile None s.

(** [fillExample] *)
Definition fillExample (s : State) : State :=

  {| activeTab := s.(activeTab);
     context := ("Một công ty công nghệ sắp ra mắt một ứng dụng quản lý dự án mới dựa trên AI có tên là " ++ dq ++ "SynergizeAI" ++ dq ++ ".");
     objective := "Viết một bài blog thông báo chi tiết về sự ra mắt, nêu bật các tính năng chính (như tự động phân công nhiệm vụ, dự báo tiến độ), lợi ích cho người dùng, và cách nó giải quyết các vấn đề phổ biến trong quản lý dự án.";
     role := "Hãy hành động như một nhà văn công nghệ chuyên nghiệp và một người đam mê năng suất.";
     expectations := "Bài viết phải dài khoảng 800-1000 từ, có cấu trúc rõ ràng với các tiêu đề phụ, giọng văn chuyên nghiệp nhưng dễ tiếp cận, và kết thúc bằng lời kêu gọi hành động để người dùng đăng ký dùng thử bản beta.";
     systemInstruction := "Bạn là một AI chuyên viết nội dung marketing cho các sản phẩm SaaS B2B, có khả năng biến các tính năng kỹ thuật thành lợi ích hấp dẫn cho khách hàng.";
     promptBody := "Viết một bài blog giới thiệu ứng dụng quản lý dự án mới của chúng tôi, SynergizeAI.";
     mediaInstruction := "Không có.";
     aiPlatform := "Gemini";
     outputType := "Bài viết Blog";
     uploadedFile := None;
     previewLanguage := "Vietnamese";
     masterLanguages := default_masterLanguages;
     temperature := (7 # 10)%Q;
     topP := (95 # 100)%Q;
     aspectRatio := "1:1";
     generationState := s.(generationState);
     promptToAnalyze := s.(promptToAnalyze);
     analysisState := s.(analysisState) |}.


(** ** The signals as [exportProject] writes them *)

Definition uploadedFile_json (f : option UploadedFile) : json :=
  match f with
  | Some f =>
      JObj [("data", JStr f.(data)); ("mimeType", JStr f.(mimeType));
            ("name", JStr f.(name))]
  | None => JNull
  end.

Definition error_json (e : option string) : json :=
  match e with
  | Some message => JStr message
  | None => JNull
  end.

Definition generationState_json (g : GenerationState) : json :=
  JObj (object [("masterPrompts", g.(masterPrompts));
                ("preview", g.(preview));
                ("isLoading", Some (JBool g.(isLoading)));
                ("error", Some (error_json g.(error)));
                ("loadingMessage", Some (JStr g.(loadingMessage)))]).

(** The sixteen signals [exportProject] reads, as values of a JSON
    document. *)
Definition signals (s : State) : App.Signals :=
  {| App.activeTab := s.(activeTab);
     App.context := JStr s.(context);
     App.objective := JStr s.(objective);
     App.role := JStr s.(role);
     App.expectations := JStr s.(expectations);
     App.systemInstruction := JStr s.(systemInstruction);
     App.promptBody := JStr s.(promptBody);
     App.mediaInstruction := JStr s.(mediaInstruction);
     App.aiPlatform := JStr s.(aiPlatform);
     App.outputType := JStr s.(outputType);
     App.uploadedFile := uploadedFile_json s.(uploadedFile);
     App.previewLanguage := JStr s.(previewLanguage);
     App.masterLanguages :=
       JObj (map (fun kv => (fst kv, JBool (snd kv))) s.(masterLanguages));
     App.temperature := JNum s.(temperature);
     App.topP := JNum s.(topP);
     App.aspectRatio := JStr s.(aspectRatio);
     App.generationState := generationState_json s.(generationState) |}.

End Component.

(* ===================================================================== *)
(** * More samples *)
(* ===================================================================== *)

Module Samples.
Import Js Types Async Script.

(** The JSON text of an analysis, and the document it parses to. *)
Definition analysis_text : string :=
  "{" ++ Examples.q "score" ++ ":72,"
  ++ Examples.q "analysis" ++ ":{"
  ++ Examples.q "context" ++ ":" ++ Examples.q "Clear." ++ ","
  ++ Examples.q "objective" ++ ":" ++ Examples.q "Missing." ++ ","
  ++ Examples.q "role" ++ ":" ++ Examples.q "Clear." ++ ","
  ++ Examples.q "expectations" ++ ":" ++ Examples.q "Vague." ++ "},"
  ++ Examples.q "suggestions" ++ ":" ++ Examples.q "Name the audience." ++ "}".

Definition analysis_document : json :=
  JObj [("score", JNum (72 # 1)%Q);
        ("analysis",
         JObj [("context", JStr "Clear."); ("objective", JStr "Missing.");
               ("role", JStr "Clear."); ("expectations", JStr "Vague.")]);
        ("suggestions", JStr "Name the audience.")].

(** The sample engine, which also parses the analysis above. *)
Definition engine : Platform :=
  {| trim := @trim Examples.engine;
     JSON_parse := fun s =>
       if s =? analysis_text then inr analysis_document
       else @JSON_parse Examples.engine s;
     JSON_parse_prompts := @JSON_parse_prompts Examples.engine;
     type_error_message := @type_error_message Examples.engine |}.

(** A provider that answers every completion with the analysis above. *)
Definition critic (body : thrown + ProxyRequestBody) : World :=
  let w := Examples.studio body Examples.bilingual 0
             Examples.finished_operation in
  {| request_body := body;
     on_generateContent := fun _ => inr {| text := Some analysis_text |};
     on_generateImages := w.(on_generateImages);
     submission := w.(submission);
     status_report := w.(status_report);
     on_fetch := w.(on_fetch) |}.

(** The JSON text of a completion whose only entry has no prompt, and the
    document it parses to. *)
Definition promptless_text : string :=
  "{" ++ Examples.q "prompts" ++ ":[{"
  ++ Examples.q "language" ++ ":" ++ Examples.q "English" ++ "}]}".

Definition promptless_document : json :=
  JObj [("prompts", JArr [JObj [("language", JStr "English")]])].

(** The sample engine, which parses that completion as well. *)
Definition lenient : Platform :=
  {| trim := @trim Examples.engine;
     JSON_parse := fun s =>
       if s =? promptless_text then inr promptless_document
       else @JSON_parse Examples.engine s;
     JSON_parse_prompts := @JSON_parse_prompts Examples.engine;
     type_error_message := @type_error_message Examples.engine |}.

Definition runtime : Runtime :=
  {| to_string := fun _ => "[object Object]";
     null_error_message := fun access =>
       "Cannot read properties of null (reading '" ++ access ++ "')";
     not_a_function_message := fun access => access ++ " is not a function"
  |}.

(** A provider whose structured completion is the text [completion] and
    which writes one line for the preview. *)
Definition reciting (completion : string) (body : thrown + ProxyRequestBody)
  : World :=
  let w := Examples.studio body Examples.bilingual 0
             Examples.finished_operation in
  {| request_body := body;
     on_generateContent := fun p =>
       match p.(gc_config) with
       | StructuredConfig _ _ => inr {| text := Some completion |}
       | SamplingConfig _ _ => inr {| text := Some "Lễ hội diều" |}
       end;
     on_generateImages := w.(on_generateImages);
     submission := w.(submission);
     status_report := w.(status_report);
     on_fetch := w.(on_fetch) |}.

(** A provider whose video job is submitted and whose status checks fail.
    *)
Definition unreachable (body : thrown + ProxyRequestBody) : World :=
  let w := Examples.studio body Examples.bilingual 0
             Examples.finished_operation in
  {| request_body := body;
     on_generateContent := w.(on_generateContent);
     on_generateImages := w.(on_generateImages);
     submission := w.(submission);
     status_report := fun _ =>
       inl (JsError "The service is currently unavailable.");
     on_fetch := w.(on_fetch) |}.

(** A browser: the names every object inherits, and a [FileReader] that
    reads every asset. *)
Definition browser : Browser :=
  {| String_of := fun _ => "[object Object]";
     Number_of := fun _ => None;
     readAsDataURL := fun asset =>
       Some ("data:" ++ asset.(blob_type) ++ ";base64,"
             ++ btoa asset.(blob_bytes));
     inherited_truthy := fun k =>
       includes ["constructor"; "toString"; "toLocaleString"; "valueOf";
                 "hasOwnProperty"; "isPrototypeOf"; "propertyIsEnumerable";
                 "__proto__"; "__defineGetter__"; "__defineSetter__";
                 "__lookupGetter__"; "__lookupSetter__"] k |}.

(** The environment of a browser without a key. *)
Definition keyless : Service.ProcessEnv := {| Service.API_KEY := None |}.


(** The form with a prompt typed in the analysis tab. *)
Definition analysing : Component.State :=
  let s := Component.initial in
  {| Component.activeTab := App.analyze;
     Component.context := s.(Component.context);
     Component.objective := s.(Component.objective);
     Component.role := s.(Component.role);
     Component.expectations := s.(Component.expectations);
     Component.systemInstruction := s.(Component.systemInstruction);
     Component.promptBody := s.(Component.promptBody);
     Component.mediaInstruction := s.(Component.mediaInstruction);
     Component.aiPlatform := s.(Component.aiPlatform);
     Component.outputType := s.(Component.outputType);
     Component.uploadedFile := s.(Component.uploadedFile);
     Component.previewLanguage := s.(Component.previewLanguage);
     Component.masterLanguages := s.(Component.masterLanguages);
     Component.temperature := s.(Component.temperature);
     Component.topP := s.(Component.topP);
     Component.aspectRatio := s.(Component.aspectRatio);
     Component.generationState := s.(Component.generationState);
     Component.promptToAnalyze := "Describe a kite.";
     Component.analysisState := s.(Component.analysisState) |}.

End Samples.


(* ===================================================================== *)
(** * Values written and read back *)
(* ===================================================================== *)

Unset Implicit Arguments.
Local Open Scope list_scope.
Local Open Scope nat_scope.

Module ValueFacts.
Import Js.

(** A value without special numbers is read back as it was written. *)
Lemma written_writable : forall v, writable v = true -> written v = v.
Proof.
  fix IH 1. intros [ | b | n | s | items | fields | x ];
    cbn [writable written]; try reflexivity.
  - intros H. f_equal. revert items H.
    fix IHitems 1. intros [|item items]; cbn [forallb map]; [reflexivity|].
    intros H. apply andb_true_iff in H. destruct H as [Hitem Hitems].
    rewrite (IH item Hitem), (IHitems items Hitems). reflexivity.
  - intros H. f_equal. revert fields H.
    fix IHfields 1. intros [|[k x] fields]; cbn [forallb map]; [reflexivity|].
    intros H. apply andb_true_iff in H. destruct H as [Hx Hfields].
    rewrite (IH x Hx), (IHfields fields Hfields). reflexivity.
  - discriminate.
Qed.

(** What is read back holds no special number. *)
Lemma written_is_writable : forall v, writable (written v) = true.
Proof.
  fix IH 1. intros [ | b | n | s | items | fields | x ];
    cbn [writable written]; try reflexivity.
  - revert items. fix IHitems 1. intros [|item items]; cbn [forallb map];
      [reflexivity|]. rewrite (IH item), (IHitems items). reflexivity.
  - revert fields. fix IHfields 1. intros [|[k x] fields]; cbn [forallb map];
      [reflexivity|]. rewrite (IH x), (IHfields fields). reflexivity.
  - destruct x; reflexivity.
Qed.

(** Writing twice changes nothing more. *)
Lemma written_twice v : written (written v) = written v.
Proof. apply written_writable, written_is_writable. Qed.

End ValueFacts.

(* ===================================================================== *)
(** * Facts about the runner *)
(* ===================================================================== *)

Module RunFacts.
Import Js Types Async Script.

Section Run.
Context {S : Type} (answer : Environment S).

Lemma run_unfold {R} fuel (t : itree callE R) s :
  run answer fuel t s =
  match observe t with
  | RetF r => Done r s [] fuel
  | TauF t' =>
      match fuel with
      | O => OutOfFuel s []
      | Datatypes.S fuel' => run answer fuel' t' s
      end
  | VisF e k =>
      match fuel with
      | O => OutOfFuel s []
      | Datatypes.S fuel' =>
          let (s', a) := answer _ e s in
          after (made e) (run answer fuel' (k a) s')
      end
  end.
Proof. destruct fuel; reflexivity. Qed.

Lemma run_observe {R} fuel (t u : itree callE R) s :
  observe t = observe u -> run answer fuel t s = run answer fuel u s.
Proof. intros H. rewrite !run_unfold, H. reflexivity. Qed.

Lemma run_ret {R} fuel (r : R) s :
  run answer fuel (Ret r) s = Done r s [] fuel.
Proof. destruct fuel; reflexivity. Qed.

Lemma run_tau {R} fuel (t : itree callE R) s :
  run answer (Datatypes.S fuel) (Tau t) s = run answer fuel t s.
Proof. reflexivity. Qed.

Lemma run_trigger {T} fuel (e : callE T) s :
  run answer (Datatypes.S fuel) (ITree.trigger e) s =
  Done (snd (answer _ e s)) (fst (answer _ e s)) [made e] fuel.
Proof. simpl. destruct (answer T e s). rewrite run_ret. reflexivity. Qed.

Lemma run_trigger_0 {T} (e : callE T) s :
  run answer 0 (ITree.trigger e) s = OutOfFuel s [].
Proof. reflexivity. Qed.

Lemma after_all_app {R} (l1 l2 : list call) (o : outcome S R) :
  after_all (l1 ++ l2)%list o = after_all l1 (after_all l2 o).
Proof. unfold after_all. apply fold_right_app. Qed.

Lemma after_all_Done {R} cs (r : R) (s : S) calls f :
  after_all cs (Done r s calls f) = Done r s (cs ++ calls)%list f.
Proof. induction cs as [|c cs IH]; simpl; [|rewrite IH]; reflexivity. Qed.

Lemma after_all_OutOfFuel {R} cs (s : S) calls :
  after_all cs (@OutOfFuel S R s calls) = OutOfFuel s (cs ++ calls)%list.
Proof. induction cs as [|c cs IH]; simpl; [|rewrite IH]; reflexivity. Qed.

Lemma seq_outcome_after {A B} c (o : outcome S A)
    (k : A -> S -> nat -> outcome S B) :
  seq_outcome (after c o) k = after c (seq_outcome o k).
Proof. destruct o; reflexivity. Qed.

Lemma seq_outcome_after_all {A B} cs (o : outcome S A)
    (k : A -> S -> nat -> outcome S B) :
  seq_outcome (after_all cs o) k = after_all cs (seq_outcome o k).
Proof.
  induction cs as [|c cs IH]; simpl; [reflexivity|].
  rewrite seq_outcome_after, IH. reflexivity.
Qed.

(** The run of [t >>= k] is the run of [t] followed by the run of [k] on
    the fuel that is left. *)
Lemma run_bind {A B} fuel (t : itree callE A) (k : A -> itree callE B) s :
  run answer fuel (ITree.bind t k) s =
  seq_outcome (run answer fuel t s) (fun r s' f => run answer f (k r) s').
Proof.
  revert t s. induction fuel as [|fuel IH]; intros t s;
    rewrite (run_observe _ _ _ _ (observe_bind t k));
    rewrite (run_unfold _ t); destruct (observe t) as [r|t'|X e h];
    try reflexivity.
  - rewrite run_unfold. cbn. apply IH.
  - rewrite run_unfold. cbn. destruct (answer X e s) as [s' a].
    rewrite IH, seq_outcome_after. reflexivity.
Qed.

(** One turn of [ITree.iter]. *)
Lemma run_iter {I R} fuel (body : I -> itree callE (I + R)) i s :
  run answer fuel (ITree.iter body i) s =
  seq_outcome (run answer fuel (body i) s) (fun lr s' f =>
    match lr with
    | inl l => run answer f (Tau (ITree.iter body l)) s'
    | inr r => Done r s' [] f
    end).
Proof.
  rewrite (run_observe _ (ITree.iter body i)
             (ITree.bind (body i) (fun lr =>
                match lr with
                | inl l => Tau (ITree.iter body l)
                | inr r => Ret r
                end))) by reflexivity.
  rewrite run_bind. destruct (run answer fuel (body i) s) as [lr s' cs f|];
    [|reflexivity].
  simpl. destruct lr; [reflexivity|]. rewrite run_ret. reflexivity.
Qed.

End Run.
End RunFacts.

(* ===================================================================== *)
(** * Facts about asynchronous functions *)
(* ===================================================================== *)

Module AsyncFacts.
Import Js Types Async Script RunFacts.

Section Run.
Context {S : Type} (answer : Environment S).

Lemma run_bindJ {A B} fuel (m : js A) (k : A -> js B) s :
  run answer fuel (Async.bind m k) s =
  seq_outcome (run answer fuel m s) (fun r s' f =>
    match r with
    | inl e => Done (inl e) s' [] f
    | inr a => run answer f (k a) s'
    end).
Proof.
  unfold Async.bind. rewrite run_bind.
  destruct (run answer fuel m s) as [r s' cs f|]; [|reflexivity].
  simpl. destruct r; [rewrite run_ret|]; reflexivity.
Qed.

Lemma run_await {A} fuel (e : callE (thrown + A)) s :
  run answer (Datatypes.S fuel) (await e) s =
  Done (snd (answer _ e s)) (fst (answer _ e s)) [made e] fuel.
Proof. apply run_trigger. Qed.

Lemma run_await_0 {A} (e : callE (thrown + A)) s :
  run answer 0 (await e) s = OutOfFuel s [].
Proof. reflexivity. Qed.

Lemma run_retJ {A} fuel (a : A) s :
  run answer fuel (ret a) s = Done (inr a) s [] fuel.
Proof. apply run_ret. Qed.

Lemma run_throw {A} fuel (e : thrown) s :
  run answer fuel (@throw A e) s = Done (inl e) s [] fuel.
Proof. apply run_ret. Qed.

Lemma run_try_catch {A} fuel (m : js A) h s :
  run answer fuel (try_catch m h) s =
  seq_outcome (run answer fuel m s) (fun r s' f =>
    match r with
    | inl e => run answer f (h e) s'
    | inr a => Done a s' [] f
    end).
Proof.
  unfold try_catch. rewrite run_bind.
  destruct (run answer fuel m s) as [r s' cs f|]; [|reflexivity].
  simpl. destruct r; [|rewrite run_ret]; reflexivity.
Qed.

End Run.

(** Symbolic execution of a run: split the binds, perform the calls the
    fuel allows, gather the calls in front of the outcome. *)
Ltac run_simpl :=
  repeat progress
    (cbn [world fst snd seq_outcome after finished calls_of];
     rewrite ?after_all_Done, ?after_all_OutOfFuel, ?app_nil_r).

Ltac run_go :=
  repeat (run_simpl;
          first [ rewrite run_try_catch | rewrite run_bindJ | rewrite run_await
                | rewrite run_retJ | rewrite run_throw
                | rewrite run_bind | rewrite run_trigger | rewrite run_ret
                | rewrite run_tau | rewrite run_await_0
                | rewrite run_trigger_0 ]);
  run_simpl.

(** Both sides are outcomes in normal form: compare their lists of calls. *)
Ltac run_done :=
  run_simpl; unfold deliver, caught;
  cbn [snd fst length Nat.leb firstn Nat.sub];
  rewrite ?after_all_Done, ?after_all_OutOfFuel, ?app_nil_r, ?Nat.sub_0_r;
  rewrite <- ?app_assoc; cbn [app];
  reflexivity.

End AsyncFacts.

(* ===================================================================== *)
(** * The polling loop *)
(* ===================================================================== *)

Module PollFacts.
Import Js Types Async Script RunFacts AsyncFacts Relay.

Section Poll.
Context {platform : Platform} (w : World) (interval : Z).

(** An operation that is done leaves the loop at once, without a call. *)
Lemma poll_done fuel cur k :
  not_done cur = false ->
  run (world w) fuel (poll_until_done interval cur) k = Done (inr cur) k [] fuel.
Proof.
  intros H. unfold poll_until_done. rewrite run_iter, H, run_ret. reflexivity.
Qed.

(** One round on a pending operation: the sleep, the status check, and the
    loop again on the operation the check returned. *)
Lemma poll_round fuel cur next k :
  not_done cur = true ->
  status_report w k = inr next ->
  run (world w) (3 + fuel) (poll_until_done interval cur) k =
  after_all [made (setTimeout interval); made (getVideosOperation cur)]
    (run (world w) fuel (poll_until_done interval next) (S k)).
Proof.
  intros H Hr. unfold poll_until_done. rewrite run_iter, H.
  change (3 + fuel) with (S (S (S fuel))).
  run_go. rewrite Hr. run_go. reflexivity.
Qed.

(** A status check that throws ends the loop with what it threw. *)
Lemma poll_round_throw fuel cur e k :
  not_done cur = true ->
  status_report w k = inl e ->
  run (world w) (2 + fuel) (poll_until_done interval cur) k =
  Done (inl e) (S k)
    [made (setTimeout interval); made (getVideosOperation cur)] fuel.
Proof.
  intros H Hr. unfold poll_until_done. rewrite run_iter, H.
  change (2 + fuel) with (S (S fuel)).
  run_go. rewrite Hr. run_go. reflexivity.
Qed.

(** With less fuel than a round takes, a pending operation leaves the loop
    unfinished. *)
Lemma poll_starved fuel cur next k :
  not_done cur = true ->
  status_report w k = inr next ->
  fuel < 3 ->
  exists s,
    run (world w) fuel (poll_until_done interval cur) k =
    OutOfFuel s
      (firstn fuel [made (setTimeout interval); made (getVideosOperation cur)]).
Proof.
  intros H Hr Hf. unfold poll_until_done. rewrite run_iter, H.
  destruct fuel as [|[|[|fuel]]]; try lia.
  - run_go. eexists. reflexivity.
  - run_go. eexists. reflexivity.
  - run_go. rewrite Hr. run_go. eexists. reflexivity.
Qed.

Lemma polling_rounds_S (op : nat -> GenerateVideosOperation) n :
  polling_rounds interval op (S n) =
  [made (setTimeout interval); made (getVideosOperation (op 0))]
    ++ polling_rounds interval (fun i => op (S i)) n.
Proof.
  unfold polling_rounds. cbn [seq flat_map]. f_equal.
  rewrite <- seq_shift.
  rewrite !flat_map_concat_map, map_map. reflexivity.
Qed.

(** [n] rounds over pending operations. *)
Lemma poll_rounds n : forall (op : nat -> GenerateVideosOperation) k fuel,
  (forall i, i < n -> not_done (op i) = true) ->
  (forall i, i < n -> status_report w (k + i) = inr (op (S i))) ->
  run (world w) (3 * n + fuel) (poll_until_done interval (op 0)) k =
  after_all (polling_rounds interval op n)
    (run (world w) fuel (poll_until_done interval (op n)) (k + n)).
Proof.
  induction n as [|n IH]; intros op k fuel Hpending Hreports.
  - cbn. rewrite Nat.add_0_r. reflexivity.
  - replace (3 * S n + fuel) with (3 + (3 * n + fuel)) by lia.
    rewrite (poll_round _ (op 0) (op 1)).
    + rewrite (IH (fun i => op (S i)) (S k) fuel).
      * replace (S k + n) with (k + S n) by lia.
        rewrite <- after_all_app, polling_rounds_S. reflexivity.
      * intros i Hi. apply Hpending. lia.
      * intros i Hi. replace (S k + i) with (k + S i) by lia.
        apply Hreports. lia.
    + apply Hpending. lia.
    + rewrite <- (Hreports 0) by lia. rewrite Nat.add_0_r. reflexivity.
Qed.

(** The loop on a job whose first [n] reports are pending and whose next
    report is done: [n] rounds, whatever the interval (5000 ms in
    [handleGenerate], 10000 ms in [generateProfessionalPrompt]). *)
Lemma polled_until_done n (op : nat -> GenerateVideosOperation) k fuel :
  (forall i, i < n -> not_done (op i) = true) ->
  (forall i, i < n -> status_report w (k + i) = inr (op (S i))) ->
  not_done (op n) = false ->
  run (world w) (3 * n + fuel) (poll_until_done interval (op 0)) k =
  Done (inr (op n)) (k + n) (polling_rounds interval op n) fuel.
Proof.
  intros Hpending Hreports Hdone.
  rewrite (poll_rounds n op k fuel Hpending Hreports).
  rewrite poll_done by exact Hdone. run_simpl. reflexivity.
Qed.

Lemma polling_rounds_snoc (op : nat -> GenerateVideosOperation) n :
  polling_rounds interval op (S n) =
  polling_rounds interval op n
    ++ [made (setTimeout interval); made (getVideosOperation (op n))].
Proof.
  unfold polling_rounds. rewrite seq_S, flat_map_app. cbn [flat_map Nat.add].
  rewrite app_nil_r. reflexivity.
Qed.

(** The loop on a job whose first [n] reports are pending and whose next
    status check throws: the loop ends with what was thrown, after the
    sleep and the check of round [n]. *)
Lemma polled_until_thrown n (op : nat -> GenerateVideosOperation) error k fuel :
  (forall i, i <= n -> not_done (op i) = true) ->
  (forall i, i < n -> status_report w (k + i) = inr (op (S i))) ->
  status_report w (k + n) = inl error ->
  run (world w) (3 * n + (2 + fuel)) (poll_until_done interval (op 0)) k =
  Done (inl error) (S (k + n)) (polling_rounds interval op (S n)) fuel.
Proof.
  intros Hpending Hreports Hthrown.
  rewrite (poll_rounds n op k (2 + fuel)).
  - rewrite (poll_round_throw fuel (op n) error (k + n)).
    + run_simpl. rewrite polling_rounds_snoc. reflexivity.
    + apply Hpending. lia.
    + exact Hthrown.
  - intros i Hi. apply Hpending. lia.
  - exact Hreports.
Qed.

(** Counting in the rounds. *)
Lemma count_polling_rounds (p : call -> bool) (op : nat -> GenerateVideosOperation) c n :
  (forall i, length (filter p [made (setTimeout interval);
                               made (getVideosOperation (op i))]) = c) ->
  length (filter p (polling_rounds interval op n)) = n * c.
Proof.
  intros Hc. unfold polling_rounds. generalize 0 as start.
  induction n as [|n IH]; intros start; [reflexivity|].
  cbn [seq flat_map]. rewrite filter_app, length_app, Hc, IH. reflexivity.
Qed.

Lemma status_checks_in_rounds op n :
  length (filter is_status_check (polling_rounds interval op n)) = n.
Proof. rewrite (count_polling_rounds _ _ 1); [lia | reflexivity]. Qed.

Lemma sleeps_in_rounds op n :
  length (filter is_sleep (polling_rounds interval op n)) = n.
Proof. rewrite (count_polling_rounds _ _ 1); [lia | reflexivity]. Qed.

Lemma status_obtained_in_rounds op n :
  length (filter obtains_status (polling_rounds interval op n)) = n.
Proof. rewrite (count_polling_rounds _ _ 1); [lia | reflexivity]. Qed.

(** Whatever the fuel, the loop leaves only with an operation that is done
    or with what a status check threw, and the calls it made are sleeps and
    status checks in alternation. *)
Lemma poll_leaves fuel : forall cur k r calls,
  finished (run (world w) fuel (poll_until_done interval cur) k) = Some (r, calls) ->
  (match r with
   | inr operation => not_done operation = false
   | inl _ => True
   end)
  /\ exists (op : nat -> GenerateVideosOperation) n,
       calls = polling_rounds interval op n.
Proof.
  induction fuel as [fuel IH] using lt_wf_ind. intros cur k r calls.
  unfold poll_until_done. rewrite run_iter. fold (poll_until_done interval).
  destruct (not_done cur) eqn:Hcur.
  - destruct fuel as [|[|[|fuel]]].
    + run_go. discriminate.
    + run_go. discriminate.
    + run_go. destruct (status_report w k) as [e|next]; run_go.
      * intros [= <- <-]. split; [exact I|].
        exists (fun _ => cur), 1. reflexivity.
      * discriminate.
    + run_go. destruct (status_report w k) as [e|next]; run_go.
      * intros [= <- <-]. split; [exact I|].
        exists (fun _ => cur), 1. reflexivity.
      * fold (poll_until_done interval next).
        destruct (run (world w) fuel (poll_until_done interval next) (S k))
          as [r' s' calls' f'|] eqn:Hrun; run_simpl; [|discriminate].
        intros [= <- <-].
        destruct (IH fuel ltac:(lia) next (S k) r' calls') as [Hr [op [n Hcalls]]].
        { rewrite Hrun. reflexivity. }
        split; [exact Hr|].
        exists (fun i => match i with 0 => cur | S j => op j end), (S n).
        rewrite polling_rounds_S, Hcalls. reflexivity.
  - run_go. intros [= <- <-]. split; [exact Hcur|].
    exists (fun _ => cur), 0. reflexivity.
Qed.

End Poll.
End PollFacts.

(* ===================================================================== *)
(** * The relay on a generation request *)
(* ===================================================================== *)

Module GenerateFacts.
Import Js Types Async Script RunFacts AsyncFacts PollFacts Relay.

Lemma video_not_image x :
  includes VIDEO_OUTPUT_TYPES x = true -> includes IMAGE_OUTPUT_TYPES x = false.
Proof.
  unfold includes, VIDEO_OUTPUT_TYPES, IMAGE_OUTPUT_TYPES. cbn [existsb].
  rewrite !orb_false_r. intros H.
  apply orb_true_iff in H.
  destruct H as [H|H]; apply String.eqb_eq in H; subst x; reflexivity.
Qed.

Lemma deliver_enough {S} fuel (s : S) x :
  length (snd x) <= fuel ->
  deliver fuel s x = Done (fst x) s (snd x) (fuel - length (snd x)).
Proof.
  intros H. unfold deliver. apply Nat.leb_le in H. rewrite H. reflexivity.
Qed.

(** The loop of [arrayBufferToBase64] appends the bytes to the binary
    string, in their order. *)
Lemma arrayBufferToBase64_btoa buffer :
  arrayBufferToBase64 buffer = btoa buffer.
Proof.
  unfold arrayBufferToBase64.
  assert (H : forall bytes binary,
            (fix loop (bytes binary : string) {struct bytes} : string :=
               match bytes with
               | EmptyString => binary
               | String b rest =>
                   loop rest (binary ++ String b EmptyString)%string
               end) bytes binary = (binary ++ bytes)%string).
  { induction bytes as [|b rest IH]; intros binary.
    - induction binary as [|c binary IHb]; [reflexivity|].
      cbn [append]. rewrite <- IHb. reflexivity.
    - rewrite IH. clear IH.
      induction binary as [|c binary IHb]; [reflexivity|].
      cbn [append]. rewrite IHb. reflexivity. }
  rewrite H. reflexivity.
Qed.

(** [!operation.done] holds unless [done] is [true]. *)
Lemma not_done_iff (operation : GenerateVideosOperation) :
  not_done operation = true <-> operation.(done) <> Some true.
Proof.
  unfold not_done. destruct (done operation) as [[|]|]; split;
    intros H; try reflexivity; try discriminate; try (intros; discriminate).
  exfalso. apply H. reflexivity.
Qed.

Lemma done_iff (operation : GenerateVideosOperation) :
  not_done operation = false <-> operation.(done) = Some true.
Proof.
  unfold not_done. destruct (done operation) as [[|]|]; split;
    intros H; try reflexivity; discriminate.
Qed.

(** The two responses of the relay to a generation request, written out. *)
Lemma success_written_out {platform : Platform}
    (masterPrompts : list MasterPrompt) (kind : PreviewType)
    (content : option string) :
  jsonResponse
    (generation_json masterPrompts
       {| preview_type := Some kind; preview_content := content |})
    200
  = {| status := 200;
       headers := [("Content-Type", "application/json")];
       body :=
         JObj [("masterPrompts",
                JArr (map (fun p => JObj [("language", JStr p.(language));
                                          ("prompt", JStr p.(prompt))])
                        masterPrompts));
               ("preview",
                JObj (("type",
                       JStr match kind with
                            | PreviewText => "text"
                            | PreviewImage => "image"
                            | PreviewVideo => "video"
                            end)
                      :: match content with
                         | Some c => [("content", JStr c)]
                         | None => []
                         end))] |}%string.
Proof. destruct kind, content; reflexivity. Qed.

Lemma caught_written_out {platform : Platform} (error : thrown) :
  caught error
  = ({| status := 500;
        headers := [("Content-Type", "application/json")];
        body :=
          JObj [("error",
                 JStr match error with
                      | JsError message => message
                      | NonError => "An unknown error occurred."
                      end)] |}%string,
     [made (console_error "Error in proxy function:" error)]).
Proof. destruct error; reflexivity. Qed.

Section Generate.
Context {platform : Platform}.
Variables (w : World) (ctx : Context) (key : string)
          (d : PromptGenerationRequest).
Hypothesis Hkey : ctx.(env).(API_KEY) = Some key.
Hypothesis Htruthy : truthy key = true.
Hypothesis Hbody :
  w.(request_body) = inr {| type := "generate"; payload := GeneratePayload d |}.

(** The relay reads the body and hands the payload to [handleGenerate]. *)
Lemma generate_dispatched fuel :
  run (world w) (S fuel) (onRequestPost ctx) 0 =
  after_all [made request_json]
    (seq_outcome
       (run (world w) fuel
          (handleGenerate {| apiKey := key |} (GeneratePayload d) key) 0)
       (fun r s f =>
          match r with
          | inl e => deliver f s (caught e)
          | inr response => Done response s [] f
          end)).
Proof.
  unfold onRequestPost. rewrite Hkey. cbn [truthy_opt value]. rewrite Htruthy.
  cbn [negb]. unfold dispatch. run_go. rewrite Hbody. run_simpl.
  cbn [type payload]. change ("generate" =? "generate")%string with true.
  cbv iota.
  destruct (run (world w) fuel _ 0) as [r s cs f|]; [|run_done].
  destruct r as [e|response]; [|run_done].
  destruct f as [|f]; run_go; run_done.
Qed.

Section Video.
Variables (completion : string) (masterPrompts : list MasterPrompt)
          (basePrompt : string) (op0 : GenerateVideosOperation).
Hypothesis Hvideo : includes VIDEO_OUTPUT_TYPES d.(outputType) = true.
Hypothesis Hcompletion :
  w.(on_generateContent) (prompts_request d) = inr {| text := Some completion |}.
Hypothesis Hparse :
  JSON_parse_prompts (trim completion) = inr {| prompts := Some masterPrompts |}.
Hypothesis Hbase : basePromptForPreview masterPrompts = Some basePrompt.
Hypothesis Hsubmission :
  w.(submission) (videoGenParams basePrompt d) = inr op0.

(** Up to the loop and from the loop on: three calls, the polling loop on
    the submitted operation, and what follows the loop. *)
Lemma video_run fuel :
  run (world w) (3 + fuel) (onRequestPost ctx) 0 =
  after_all [made request_json;
             made (generateContent (prompts_request d));
             made (generateVideos (videoGenParams basePrompt d))]
    (seq_outcome (run (world w) fuel (poll_until_done 5000 op0) 0)
       (fun r s f =>
          deliver f s
            match r with
            | inl e => caught e
            | inr operation => materialized w key masterPrompts operation
            end)).
Proof.
  change (3 + fuel) with (S (S (S fuel))). rewrite generate_dispatched.
  unfold handleGenerate, request_masterPrompts. run_go.
  rewrite Hcompletion. run_simpl. cbn [text]. rewrite Hparse. cbn [prompts].
  destruct masterPrompts as [|p0 ps]; [discriminate Hbase|].
  run_go. rewrite Hbase, (video_not_image _ Hvideo), Hvideo.
  unfold video_preview. run_go. rewrite Hsubmission. run_go.
  destruct (run (world w) fuel _ 0) as [r s cs f|]; [|run_done].
  destruct r as [e|operation]; run_go; [run_done|].
  unfold materialized.
  destruct (truthy_opt (downloadLink_of operation)); [|run_go; run_done].
  destruct f as [|f]; run_go; [destruct (on_fetch w _); run_done|].
  destruct (on_fetch w _) as [e|blob]; run_go; [|run_done].
  destruct f as [|f]; run_go; run_done.
Qed.

End Video.

(** What follows the loop makes no status check, does not sleep and does
    not obtain the job's status. *)
Lemma materialized_after_polling p masterPrompts operation :
  p = obtains_status \/ p = is_status_check \/ p = is_sleep ->
  filter p (snd (materialized w key masterPrompts operation)) = [].
Proof.
  unfold materialized, caught.
  intros [-> | [-> | ->]];
    destruct (truthy_opt _); try destruct (on_fetch w _); reflexivity.
Qed.

Section Job.
Variables (completion : string) (masterPrompts : list MasterPrompt)
          (basePrompt : string) (op : nat -> GenerateVideosOperation).
Hypothesis Hvideo : includes VIDEO_OUTPUT_TYPES d.(outputType) = true.
Hypothesis Hcompletion :
  w.(on_generateContent) (prompts_request d) = inr {| text := Some completion |}.
Hypothesis Hparse :
  JSON_parse_prompts (trim completion) = inr {| prompts := Some masterPrompts |}.
Hypothesis Hbase : basePromptForPreview masterPrompts = Some basePrompt.

Let before_polling : list call :=
  [made request_json;
   made (generateContent (prompts_request d));
   made (generateVideos (videoGenParams basePrompt d))].

(** The job's first [N] reports are pending and the next one is done: the
    run is the three calls before the loop, [N] rounds, and the
    materialization of the operation that is done. *)
Lemma video_polled N fuel :
  (forall i, i <= N ->
     job_report w (videoGenParams basePrompt d) i = inr (op i)) ->
  (forall i, i < N -> not_done (op i) = true) ->
  not_done (op N) = false ->
  run (world w) (3 + (3 * N + fuel)) (onRequestPost ctx) 0 =
  after_all (before_polling ++ polling_rounds 5000 op N)
    (deliver fuel N (materialized w key masterPrompts (op N))).
Proof.
  intros Hreports Hpending Hdone.
  rewrite (video_run completion masterPrompts basePrompt (op 0)
             Hvideo Hcompletion Hparse Hbase (Hreports 0 (Nat.le_0_l N))).
  rewrite (polled_until_done w 5000 N op 0 fuel Hpending).
  - run_simpl. rewrite after_all_app. reflexivity.
  - intros i Hi. apply (Hreports (S i)). lia.
  - exact Hdone.
Qed.

(** The report that is done names an asset and the download succeeds: the
    asset is fetched once, after the last status check, and the response
    carries it as a data URL. *)
Lemma video_delivered N link others asset fuel :
  (forall i, i <= N ->
     job_report w (videoGenParams basePrompt d) i = inr (op i)) ->
  (forall i, i < N -> (op i).(done) <> Some true) ->
  (op N).(done) = Some true ->
  (op N).(response)
    = Some {| generatedVideos :=
                Some ({| video := Some {| uri := Some link |} |} :: others) |} ->
  link <> ""%string ->
  w.(on_fetch) (link ++ "&key=" ++ key)%string = inr asset ->
  run (world w) (3 + (3 * N + (1 + fuel))) (onRequestPost ctx) 0 =
  Done
    {| status := 200;
       headers := [("Content-Type", "application/json")];
       body :=
         JObj [("masterPrompts",
                JArr (map (fun p => JObj [("language", JStr p.(language));
                                          ("prompt", JStr p.(prompt))])
                        masterPrompts));
               ("preview",
                JObj [("type", JStr "video");
                      ("content",
                       JStr ("data:" ++ asset.(blob_type) ++ ";base64,"
                             ++ btoa asset.(blob_bytes)))])] |}%string
    N
    (before_polling ++ polling_rounds 5000 op N
     ++ [made (fetch (link ++ "&key=" ++ key)%string)])
    fuel.
Proof.
  intros Hreports Hpending Hdone Hresponse Hlink Hfetch.
  rewrite (video_polled N (1 + fuel) Hreports).
  - unfold materialized, downloadLink_of. rewrite Hresponse.
    cbn [generatedVideos nth_error video uri truthy_opt interpolate].
    assert (Htruthy_link : truthy link = true).
    { unfold truthy. destruct (String.eqb_spec link ""); [contradiction|].
      reflexivity. }
    rewrite Htruthy_link, Hfetch.
    rewrite deliver_enough by (cbn; lia).
    run_simpl. cbn [fst snd length Nat.add Nat.sub].
    rewrite Nat.sub_0_r, <- app_assoc.
    rewrite (success_written_out masterPrompts PreviewVideo).
    rewrite arrayBufferToBase64_btoa. reflexivity.
  - intros i Hi. apply not_done_iff, Hpending, Hi.
  - apply done_iff, Hdone.
Qed.

(** The report that is done names no asset, or an empty address: nothing
    is fetched and the request fails. *)
Lemma video_without_asset N fuel :
  (forall i, i <= N ->
     job_report w (videoGenParams basePrompt d) i = inr (op i)) ->
  (forall i, i < N -> (op i).(done) <> Some true) ->
  (op N).(done) = Some true ->
  match (op N).(response) with
  | Some {| generatedVideos :=
              Some ({| video := Some {| uri := Some link |} |} :: _) |} =>
      link = ""%string
  | _ => True
  end ->
  run (world w) (3 + (3 * N + (1 + fuel))) (onRequestPost ctx) 0 =
  Done
    {| status := 500;
       headers := [("Content-Type", "application/json")];
       body := JObj [("error", JStr "Could not generate video.")] |}%string
    N
    (before_polling ++ polling_rounds 5000 op N
     ++ [made (console_error "Error in proxy function:"
                 (JsError "Could not generate video."))])
    fuel.
Proof.
  intros Hreports Hpending Hdone Hresponse.
  rewrite (video_polled N (1 + fuel) Hreports).
  - assert (Hlink : truthy_opt (downloadLink_of (op N)) = false).
    { unfold downloadLink_of.
      destruct (response (op N)) as [[[[|[[[[link|]]|]] others]|]]|];
        cbn [generatedVideos nth_error video uri truthy_opt];
        try reflexivity.
      subst link. reflexivity. }
    unfold materialized. rewrite Hlink.
    rewrite deliver_enough by (cbn; lia).
    run_simpl. cbn [caught fst snd length Nat.add Nat.sub].
    rewrite Nat.sub_0_r, <- app_assoc. reflexivity.
  - intros i Hi. apply not_done_iff, Hpending, Hi.
  - apply done_iff, Hdone.
Qed.

(** As long as the reports are pending the run is unfinished, with one
    round made for every three units of fuel. *)
Lemma video_pending m r :
  (forall i, i <= S m ->
     job_report w (videoGenParams basePrompt d) i = inr (op i)) ->
  (forall i, i <= m -> not_done (op i) = true) ->
  r < 3 ->
  exists s,
    run (world w) (3 + (3 * m + r)) (onRequestPost ctx) 0 =
    OutOfFuel s
      (before_polling ++ polling_rounds 5000 op m
       ++ firstn r [made (setTimeout 5000); made (getVideosOperation (op m))]).
Proof.
  intros Hreports Hpending Hr.
  rewrite (video_run completion masterPrompts basePrompt (op 0)
             Hvideo Hcompletion Hparse Hbase (Hreports 0 (Nat.le_0_l _))).
  rewrite (poll_rounds w 5000 m op 0 r).
  - destruct (poll_starved w 5000 r (op m) (op (S m)) (0 + m)) as [s Hs].
    + apply Hpending. lia.
    + apply (Hreports (S m)). lia.
    + exact Hr.
    + rewrite Hs. exists s. run_simpl. reflexivity.
  - intros i Hi. apply Hpending. lia.
  - intros i Hi. apply (Hreports (S i)). lia.
Qed.

(** The submission itself is refused. *)
Lemma video_refused error fuel :
  w.(submission) (videoGenParams basePrompt d) = inl error ->
  run (world w) (4 + fuel) (onRequestPost ctx) 0 =
  Done (fst (caught error)) 0 (before_polling ++ snd (caught error)) fuel.
Proof.
  intros Hrefused. change (4 + fuel) with (S (S (S (S fuel)))).
  rewrite generate_dispatched.
  unfold handleGenerate, request_masterPrompts. run_go.
  rewrite Hcompletion. run_simpl. cbn [text]. rewrite Hparse. cbn [prompts].
  destruct masterPrompts as [|p0 ps]; [discriminate Hbase|].
  run_go. rewrite Hbase, (video_not_image _ Hvideo), Hvideo.
  unfold video_preview. run_go. rewrite Hrefused. run_go. run_done.
Qed.

(** The first reports are pending and the status check number [N] throws:
    the relay answers with what was thrown, after [N + 1] rounds. *)
Lemma video_check_thrown N error fuel :
  (forall i, i <= N ->
     job_report w (videoGenParams basePrompt d) i = inr (op i)) ->
  (forall i, i <= N -> not_done (op i) = true) ->
  w.(status_report) N = inl error ->
  run (world w) (3 + (3 * N + (3 + fuel))) (onRequestPost ctx) 0 =
  Done (fst (caught error)) (S N)
    (before_polling ++ polling_rounds 5000 op (S N) ++ snd (caught error))
    fuel.
Proof.
  intros Hreports Hpending Hthrown.
  rewrite (video_run completion masterPrompts basePrompt (op 0)
             Hvideo Hcompletion Hparse Hbase (Hreports 0 (Nat.le_0_l N))).
  change (3 * N + (3 + fuel)) with (3 * N + (2 + (1 + fuel))).
  rewrite (polled_until_thrown w 5000 N op error 0 (1 + fuel) Hpending).
  - run_simpl. rewrite deliver_enough by (cbn; lia).
    run_simpl. cbn [caught fst snd length Nat.add Nat.sub].
    rewrite Nat.sub_0_r. reflexivity.
  - intros i Hi. apply (Hreports (S i)). lia.
  - exact Hthrown.
Qed.

(** Before the submission is answered nothing is returned. *)
Lemma video_early fuel :
  fuel < 3 -> finished (run (world w) fuel (onRequestPost ctx) 0) = None.
Proof.
  intros Hf. destruct fuel as [|fuel].
  - unfold onRequestPost. rewrite Hkey. cbn [truthy_opt value].
    rewrite Htruthy. cbn [negb]. unfold dispatch. run_go. reflexivity.
  - rewrite generate_dispatched.
    unfold handleGenerate, request_masterPrompts.
    destruct fuel as [|[|fuel]]; [| |lia]; run_go; [reflexivity|].
    rewrite Hcompletion. run_simpl. cbn [text]. rewrite Hparse. cbn [prompts].
    destruct masterPrompts as [|p0 ps]; [discriminate Hbase|].
    run_go. rewrite Hbase, (video_not_image _ Hvideo), Hvideo.
    unfold video_preview. run_go. reflexivity.
Qed.

End Job.
End Generate.

(** The first report that is done. *)
Lemma first_done (op : nat -> GenerateVideosOperation) n :
  not_done (op n) = false ->
  exists N, N <= n /\ not_done (op N) = false
            /\ forall i, i < N -> not_done (op i) = true.
Proof.
  induction n as [n IH] using lt_wf_ind. intros Hn.
  assert (Hdec : (forall i, i < n -> not_done (op i) = true)
                 \/ exists i, i < n /\ not_done (op i) = false).
  { clear IH Hn. induction n as [|n [IHn|[i [Hi Hd]]]].
    - left. intros i Hi. lia.
    - destruct (not_done (op n)) eqn:Hn.
      + left. intros i Hi. destruct (Nat.eq_dec i n) as [->|]; [exact Hn|].
        apply IHn. lia.
      + right. exists n. split; [lia|exact Hn].
    - right. exists i. split; [lia|exact Hd]. }
  destruct Hdec as [Hall|[i [Hi Hd]]].
  - exists n. auto.
  - destruct (IH i Hi Hd) as [N [HN [HdN Hbefore]]].
    exists N. split; [lia|]. auto.
Qed.

(** Either the first [n] reports are all pending or one of them is done. *)
Lemma pending_or_done (op : nat -> GenerateVideosOperation) n :
  (forall i, i <= n -> not_done (op i) = true)
  \/ exists i, not_done (op i) = false.
Proof.
  induction n as [|n [IHn|IHn]].
  - destruct (not_done (op 0)) eqn:H0.
    + left. intros i Hi. replace i with 0 by lia. exact H0.
    + right. exists 0. exact H0.
  - destruct (not_done (op (S n))) eqn:Hn.
    + left. intros i Hi. destruct (Nat.eq_dec i (S n)) as [->|]; [exact Hn|].
      apply IHn. lia.
    + right. exists (S n). exact Hn.
  - right. exact IHn.
Qed.

End GenerateFacts.

(* ===================================================================== *)
(** * The video pathway: how often the job is polled, and when it ends *)
(* ===================================================================== *)

Module VideoFacts.
Import Js Types Async Script RunFacts AsyncFacts PollFacts Relay GenerateFacts.

(** C1. On a video request whose master prompts were obtained, take the
    job's status reports in the order the relay obtains them: the operation
    returned by the submission, then the answers of the status checks.  If
    the first [N] are not done and the next one is, the relay obtains the
    status [N + 1] times, once with the submission and [N] times with a
    status check, each status check right after a sleep of 5000 ms, and only
    then goes on.  When the report that is done names an asset and the
    download succeeds, the next and last call is the fetch of the asset, at
    its link followed by the key, and the response has status 200 and
    carries the master prompts and the asset as a base64 data URL.  In
    particular, when the submitted operation is pending and the status
    checks answer "not done" [N] times before "done", exactly [N + 1] status
    checks are made before the fetch. *)
Theorem video_job_polled_until_done
    {platform : Platform} (w : World) (ctx : Context) (key : string)
    (d : PromptGenerationRequest) (completion : string)
    (masterPrompts : list MasterPrompt) (basePrompt : string) :
  ctx.(env).(API_KEY) = Some key ->
  truthy key = true ->
  w.(request_body)
    = inr {| type := "generate"; payload := GeneratePayload d |} ->
  includes VIDEO_OUTPUT_TYPES d.(outputType) = true ->
  w.(on_generateContent) (prompts_request d)
    = inr {| text := Some completion |} ->
  JSON_parse_prompts (trim completion)
    = inr {| prompts := Some masterPrompts |} ->
  basePromptForPreview masterPrompts = Some basePrompt ->
  let before_polling :=
    [made request_json;
     made (generateContent (prompts_request d));
     made (generateVideos (videoGenParams basePrompt d))] in
  (forall (op : nat -> GenerateVideosOperation) (N : nat),
     (forall i, i <= N ->
        job_report w (videoGenParams basePrompt d) i = inr (op i)) ->
     (forall i, i < N -> (op i).(done) <> Some true) ->
     (op N).(done) = Some true ->
     exists fuel response calls after_polling,
       finished (run (world w) fuel (onRequestPost ctx) 0)
         = Some (response, calls)
       /\ calls = before_polling ++ polling_rounds 5000 op N ++ after_polling
       /\ filter obtains_status after_polling = []
       /\ filter is_sleep after_polling = []
       /\ length (filter obtains_status calls) = N + 1
       /\ length (filter is_status_check calls) = N
       /\ length (filter is_sleep calls) = N)
  /\
  (forall (op : nat -> GenerateVideosOperation) (N : nat)
          (link : string) (others : list GeneratedVideo) (asset : Blob) fuel,
     (forall i, i <= N ->
        job_report w (videoGenParams basePrompt d) i = inr (op i)) ->
     (forall i, i < N -> (op i).(done) <> Some true) ->
     (op N).(done) = Some true ->
     (op N).(response)
       = Some {| generatedVideos :=
                   Some ({| video := Some {| uri := Some link |} |}
                         :: others) |} ->
     link <> ""%string ->
     w.(on_fetch) (link ++ "&key=" ++ key)%string = inr asset ->
     let calls :=
       before_polling ++ polling_rounds 5000 op N
       ++ [made (fetch (link ++ "&key=" ++ key)%string)] in
     run (world w) (3 + (3 * N + (1 + fuel))) (onRequestPost ctx) 0
     = Done
         {| status := 200;
            headers := [("Content-Type", "application/json")];
            body :=
              JObj [("masterPrompts",
                     JArr (map (fun p =>
                                  JObj [("language", JStr p.(language));
                                        ("prompt", JStr p.(prompt))])
                             masterPrompts));
                    ("preview",
                     JObj [("type", JStr "video");
                           ("content",
                            JStr ("data:" ++ asset.(blob_type) ++ ";base64,"
                                  ++ btoa asset.(blob_bytes)))])] |}%string
         N calls fuel
     /\ length (filter obtains_status calls) = N + 1
     /\ length (filter is_status_check calls) = N
     /\ length (filter is_sleep calls) = N)
  /\
  (forall (submitted : GenerateVideosOperation)
          (report : nat -> GenerateVideosOperation) (N : nat)
          (link : string) (others : list GeneratedVideo) (asset : Blob) fuel,
     w.(submission) (videoGenParams basePrompt d) = inr submitted ->
     submitted.(done) <> Some true ->
     (forall i, i <= N -> w.(status_report) i = inr (report i)) ->
     (forall i, i < N -> (report i).(done) <> Some true) ->
     (report N).(done) = Some true ->
     (report N).(response)
       = Some {| generatedVideos :=
                   Some ({| video := Some {| uri := Some link |} |}
                         :: others) |} ->
     link <> ""%string ->
     w.(on_fetch) (link ++ "&key=" ++ key)%string = inr asset ->
     let calls :=
       before_polling
       ++ polling_rounds 5000
            (fun i => match i with
                      | O => submitted
                      | S j => report j
                      end) (N + 1)
       ++ [made (fetch (link ++ "&key=" ++ key)%string)] in
     run (world w) (3 + (3 * (N + 1) + (1 + fuel))) (onRequestPost ctx) 0
     = Done
         {| status := 200;
            headers := [("Content-Type", "application/json")];
            body :=
              JObj [("masterPrompts",
                     JArr (map (fun p =>
                                  JObj [("language", JStr p.(language));
                                        ("prompt", JStr p.(prompt))])
                             masterPrompts));
                    ("preview",
                     JObj [("type", JStr "video");
                           ("content",
                            JStr ("data:" ++ asset.(blob_type) ++ ";base64,"
                                  ++ btoa asset.(blob_bytes)))])] |}%string
         (N + 1) calls fuel
     /\ length (filter is_status_check calls) = N + 1
     /\ length (filter is_sleep calls) = N + 1).
Proof.
  intros Hkey Htruthy Hbody Hvideo Hcompletion Hparse Hbase before_polling.
  assert (delivered :
    forall (op : nat -> GenerateVideosOperation) (N : nat)
           (link : string) (others : list GeneratedVideo) (asset : Blob) fuel,
     (forall i, i <= N ->
        job_report w (videoGenParams basePrompt d) i = inr (op i)) ->
     (forall i, i < N -> (op i).(done) <> Some true) ->
     (op N).(done) = Some true ->
     (op N).(response)
       = Some {| generatedVideos :=
                   Some ({| video := Some {| uri := Some link |} |}
                         :: others) |} ->
     link <> ""%string ->
     w.(on_fetch) (link ++ "&key=" ++ key)%string = inr asset ->
     let calls :=
       before_polling ++ polling_rounds 5000 op N
       ++ [made (fetch (link ++ "&key=" ++ key)%string)] in
     run (world w) (3 + (3 * N + (1 + fuel))) (onRequestPost ctx) 0
     = Done
         {| status := 200;
            headers := [("Content-Type", "application/json")];
            body :=
              JObj [("masterPrompts",
                     JArr (map (fun p =>
                                  JObj [("language", JStr p.(language));
                                        ("prompt", JStr p.(prompt))])
                             masterPrompts));
                    ("preview",
                     JObj [("type", JStr "video");
                           ("content",
                            JStr ("data:" ++ asset.(blob_type) ++ ";base64,"
                                  ++ btoa asset.(blob_bytes)))])] |}%string
         N calls fuel
     /\ length (filter obtains_status calls) = N + 1
     /\ length (filter is_status_check calls) = N
     /\ length (filter is_sleep calls) = N).
  { intros op N link others asset fuel Hreports Hpending Hdone Hresponse
      Hlink Hfetch calls.
    split.
    - apply (video_delivered w ctx key d Hkey Htruthy Hbody completion
               masterPrompts basePrompt op Hvideo Hcompletion Hparse Hbase
               N link others asset fuel Hreports Hpending Hdone Hresponse
               Hlink Hfetch).
    - unfold calls. rewrite !filter_app, !length_app.
      rewrite status_obtained_in_rounds, status_checks_in_rounds,
        sleeps_in_rounds.
      cbn. repeat split; lia. }
  split; [|split; [exact delivered|]].
  - intros op N Hreports Hpending Hdone.
    exists (3 + (3 * N + 2)),
      (fst (materialized w key masterPrompts (op N))).
    eexists. exists (snd (materialized w key masterPrompts (op N))).
    split; [|split; [reflexivity|]].
    + rewrite (video_polled w ctx key d Hkey Htruthy Hbody completion
                 masterPrompts basePrompt op Hvideo Hcompletion Hparse Hbase
                 N 2 Hreports).
      * rewrite deliver_enough.
        -- run_simpl. rewrite <- app_assoc. reflexivity.
        -- unfold materialized, caught.
           destruct (truthy_opt _); try destruct (on_fetch w _); cbn; lia.
      * intros i Hi. apply not_done_iff, Hpending, Hi.
      * apply done_iff, Hdone.
    + rewrite !(materialized_after_polling w key) by auto.
      split; [reflexivity|]. split; [reflexivity|].
      rewrite !filter_app, !length_app.
      rewrite !(materialized_after_polling w key) by auto.
      rewrite status_obtained_in_rounds, status_checks_in_rounds,
        sleeps_in_rounds.
      cbn. repeat split; lia.
  - intros submitted report N link others asset fuel Hsubmitted Hpending0
      Hreports Hpending Hdone Hresponse Hlink Hfetch.
    replace (N + 1) with (S N) by lia. intros calls.
    destruct (delivered
                (fun i => match i with O => submitted | S j => report j end)
                (S N) link others asset fuel)
      as [Hrun [_ [Hchecks Hsleeps]]]; try assumption.
    + intros [|i] Hi; [exact Hsubmitted|]. apply Hreports. lia.
    + intros [|i] Hi; [exact Hpending0|]. apply Hpending. lia.
    + split; [exact Hrun|]. split; [exact Hchecks|exact Hsleeps].
Qed.

(** C1, on a sample: the submitted operation is pending, two status checks
    answer "not done" and the third "done"; the asset is fetched after the
    third status check and comes back as a data URL. *)
Lemma video_job_polled_until_done_witness :
  let d := Examples.request "Video" None in
  let w := Examples.studio (inr (generate_body d)) Examples.bilingual 2
             Examples.finished_operation in
  let report := fun i => if i <? 2 then Examples.pending_operation
                         else Examples.finished_operation in
  let calls :=
    [made request_json;
     made (generateContent (@prompts_request d));
     made (generateVideos
             (videoGenParams "Draw a red kite over the dunes at dawn." d))]
    ++ polling_rounds 5000
         (fun i => match i with
                   | O => Examples.pending_operation
                   | S j => report j
                   end) (2 + 1)
    ++ [made (fetch "https://files/kite?alt=media&key=k-123")] in
  run (world w) (3 + (3 * (2 + 1) + (1 + 0)))
    (@onRequestPost Examples.engine Examples.configured) 0
  = Done
      {| status := 200;
         headers := [("Content-Type", "application/json")%string];
         body :=
           JObj [("masterPrompts",
                  JArr [JObj [("language", JStr "English");
                              ("prompt",
                               JStr "Draw a red kite over the dunes at dawn.")];
                        JObj [("language", JStr "Vietnamese");
                              ("prompt",
                               JStr "Vẽ một cánh diều đỏ trên đồi cát lúc bình minh.")]]);
                 ("preview",
                  JObj [("type", JStr "video");
                        ("content", JStr "data:video/mp4;base64,TWFu")])]
      |}%string
      (2 + 1) calls 0
  /\ length (filter is_status_check calls) = 2 + 1
  /\ length (filter is_sleep calls) = 2 + 1.
Proof.
  intros d w report.
  apply (proj2 (proj2
           (@video_job_polled_until_done Examples.engine w Examples.configured
              "k-123" d (Examples.prompts_text Examples.bilingual)
              Examples.bilingual "Draw a red kite over the dunes at dawn."
              eq_refl eq_refl eq_refl eq_refl eq_refl eq_refl eq_refl))
           Examples.pending_operation report 2
           "https://files/kite?alt=media" []
           {| blob_type := "video/mp4"; blob_bytes := "Man" |} 0);
    try reflexivity; try discriminate.
  intros [|[|i]] Hi; discriminate || lia.
Defined.

(** C8, refuted as it stands.  The job is submitted and pending, and its
    first status check fails: no report of the job is done, and yet the
    relay leaves the loop and returns, with status 500, after one sleep and
    one status check. *)
Theorem polling_ends_without_a_done_report :
  let d := Examples.request "Video" None in
  let w := Samples.unreachable (inr (generate_body d)) in
  (forall k report,
     job_report w
       (videoGenParams "Draw a red kite over the dunes at dawn." d) k
       = inr report ->
     report.(done) <> Some true)
  /\ run (world w) 6 (@onRequestPost Examples.engine Examples.configured) 0
     = Done
         {| status := 500;
            headers := [("Content-Type", "application/json")%string];
            body :=
              JObj [("error", JStr "The service is currently unavailable.")]
         |}%string
         1
         [made request_json;
          made (generateContent (@prompts_request d));
          made (generateVideos
                  (videoGenParams "Draw a red kite over the dunes at dawn."
                     d));
          made (setTimeout 5000);
          made (getVideosOperation Examples.pending_operation);
          made (console_error "Error in proxy function:"
                  (JsError "The service is currently unavailable."))]
         0.
Proof.
  cbv zeta. split.
  - intros [|k] report H; [|discriminate H].
    injection H as <-. discriminate.
  - vm_compute. reflexivity.
Qed.

(** C8, amended.  On a video request whose master prompts were obtained:
    as long as every status check is answered, the relay returns if and
    only if some report is done.  When one is, the relay leaves the loop at
    the first such report, after as many status checks as reports were
    pending, and goes on: when that report names an asset and the download
    succeeds, the asset is fetched and the response has status 200 and
    carries it as a data URL.  When all reports arrive and none is done, the
    relay returns on no amount of fuel and the number of status checks made
    grows with the fuel without bound: there is no time limit and no
    maximum number of attempts.  The only other way out of the loop is a
    status check that throws: the relay then returns, with status 500 and
    the message of what was thrown. *)
Theorem video_polling_ends_iff_done
    {platform : Platform} (w : World) (ctx : Context) (key : string)
    (d : PromptGenerationRequest) (completion : string)
    (masterPrompts : list MasterPrompt) (basePrompt : string) :
  ctx.(env).(API_KEY) = Some key ->
  truthy key = true ->
  w.(request_body)
    = inr {| type := "generate"; payload := GeneratePayload d |} ->
  includes VIDEO_OUTPUT_TYPES d.(outputType) = true ->
  w.(on_generateContent) (prompts_request d)
    = inr {| text := Some completion |} ->
  JSON_parse_prompts (trim completion)
    = inr {| prompts := Some masterPrompts |} ->
  basePromptForPreview masterPrompts = Some basePrompt ->
  let before_polling :=
    [made request_json;
     made (generateContent (prompts_request d));
     made (generateVideos (videoGenParams basePrompt d))] in
  (forall op : nat -> GenerateVideosOperation,
     (forall i, job_report w (videoGenParams basePrompt d) i = inr (op i)) ->
     ((exists fuel, finished (run (world w) fuel (onRequestPost ctx) 0) <> None)
      <-> (exists n, (op n).(done) = Some true))
     /\ (forall n, (op n).(done) = Some true ->
           exists N fuel response calls after_polling,
             N <= n
             /\ (op N).(done) = Some true
             /\ (forall i, i < N -> (op i).(done) <> Some true)
             /\ finished (run (world w) fuel (onRequestPost ctx) 0)
                = Some (response, calls)
             /\ calls = before_polling ++ polling_rounds 5000 op N
                        ++ after_polling
             /\ filter is_status_check after_polling = []
             /\ filter is_sleep after_polling = []
             /\ length (filter is_status_check calls) = N)
     /\ ((forall n, (op n).(done) <> Some true) ->
         (forall fuel,
            finished (run (world w) fuel (onRequestPost ctx) 0) = None)
         /\ (forall m,
               calls_of (run (world w) (3 + 3 * m) (onRequestPost ctx) 0)
               = before_polling ++ polling_rounds 5000 op m
               /\ length (filter is_status_check
                            (calls_of (run (world w) (3 + 3 * m)
                                         (onRequestPost ctx) 0))) = m)))
  /\
  (forall (op : nat -> GenerateVideosOperation) (N : nat)
          (link : string) (others : list GeneratedVideo) (asset : Blob) fuel,
     (forall i, i <= N ->
        job_report w (videoGenParams basePrompt d) i = inr (op i)) ->
     (forall i, i < N -> (op i).(done) <> Some true) ->
     (op N).(done) = Some true ->
     (op N).(response)
       = Some {| generatedVideos :=
                   Some ({| video := Some {| uri := Some link |} |}
                         :: others) |} ->
     link <> ""%string ->
     w.(on_fetch) (link ++ "&key=" ++ key)%string = inr asset ->
     run (world w) (3 + (3 * N + (1 + fuel))) (onRequestPost ctx) 0
     = Done
         {| status := 200;
            headers := [("Content-Type", "application/json")];
            body :=
              JObj [("masterPrompts",
                     JArr (map (fun p =>
                                  JObj [("language", JStr p.(language));
                                        ("prompt", JStr p.(prompt))])
                             masterPrompts));
                    ("preview",
                     JObj [("type", JStr "video");
                           ("content",
                            JStr ("data:" ++ asset.(blob_type) ++ ";base64,"
                                  ++ btoa asset.(blob_bytes)))])] |}%string
         N
         (before_polling ++ polling_rounds 5000 op N
          ++ [made (fetch (link ++ "&key=" ++ key)%string)])
         fuel)
  /\
  (forall (op : nat -> GenerateVideosOperation) (N : nat) (error : thrown)
          fuel,
     (forall i, i <= N ->
        job_report w (videoGenParams basePrompt d) i = inr (op i)) ->
     (forall i, i <= N -> (op i).(done) <> Some true) ->
     w.(status_report) N = inl error ->
     run (world w) (3 + (3 * N + (3 + fuel))) (onRequestPost ctx) 0
     = Done
         {| status := 500;
            headers := [("Content-Type", "application/json")];
            body :=
              JObj [("error",
                     JStr match error with
                          | JsError message => message
                          | NonError => "An unknown error occurred."
                          end)] |}%string
         (S N)
         (before_polling ++ polling_rounds 5000 op (S N)
          ++ [made (console_error "Error in proxy function:" error)])
         fuel).
Proof.
  intros Hkey Htruthy Hbody Hvideo Hcompletion Hparse Hbase before_polling.
  split; [|split].
  - intros op Hreports.
    assert (returns : forall n, (op n).(done) = Some true ->
       exists N fuel response calls after_polling,
         N <= n
         /\ (op N).(done) = Some true
         /\ (forall i, i < N -> (op i).(done) <> Some true)
         /\ finished (run (world w) fuel (onRequestPost ctx) 0)
            = Some (response, calls)
         /\ calls = before_polling ++ polling_rounds 5000 op N
                    ++ after_polling
         /\ filter is_status_check after_polling = []
         /\ filter is_sleep after_polling = []
         /\ length (filter is_status_check calls) = N).
    { intros n Hn. apply done_iff in Hn.
      destruct (first_done op n Hn) as [N [HN [Hdone Hpending]]].
      exists N, (3 + (3 * N + 2)),
        (fst (materialized w key masterPrompts (op N))).
      eexists. exists (snd (materialized w key masterPrompts (op N))).
      split; [exact HN|]. split; [apply done_iff, Hdone|].
      split; [intros i Hi; apply not_done_iff, Hpending, Hi|].
      split; [|split; [reflexivity|]].
      - rewrite (video_polled w ctx key d Hkey Htruthy Hbody completion
                   masterPrompts basePrompt op Hvideo Hcompletion Hparse Hbase
                   N 2 (fun i _ => Hreports i) Hpending Hdone).
        rewrite deliver_enough.
        + run_simpl. rewrite <- app_assoc. reflexivity.
        + unfold materialized, caught.
          destruct (truthy_opt _); try destruct (on_fetch w _); cbn; lia.
      - rewrite !(materialized_after_polling w key) by auto.
        split; [reflexivity|]. split; [reflexivity|].
        rewrite !filter_app, !length_app.
        rewrite (materialized_after_polling w key) by auto.
        rewrite status_checks_in_rounds. cbn. lia. }
    assert (starves : forall fuel,
       (forall i, 3 * i <= fuel -> not_done (op i) = true) ->
       finished (run (world w) fuel (onRequestPost ctx) 0) = None).
    { intros fuel Hpending.
      destruct (Nat.lt_ge_cases fuel 3) as [Hlt|Hge].
      - apply (video_early w ctx key d Hkey Htruthy Hbody completion
                 masterPrompts basePrompt Hvideo Hcompletion Hparse Hbase).
        exact Hlt.
      - destruct (video_pending w ctx key d Hkey Htruthy Hbody completion
                    masterPrompts basePrompt op Hvideo Hcompletion Hparse
                    Hbase ((fuel - 3) / 3) ((fuel - 3) mod 3)) as [s Hs].
        + intros i _. apply Hreports.
        + intros i Hi. apply Hpending.
          pose proof (Nat.div_mod_eq (fuel - 3) 3). lia.
        + apply Nat.mod_upper_bound. lia.
        + replace fuel
            with (3 + (3 * ((fuel - 3) / 3) + (fuel - 3) mod 3)) at 1
            by (pose proof (Nat.div_mod_eq (fuel - 3) 3); lia).
          rewrite Hs. reflexivity. }
    split; [split|split].
    + intros [fuel Hfuel].
      destruct (pending_or_done op fuel) as [Hpending|[n Hdone]].
      * exfalso. apply Hfuel, starves. intros i Hi. apply Hpending. lia.
      * exists n. apply done_iff, Hdone.
    + intros [n Hn].
      destruct (returns n Hn)
        as [N [fuel [response [calls [tail [_ [_ [_ [Hrun _]]]]]]]]].
      exists fuel. rewrite Hrun. discriminate.
    + exact returns.
    + intros Hpending. split.
      * intros fuel. apply starves. intros i _.
        apply not_done_iff, Hpending.
      * intros m.
        destruct (video_pending w ctx key d Hkey Htruthy Hbody completion
                    masterPrompts basePrompt op Hvideo Hcompletion Hparse
                    Hbase m 0) as [s Hs].
        -- intros i _. apply Hreports.
        -- intros i _. apply not_done_iff, Hpending.
        -- lia.
        -- rewrite Nat.add_0_r in Hs. rewrite Hs. cbn [calls_of firstn].
           rewrite !app_nil_r. split; [reflexivity|].
           rewrite filter_app, length_app, status_checks_in_rounds.
           reflexivity.
  - intros op N link others asset fuel Hreports Hpending Hdone Hresponse
      Hlink Hfetch.
    apply (video_delivered w ctx key d Hkey Htruthy Hbody completion
             masterPrompts basePrompt op Hvideo Hcompletion Hparse Hbase
             N link others asset fuel Hreports Hpending Hdone Hresponse
             Hlink Hfetch).
  - intros op N error fuel Hreports Hpending Hthrown.
    rewrite (video_check_thrown w ctx key d Hkey Htruthy Hbody completion
               masterPrompts basePrompt op Hvideo Hcompletion Hparse Hbase
               N error fuel Hreports).
    + rewrite caught_written_out. reflexivity.
    + intros i Hi. apply not_done_iff, Hpending, Hi.
    + exact Hthrown.
Qed.

(** C8, on samples: a job that is done at its third status check, whose
    asset is fetched and returned; and one that never is. *)
Lemma video_polling_ends_iff_done_witness :
  let d := Examples.request "Video" None in
  let base := "Draw a red kite over the dunes at dawn."%string in
  let before_polling :=
    [made request_json;
     made (generateContent (@prompts_request d));
     made (generateVideos (videoGenParams base d))] in
  (let w := Examples.studio (inr (generate_body d)) Examples.bilingual 2
              Examples.finished_operation in
   let op := fun i => if i <? 3 then Examples.pending_operation
                      else Examples.finished_operation in
   run (world w) (3 + (3 * 3 + (1 + 0)))
     (@onRequestPost Examples.engine Examples.configured) 0
   = Done
       {| status := 200;
          headers := [("Content-Type", "application/json")%string];
          body :=
            JObj [("masterPrompts",
                   JArr [JObj [("language", JStr "English");
                               ("prompt",
                                JStr "Draw a red kite over the dunes at dawn.")];
                         JObj [("language", JStr "Vietnamese");
                               ("prompt",
                                JStr "Vẽ một cánh diều đỏ trên đồi cát lúc bình minh.")]]);
                  ("preview",
                   JObj [("type", JStr "video");
                         ("content", JStr "data:video/mp4;base64,TWFu")])]
       |}%string
       3
       (before_polling ++ polling_rounds 5000 op 3
        ++ [made (fetch "https://files/kite?alt=media&key=k-123")])
       0)
  /\
  (let w := Examples.stalled_studio (inr (generate_body d)) Examples.bilingual in
   let op := fun _ : nat => Examples.pending_operation in
   (forall fuel,
      finished (run (world w) fuel
                  (@onRequestPost Examples.engine Examples.configured) 0)
      = None)
   /\ (forall m,
         calls_of (run (world w) (3 + 3 * m)
                     (@onRequestPost Examples.engine Examples.configured) 0)
           = before_polling ++ polling_rounds 5000 op m
         /\ length (filter is_status_check
                      (calls_of (run (world w) (3 + 3 * m)
                                   (@onRequestPost Examples.engine
                                      Examples.configured) 0))) = m)).
Proof.
  intros d base before_polling. split.
  - intros w op.
    apply (proj1 (proj2
             (@video_polling_ends_iff_done Examples.engine w
                Examples.configured "k-123" d
                (Examples.prompts_text Examples.bilingual) Examples.bilingual
                base eq_refl eq_refl eq_refl eq_refl eq_refl eq_refl eq_refl))
             op 3 "https://files/kite?alt=media" []
             {| blob_type := "video/mp4"; blob_bytes := "Man" |} 0);
      try reflexivity; try discriminate.
    + intros [|[|[|[|i]]]] Hi; reflexivity || lia.
    + intros [|[|[|i]]] Hi; discriminate || lia.
  - intros w op.
    apply (proj2 (proj2 (proj1
             (@video_polling_ends_iff_done Examples.engine w
                Examples.configured "k-123" d
                (Examples.prompts_text Examples.bilingual) Examples.bilingual
                base eq_refl eq_refl eq_refl eq_refl eq_refl eq_refl eq_refl)
             op ltac:(intros [|i]; reflexivity)))).
    intros n. discriminate.
Defined.

End VideoFacts.

(* ===================================================================== *)
(** * The responses of the relay *)
(* ===================================================================== *)

Module ResponseFacts.
Import Js Types Async Script RunFacts AsyncFacts PollFacts Relay GenerateFacts.

(** When a step needs fuel and the fuel is a variable, consider both the
    empty and the non-empty tank. *)
Ltac need_fuel :=
  match goal with
  | |- context [run _ ?f (await _) _] => is_var f; destruct f as [|f]
  | |- context [run _ ?f (ITree.trigger _) _] => is_var f; destruct f as [|f]
  end.

Section Success.
Context {platform : Platform}.
Variables (w : World) (key : string) (d : PromptGenerationRequest).

Lemma handleGenerate_returns fuel response calls :
  finished (run (world w) fuel
              (handleGenerate {| apiKey := key |} (GeneratePayload d) key) 0)
    = Some (inr response, calls) ->
  exists completion masterPrompts basePrompt preview rest,
    w.(on_generateContent) (prompts_request d)
      = inr {| text := Some completion |}
    /\ JSON_parse_prompts (trim completion)
       = inr {| prompts := Some masterPrompts |}
    /\ masterPrompts <> []
    /\ basePromptForPreview masterPrompts = Some basePrompt
    /\ response = jsonResponse (generation_json masterPrompts preview) 200
    /\ preview.(preview_type)
       = Some (preview_kind (pathway_of d.(outputType)))
    /\ calls = made (generateContent (prompts_request d))
               :: pathway_call (pathway_of d.(outputType)) basePrompt d
               :: rest
    /\ pathway_rest (pathway_of d.(outputType)) rest.
Proof.
  unfold handleGenerate, request_masterPrompts.
  run_go; need_fuel; run_go; [discriminate|].
  destruct (on_generateContent w (prompts_request d))
    as [e|[[completion|]]] eqn:Hcompletion;
    run_go; cbn [text]; run_go; try discriminate.
  destruct (JSON_parse_prompts (trim completion))
    as [message|[[[|p0 ps]|]]] eqn:Hparse;
    cbn [prompts]; run_go; try discriminate.
  destruct (basePromptForPreview (p0 :: ps)) as [basePrompt|] eqn:Hbase;
    run_go; try discriminate.
  unfold pathway_of.
  destruct (includes IMAGE_OUTPUT_TYPES (outputType d));
    [|destruct (includes VIDEO_OUTPUT_TYPES (outputType d))].
  - (* image *)
    unfold image_preview. run_go; need_fuel; run_go; [discriminate|].
    destruct (on_generateImages w _) as [e|[[[|[[img|]] gs]|]]];
      cbn [generatedImages nth_error image]; run_go; try discriminate.
    intros [= <- <-].
    eexists completion, (p0 :: ps), basePrompt, _, [].
    repeat split; try reflexivity; try assumption. discriminate.
  - (* video *)
    unfold video_preview. run_go; need_fuel; run_go; [discriminate|].
    destruct (submission w _) as [e|op0]; run_go; try discriminate.
    destruct (run (world w) fuel (poll_until_done 5000 op0) 0)
      as [r s cs f|] eqn:Hpoll; run_go; [|discriminate].
    destruct (poll_leaves w 5000 fuel op0 0 r cs) as [_ [op [n Hcs]]].
    { rewrite Hpoll. reflexivity. }
    destruct r as [e|operation]; run_go; try discriminate.
    destruct (truthy_opt (downloadLink_of operation)); run_go;
      try discriminate.
    run_go; need_fuel; run_go; [discriminate|].
    destruct (on_fetch w _) as [e|blob]; run_go; try discriminate.
    intros [= <- <-].
    eexists completion, (p0 :: ps), basePrompt, _, _.
    repeat split; try reflexivity; try assumption; [discriminate|].
    cbn [pathway_rest]. exists op, n. eexists. rewrite Hcs. reflexivity.
  - (* text *)
    unfold text_preview. run_go; need_fuel; run_go; [discriminate|].
    destruct (on_generateContent w (text_request _ _)) as [e|r];
      run_go; try discriminate.
    intros [= <- <-].
    eexists completion, (p0 :: ps), basePrompt, _, [].
    repeat split; try reflexivity; try assumption. discriminate.
Qed.


Variable ctx : Context.
Hypothesis Hkey : ctx.(env).(API_KEY) = Some key.
Hypothesis Htruthy : truthy key = true.

(** The relay's [try] block is entered. *)
Lemma onRequestPost_tries :
  onRequestPost ctx =
  try_catch (dispatch key) (fun error =>
    ITree.bind (ITree.trigger (console_error "Error in proxy function:" error))
      (fun _ => Ret (jsonResponse (error_body (errorMessage_of error)) 500))).
Proof.
  unfold onRequestPost. rewrite Hkey. cbn [truthy_opt value]. rewrite Htruthy.
  reflexivity.
Qed.

(** A failure of what the [try] block runs is answered by the [catch]. *)
Lemma failure_caught fuel error s calls left :
  run (world w) fuel (dispatch key) 0 = Done (inl error) s calls (S left) ->
  run (world w) fuel (onRequestPost ctx) 0 =
  Done (fst (caught error)) s (calls ++ snd (caught error)) left.
Proof.
  intros Hrun. rewrite onRequestPost_tries, run_try_catch, Hrun.
  run_go. reflexivity.
Qed.

Hypothesis Hbody : w.(request_body) = inr (generate_body d).

(** A generation request answered with status 200. *)
Lemma generate_success fuel response calls :
  finished (run (world w) fuel (onRequestPost ctx) 0)
    = Some (response, calls) ->
  response.(status) = 200%Z ->
  exists completion masterPrompts basePrompt preview rest,
    w.(on_generateContent) (prompts_request d)
      = inr {| text := Some completion |}
    /\ JSON_parse_prompts (trim completion)
       = inr {| prompts := Some masterPrompts |}
    /\ masterPrompts <> []
    /\ basePromptForPreview masterPrompts = Some basePrompt
    /\ response = jsonResponse (generation_json masterPrompts preview) 200
    /\ preview.(preview_type)
       = Some (preview_kind (pathway_of d.(outputType)))
    /\ calls = made request_json
               :: made (generateContent (prompts_request d))
               :: pathway_call (pathway_of d.(outputType)) basePrompt d
               :: rest
    /\ pathway_rest (pathway_of d.(outputType)) rest.
Proof.
  destruct fuel as [|fuel].
  - rewrite onRequestPost_tries. unfold dispatch. run_go. discriminate.
  - rewrite (generate_dispatched w ctx key d Hkey Htruthy Hbody).
    destruct (run (world w) fuel _ 0) as [r s cs f|] eqn:Hrun; run_simpl;
      [|discriminate].
    destruct r as [e|resp].
    + unfold deliver. destruct (_ <=? _); run_simpl; [|discriminate].
      intros [= <- <-] Hstatus. discriminate Hstatus.
    + run_simpl. intros [= <- <-] _.
      destruct (handleGenerate_returns fuel resp cs)
        as [completion [masterPrompts [basePrompt [preview [rest H]]]]].
      { rewrite Hrun. reflexivity. }
      exists completion, masterPrompts, basePrompt, preview, rest.
      destruct H as [H1 [H2 [H3 [H4 [H5 [H6 [H7 H8]]]]]]].
      repeat split; try assumption. rewrite H7. reflexivity.
Qed.

End Success.
End ResponseFacts.

(* ===================================================================== *)
(** * The pathway a request takes *)
(* ===================================================================== *)

Module PathwayFacts.
Import Js Types Async Script RunFacts AsyncFacts PollFacts Relay GenerateFacts
  ResponseFacts.

Lemma calls_of_after_all {S R} cs (o : outcome S R) :
  calls_of (after_all cs o) = cs ++ calls_of o.
Proof.
  destruct o; [rewrite after_all_Done|rewrite after_all_OutOfFuel];
    reflexivity.
Qed.

(** Once the master prompts are there, the third call of the relay is the
    first call of the pathway of the output type. *)
Lemma pathway_entered {platform : Platform} (w : World) (ctx : Context)
    (key : string) (d : PromptGenerationRequest) (completion : string)
    (masterPrompts : list MasterPrompt) (basePrompt : string) fuel :
  ctx.(env).(API_KEY) = Some key ->
  truthy key = true ->
  w.(request_body) = inr (generate_body d) ->
  w.(on_generateContent) (prompts_request d)
    = inr {| text := Some completion |} ->
  JSON_parse_prompts (trim completion)
    = inr {| prompts := Some masterPrompts |} ->
  basePromptForPreview masterPrompts = Some basePrompt ->
  firstn 3 (calls_of (run (world w) (3 + fuel) (onRequestPost ctx) 0)) =
  [made request_json;
   made (generateContent (prompts_request d));
   pathway_call (pathway_of d.(outputType)) basePrompt d].
Proof.
  intros Hkey Htruthy Hbody Hcompletion Hparse Hbase.
  change (3 + fuel) with (S (S (S fuel))).
  rewrite (generate_dispatched w ctx key d Hkey Htruthy Hbody).
  unfold handleGenerate, request_masterPrompts. run_go.
  rewrite Hcompletion. run_simpl. cbn [text]. rewrite Hparse. cbn [prompts].
  destruct masterPrompts as [|p0 ps]; [discriminate Hbase|].
  run_go. rewrite Hbase. unfold pathway_of.
  destruct (includes IMAGE_OUTPUT_TYPES (outputType d));
    [|destruct (includes VIDEO_OUTPUT_TYPES (outputType d))];
    unfold image_preview, video_preview, text_preview; run_go;
    rewrite ?seq_outcome_after_all, ?calls_of_after_all; reflexivity.
Qed.

(** C2. The pathway is a function of the output type alone: the three image
    tokens give the image pathway, the two video tokens the video pathway,
    every other string the text pathway.  Once the master prompts are
    obtained the relay enters that pathway and no other, and every response
    with status 200 to a generation request carries one preview, whose
    [type] is ['image'], ['video'] or ['text'] as the pathway is the image,
    the video or the text pathway, with at most one content beside it. *)
Theorem output_type_selects_pathway {platform : Platform} :
  (forall outputType,
     In outputType ["Image"; "Ảnh"; "Hình ảnh"] ->
     pathway_of outputType = ImagePathway)
  /\ (forall outputType,
        In outputType ["Video"; "Phim ngắn"] ->
        pathway_of outputType = VideoPathway)
  /\ (forall outputType,
        ~ In outputType ["Image"; "Ảnh"; "Hình ảnh"; "Video"; "Phim ngắn"] ->
        pathway_of outputType = TextPathway)
  /\ (forall (w : World) (ctx : Context) (key : string)
             (d : PromptGenerationRequest) (completion : string)
             (masterPrompts : list MasterPrompt) (basePrompt : string) fuel,
        ctx.(env).(API_KEY) = Some key ->
        truthy key = true ->
        w.(request_body) = inr (generate_body d) ->
        w.(on_generateContent) (prompts_request d)
          = inr {| text := Some completion |} ->
        JSON_parse_prompts (trim completion)
          = inr {| prompts := Some masterPrompts |} ->
        basePromptForPreview masterPrompts = Some basePrompt ->
        firstn 3 (calls_of (run (world w) (3 + fuel) (onRequestPost ctx) 0)) =
        [made request_json;
         made (generateContent (prompts_request d));
         pathway_call (pathway_of d.(outputType)) basePrompt d])
  /\ (forall (w : World) (ctx : Context) (key : string)
             (d : PromptGenerationRequest) fuel response calls,
        ctx.(env).(API_KEY) = Some key ->
        truthy key = true ->
        w.(request_body) = inr (generate_body d) ->
        finished (run (world w) fuel (onRequestPost ctx) 0)
          = Some (response, calls) ->
        response.(status) = 200%Z ->
        exists masterPrompts basePrompt content rest,
          response
          = {| status := 200;
               headers := [("Content-Type", "application/json")];
               body :=
                 JObj [("masterPrompts",
                        JArr (map (fun p =>
                                     JObj [("language", JStr p.(language));
                                           ("prompt", JStr p.(prompt))])
                                masterPrompts));
                       ("preview",
                        JObj (("type",
                               JStr match pathway_of d.(outputType) with
                                    | ImagePathway => "image"
                                    | VideoPathway => "video"
                                    | TextPathway => "text"
                                    end)
                              :: match content with
                                 | Some c => [("content", JStr c)]
                                 | None => []
                                 end))] |}%string
          /\ calls = made request_json
                     :: made (generateContent (prompts_request d))
                     :: pathway_call (pathway_of d.(outputType)) basePrompt d
                     :: rest
          /\ pathway_rest (pathway_of d.(outputType)) rest).
Proof.
  split; [|split; [|split; [|split]]].
  - intros x Hx. cbn [In] in Hx.
    destruct Hx as [<-|[<-|[<-|[]]]]; reflexivity.
  - intros x Hx. cbn [In] in Hx.
    destruct Hx as [<-|[<-|[]]]; reflexivity.
  - intros x Hx. unfold pathway_of, includes, IMAGE_OUTPUT_TYPES,
      VIDEO_OUTPUT_TYPES. cbn [existsb].
    repeat match goal with
    | |- context [String.eqb x ?t] =>
        destruct (String.eqb_spec x t) as [->|_];
        [exfalso; apply Hx; cbn [In]; tauto|]
    end.
    reflexivity.
  - intros w ctx key d completion masterPrompts basePrompt fuel.
    apply pathway_entered.
  - intros w ctx key d fuel response calls Hkey Htruthy Hbody Hrun Hstatus.
    destruct (generate_success w key d ctx Hkey Htruthy Hbody fuel response
                calls Hrun Hstatus)
      as [completion [masterPrompts [basePrompt [preview [rest H]]]]].
    destruct H as [_ [_ [_ [_ [Hresponse [Hkind [Hcalls Hrest]]]]]]].
    exists masterPrompts, basePrompt, preview.(preview_content), rest.
    split; [|split; assumption].
    rewrite Hresponse. destruct preview as [kind content].
    cbn [preview_type preview_content] in Hkind |- *. rewrite Hkind.
    rewrite success_written_out.
    destruct (pathway_of (outputType d)); reflexivity.
Qed.

(** C2, on samples: one token of each kind, and an image request served
    by the sample provider: the relay returns, after the read of the body,
    the structured completion and one call for an image, a response whose
    preview is of type ['image']. *)
Lemma output_type_selects_pathway_witness :
  let response :=
    {| status := 200;
       headers := [("Content-Type", "application/json")];
       body :=
         JObj [("masterPrompts",
                JArr [JObj [("language", JStr "English");
                            ("prompt",
                             JStr "Draw a red kite over the dunes at dawn.")];
                      JObj [("language", JStr "Vietnamese");
                            ("prompt",
                             JStr "Vẽ một cánh diều đỏ trên đồi cát lúc bình minh.")]]);
               ("preview",
                JObj [("type", JStr "image");
                      ("content",
                       JStr "data:image/png;base64,iVBORw0KGgo=")])] |}%string in
  let calls :=
    [made request_json;
     made (generateContent (@prompts_request (Examples.request "Ảnh" None)));
     made (generateImages
             {| gi_model := "imagen-3.0-generate-002";
                gi_prompt := "Draw a red kite over the dunes at dawn.";
                numberOfImages := 1;
                outputMimeType := "image/png";
                gi_aspectRatio := "1:1" |})] in
  pathway_of "Ảnh" = ImagePathway
  /\ pathway_of "Phim ngắn" = VideoPathway
  /\ pathway_of "Email" = TextPathway
  /\ firstn 3
       (calls_of
          (run (world (Examples.studio
                         (inr (generate_body (Examples.request "Video" None)))
                         Examples.bilingual 2 Examples.finished_operation))
             (3 + 0) (@onRequestPost Examples.engine Examples.configured) 0))
     = [made request_json;
        made (generateContent
                (@prompts_request (Examples.request "Video" None)));
        pathway_call (pathway_of "Video")
          "Draw a red kite over the dunes at dawn."
          (Examples.request "Video" None)]
  /\ finished
       (run (world (Examples.studio
                      (inr (generate_body (Examples.request "Ảnh" None)))
                      Examples.bilingual 0 Examples.finished_operation))
          5 (@onRequestPost Examples.engine Examples.configured) 0)
     = Some (response, calls)
  /\ exists masterPrompts basePrompt content rest,
       response
       = {| status := 200;
            headers := [("Content-Type", "application/json")];
            body :=
              JObj [("masterPrompts",
                     JArr (map (fun p =>
                                  JObj [("language", JStr p.(language));
                                        ("prompt", JStr p.(prompt))])
                             masterPrompts));
                    ("preview",
                     JObj (("type",
                            JStr match pathway_of "Ảnh" with
                                 | ImagePathway => "image"
                                 | VideoPathway => "video"
                                 | TextPathway => "text"
                                 end)
                           :: match content with
                              | Some c => [("content", JStr c)]
                              | None => []
                              end))] |}%string
       /\ calls
          = made request_json
            :: made (generateContent
                       (@prompts_request (Examples.request "Ảnh" None)))
            :: pathway_call (pathway_of "Ảnh") basePrompt
                 (Examples.request "Ảnh" None)
            :: rest
       /\ pathway_rest (pathway_of "Ảnh") rest.
Proof.
  intros response calls.
  destruct (@output_type_selects_pathway Examples.engine)
    as [Himage [Hvideo [Htext [Hentered Hresponse]]]].
  split; [apply Himage; cbn [In]; tauto|].
  split; [apply Hvideo; cbn [In]; tauto|].
  split.
  { apply Htext. cbn [In]. intros H.
    repeat (destruct H as [H|H]; [discriminate H|]). exact H. }
  split.
  { apply (Hentered _ Examples.configured "k-123"
             (Examples.request "Video" None)
             (Examples.prompts_text Examples.bilingual) Examples.bilingual);
      reflexivity. }
  split; [reflexivity|].
  apply (Hresponse
           (Examples.studio
              (inr (generate_body (Examples.request "Ảnh" None)))
              Examples.bilingual 0 Examples.finished_operation)
           Examples.configured "k-123" (Examples.request "Ảnh" None) 5
           response calls);
    reflexivity.
Defined.

End PathwayFacts.

(* ===================================================================== *)
(** * Completions that cannot be used *)
(* ===================================================================== *)

Module RejectionFacts.
Import Js Types Async Script RunFacts AsyncFacts PollFacts Relay GenerateFacts
  ResponseFacts.

Section Failures.
Context {platform : Platform}.
Variables (w : World) (ctx : Context) (key : string)
          (d : PromptGenerationRequest).
Hypothesis Hkey : ctx.(env).(API_KEY) = Some key.
Hypothesis Htruthy : truthy key = true.
Hypothesis Hbody : w.(request_body) = inr (generate_body d).

(** A structured completion that is refused, or that cannot be used, fails
    the request after two calls. *)
Lemma completion_rejected error fuel :
  match w.(on_generateContent) (prompts_request d) with
  | inl refused => error = refused
  | inr {| text := None |} => error = TypeError "text.trim"
  | inr {| text := Some completion |} =>
      match JSON_parse_prompts (trim completion) with
      | inl message => error = JsError message
      | inr {| prompts := None |} | inr {| prompts := Some [] |} =>
          error = JsError "AI did not return any prompts."
      | inr {| prompts := Some (_ :: _) |} => False
      end
  end ->
  run (world w) (3 + fuel) (onRequestPost ctx) 0
  = Done (jsonResponse (error_body (errorMessage_of error)) 500) 0
      [made request_json;
       made (generateContent (prompts_request d));
       made (console_error "Error in proxy function:" error)] fuel.
Proof.
  intros Hfailure.
  change (3 + fuel) with (S (S (S fuel))).
  rewrite (generate_dispatched w ctx key d Hkey Htruthy Hbody).
  unfold handleGenerate, request_masterPrompts. run_go.
  destruct (on_generateContent w (prompts_request d))
    as [refused|[[completion|]]]; run_simpl; cbn [text];
    [subst error; run_go; run_done| |subst error; run_go; run_done].
  destruct (JSON_parse_prompts (trim completion)) as [message|[[[|p0 ps]|]]];
    cbn [prompts]; try contradiction; subst error; run_go; run_done.
Qed.

End Failures.

(** An analysis whose completion is refused or is not JSON fails the
    request after two calls. *)
Lemma analysis_rejected {platform : Platform} (w : World) (ctx : Context)
    (key : string) (data : Payload) error fuel :
  ctx.(env).(API_KEY) = Some key ->
  truthy key = true ->
  w.(request_body) = inr {| type := "analyze"; payload := data |} ->
  let promptToAnalyze :=
    match data with
    | AnalyzePayload p => Some p
    | GeneratePayload _ => None
    end in
  match w.(on_generateContent) (analysis_request promptToAnalyze) with
  | inl refused => error = refused
  | inr {| text := None |} => error = TypeError "text.trim"
  | inr {| text := Some completion |} =>
      match JSON_parse (trim completion) with
      | inl message => error = JsError message
      | inr _ => False
      end
  end ->
  run (world w) (3 + fuel) (onRequestPost ctx) 0
  = Done (jsonResponse (error_body (errorMessage_of error)) 500) 0
      [made request_json;
       made (generateContent (analysis_request promptToAnalyze));
       made (console_error "Error in proxy function:" error)] fuel.
Proof.
  intros Hkey Htruthy Hbody promptToAnalyze Hfailure.
  rewrite (onRequestPost_tries key ctx Hkey Htruthy). unfold dispatch.
  change (3 + fuel) with (S (S (S fuel))).
  run_go. rewrite Hbody. run_simpl. cbn [type payload].
  change ("analyze" =? "generate")%string with false.
  change ("analyze" =? "analyze")%string with true. cbv iota.
  unfold handleAnalyze. fold promptToAnalyze. run_go.
  destruct (on_generateContent w (analysis_request promptToAnalyze))
    as [refused|[[completion|]]]; run_simpl; cbn [text];
    [subst error; run_go; run_done| |subst error; run_go; run_done].
  destruct (JSON_parse (trim completion)) as [message|parsed];
    try contradiction; subst error; run_go; run_done.
Qed.

End RejectionFacts.

(* ===================================================================== *)
(** * The generation handler on a completion of any shape *)
(* ===================================================================== *)

Module UntypedFacts.
Import Js Types Async Script RunFacts AsyncFacts PollFacts Relay GenerateFacts
  ResponseFacts RejectionFacts.

Lemma map_outcome_after_all {S A B} (g : A -> B) cs (o : outcome S A) :
  map_outcome g (after_all cs o) = after_all cs (map_outcome g o).
Proof.
  destruct o; cbn [map_outcome];
    rewrite ?after_all_Done, ?after_all_OutOfFuel; reflexivity.
Qed.

Section Untyped.
Context {platform : Platform} {runtime : Runtime}.
Variables (w : World) (ctx : Context) (key : string).
Hypothesis Hkey : ctx.(env).(API_KEY) = Some key.
Hypothesis Htruthy : truthy key = true.

(** The [try] block is entered. *)
Lemma untyped_tries :
  Untyped.onRequestPost ctx =
  try_catch (Untyped.dispatch key) (fun error =>
    ITree.bind (ITree.trigger (console_error "Error in proxy function:" error))
      (fun _ =>
         Ret (inr (jsonResponse (error_body (errorMessage_of error)) 500)))).
Proof.
  unfold Untyped.onRequestPost. rewrite Hkey. cbn [truthy_opt value].
  rewrite Htruthy. reflexivity.
Qed.

(** A failure of what the [try] block runs is answered by the [catch]. *)
Lemma untyped_failure_caught fuel error s calls left :
  run (world w) fuel (Untyped.dispatch key) 0
    = Done (inl error) s calls (S left) ->
  run (world w) fuel (Untyped.onRequestPost ctx) 0 =
  Done (inr (fst (caught error))) s (calls ++ snd (caught error)) left.
Proof.
  intros Hrun. rewrite untyped_tries, run_try_catch, Hrun.
  run_go. reflexivity.
Qed.

Variable d : PromptGenerationRequest.
Hypothesis Hbody : w.(request_body) = inr (generate_body d).

(** The relay reads the body and hands the payload to the handler. *)
Lemma untyped_dispatched fuel :
  run (world w) (S fuel) (Untyped.onRequestPost ctx) 0 =
  after_all [made request_json]
    (seq_outcome
       (run (world w) fuel
          (Untyped.handleGenerate {| apiKey := key |} (GeneratePayload d) key)
          0)
       (fun r s f =>
          match r with
          | inl e => map_outcome inr (deliver f s (caught e))
          | inr response => Done response s [] f
          end)).
Proof.
  rewrite untyped_tries. unfold Untyped.dispatch. run_go.
  rewrite Hbody. run_simpl.
  cbn [type payload generate_body].
  change ("generate" =? "generate")%string with true. cbv iota.
  destruct (run (world w) fuel _ 0) as [r s cs f|]; [|run_done].
  destruct r as [e|response]; [|run_done].
  destruct f as [|f]; run_go; unfold deliver, caught;
    cbn [snd fst length Nat.leb firstn Nat.sub map_outcome]; run_done.
Qed.

(** The completion parsed, and reading the result throws: the request
    fails after two calls. *)
Lemma untyped_result_rejected completion result error fuel :
  w.(on_generateContent) (prompts_request d)
    = inr {| text := Some completion |} ->
  JSON_parse (trim completion) = inr result ->
  match Untyped.masterPrompts_of result with
  | inl e => error = e
  | inr masterPrompts =>
      Untyped.basePromptForPreview masterPrompts = inl error
  end ->
  run (world w) (3 + fuel) (Untyped.onRequestPost ctx) 0
  = Done (inr (fst (caught error))) 0
      [made request_json;
       made (generateContent (prompts_request d));
       made (console_error "Error in proxy function:" error)] fuel.
Proof.
  intros Hcompletion Hparse Hfailure.
  change (3 + fuel) with (S (S (S fuel))). rewrite untyped_dispatched.
  unfold Untyped.handleGenerate. run_go. rewrite Hcompletion. run_simpl.
  cbn [text]. rewrite Hparse.
  destruct (Untyped.masterPrompts_of result) as [e|masterPrompts].
  - subst error. run_go. unfold deliver, caught.
    cbn [snd fst length Nat.leb firstn Nat.sub map_outcome]. run_done.
  - rewrite Hfailure. run_go. unfold deliver, caught.
    cbn [snd fst length Nat.leb firstn Nat.sub map_outcome]. run_done.
Qed.

(** The completion parsed, its first entry is the English one and has no
    prompt, and the request is for a text: the preview is asked for with
    the text "undefined", and the entries are returned as they were parsed.
    *)
Lemma untyped_text_delivered completion fields first rest language
    preview_text fuel :
  includes IMAGE_OUTPUT_TYPES d.(outputType) = false ->
  includes VIDEO_OUTPUT_TYPES d.(outputType) = false ->
  d.(file) = None ->
  w.(on_generateContent) (prompts_request d)
    = inr {| text := Some completion |} ->
  JSON_parse (trim completion) = inr (JObj fields) ->
  assoc "prompts" fields = Some (JArr (JObj first :: rest)) ->
  assoc "language" first = Some (JStr language) ->
  toLowerCase language = "english"%string ->
  assoc "prompt" first = None ->
  w.(on_generateContent) (text_request [TextPart "undefined"] d)
    = inr {| text := Some preview_text |} ->
  run (world w) (3 + fuel) (Untyped.onRequestPost ctx) 0
  = Done
      (inr {| status := 200;
              headers := [("Content-Type", "application/json")];
              body :=
                JObj [("masterPrompts", JArr (JObj first :: rest));
                      ("preview",
                       JObj [("type", JStr "text");
                             ("content", JStr preview_text)])] |}%string)
      0
      [made request_json;
       made (generateContent (prompts_request d));
       made (generateContent (text_request [TextPart "undefined"] d))]
      fuel.
Proof.
  intros Himage Hvideo Hfile Hcompletion Hparse Hprompts Hlanguage Henglish
    Hprompt Hpreview.
  change (3 + fuel) with (S (S (S fuel))). rewrite untyped_dispatched.
  unfold Untyped.handleGenerate. run_go. rewrite Hcompletion. run_simpl.
  cbn [text]. rewrite Hparse.
  unfold Untyped.masterPrompts_of. cbn [get]. rewrite Hprompts.
  cbn [Client.truthy_json negb].
  unfold Untyped.basePromptForPreview.
  cbn [Untyped.find_english get]. rewrite Hlanguage, Henglish.
  change ("english" =? "english")%string with true. cbv iota.
  cbn [get]. rewrite Hprompt. cbn [Untyped.truthy_value nth_error get].
  rewrite Hprompt, Himage, Hvideo, Hfile.
  cbn [Untyped.text_of previewPromptParts].
  unfold text_preview. run_go. rewrite Hpreview. run_go.
  cbn [text]. run_done.
Qed.

End Untyped.

(** ** On a completion of the declared type the two handlers agree *)

Section Agreement.
Context {platform : Platform} {runtime : Runtime}.

(** The reads of the untyped handler on entries of the declared type. *)
Lemma find_english_typed (masterPrompts : list MasterPrompt) :
  Untyped.find_english (map masterPrompt_json masterPrompts)
  = inr (option_map masterPrompt_json
           (find (fun p => toLowerCase p.(language) =? "english")%string
              masterPrompts)).
Proof.
  induction masterPrompts as [|p ps IH]; [reflexivity|].
  cbn [map Untyped.find_english find masterPrompt_json get assoc].
  cbn [String.eqb Ascii.eqb Bool.eqb].
  destruct (toLowerCase (language p) =? "english")%string;
    [reflexivity|exact IH].
Qed.

Lemma basePromptForPreview_typed (masterPrompts : list MasterPrompt) :
  masterPrompts <> [] ->
  exists basePrompt,
    basePromptForPreview masterPrompts = Some basePrompt
    /\ Untyped.basePromptForPreview (map masterPrompt_json masterPrompts)
       = inr (Some (JStr basePrompt)).
Proof.
  intros Hnonempty. unfold Untyped.basePromptForPreview, basePromptForPreview.
  rewrite find_english_typed.
  destruct masterPrompts as [|p0 ps]; [contradiction|].
  destruct (find _ (p0 :: ps)) as [p|]; cbn [option_map].
  - cbn [masterPrompt_json get assoc]. cbn [String.eqb Ascii.eqb Bool.eqb].
    cbn [Untyped.truthy_value Client.truthy_json truthy_opt].
    destruct (truthy (prompt p)).
    + exists (prompt p). split; reflexivity.
    + exists (prompt p0). split; reflexivity.
  - cbn [Untyped.truthy_value truthy_opt]. exists (prompt p0).
    split; reflexivity.
Qed.

(** A response, or what was thrown, as the untyped handler returns it. *)
Let lifted (r : thrown + Response) : thrown + (Untyped.Beyond + Response) :=
  match r with
  | inl e => inl e
  | inr response => inr (inr response)
  end.

Lemma run_lifted {S A} (answer : Environment S) fuel (m : js A)
    (f : A -> Response) s :
  run answer fuel (Async.bind m (fun a => ret (inr (f a)))) s
  = map_outcome lifted
      (run answer fuel (Async.bind m (fun a => ret (f a))) s).
Proof.
  rewrite !run_bindJ.
  destruct (run answer fuel m s) as [r s' cs f'|]; [|reflexivity].
  cbn [seq_outcome]. destruct r as [e|a]; rewrite ?run_retJ;
    rewrite map_outcome_after_all; reflexivity.
Qed.

Variable w : World.
Hypothesis Hagree : forall s, Untyped.parses_agree s.

Lemma handleGenerate_agrees key data fuel :
  run (world w) fuel
    (Untyped.handleGenerate {| apiKey := key |} data key) 0
  = map_outcome lifted
      (run (world w) fuel (handleGenerate {| apiKey := key |} data key) 0).
Proof.
  unfold Untyped.handleGenerate, handleGenerate, request_masterPrompts.
  destruct data as [d|promptToAnalyze]; [|run_go; reflexivity].
  run_go. destruct fuel as [|fuel]; run_go; [reflexivity|].
  destruct (on_generateContent w (prompts_request d))
    as [e|[[completion|]]]; run_go; cbn [text]; run_go;
    rewrite ?map_outcome_after_all; try reflexivity.
  pose proof (Hagree (trim completion)) as Hparse.
  unfold Untyped.parses_agree in Hparse.
  destruct (JSON_parse_prompts (trim completion))
    as [message|[[masterPrompts|]]]; cbn [prompts].
  - rewrite Hparse. run_go. reflexivity.
  - destruct Hparse as [result [-> Hprompts]].
    assert (Hresult : result <> JNull).
    { intros ->. discriminate Hprompts. }
    assert (Hread : Untyped.masterPrompts_of result
                    = match masterPrompts with
                      | [] => inl (JsError "AI did not return any prompts.")
                      | _ => inr (map masterPrompt_json masterPrompts)
                      end).
    { unfold Untyped.masterPrompts_of. rewrite Hprompts.
      destruct result; try contradiction;
        destruct masterPrompts; reflexivity. }
    rewrite Hread. destruct masterPrompts as [|p0 ps]; [run_go; reflexivity|].
    destruct (basePromptForPreview_typed (p0 :: ps) ltac:(discriminate))
      as [basePrompt [Htyped Huntyped]].
    rewrite Huntyped. run_go. rewrite Htyped.
    destruct (includes IMAGE_OUTPUT_TYPES (outputType d));
      [|destruct (includes VIDEO_OUTPUT_TYPES (outputType d))];
      cbn [Untyped.text_of]; rewrite map_outcome_after_all;
      apply (f_equal (after_all _));
      apply (run_lifted (world w) fuel _
               (fun preview =>
                  jsonResponse (generation_json (p0 :: ps) preview) 200)).
  - destruct Hparse as [result [-> [Hresult Hprompts]]].
    assert (Hread : Untyped.masterPrompts_of result
                    = inl (JsError "AI did not return any prompts.")).
    { unfold Untyped.masterPrompts_of.
      destruct Hprompts as [-> | ->];
        destruct result; try contradiction; reflexivity. }
    rewrite Hread. run_go. reflexivity.
Qed.

Lemma dispatch_agrees key fuel :
  run (world w) fuel (Untyped.dispatch key) 0
  = map_outcome lifted (run (world w) fuel (dispatch key) 0).
Proof.
  unfold Untyped.dispatch, dispatch. run_go.
  destruct fuel as [|fuel]; run_go; [reflexivity|].
  destruct (request_body w) as [e|body]; run_go; [reflexivity|].
  rewrite map_outcome_after_all. apply (f_equal (after_all _)).
  destruct (type body =? "generate")%string;
    [apply handleGenerate_agrees|].
  destruct (type body =? "analyze")%string; [|run_go; reflexivity].
  rewrite (run_lifted (world w) fuel _ (fun response => response)).
  apply f_equal.
  rewrite run_bindJ.
  destruct (run (world w) fuel _ 0) as [r s cs f|]; [|reflexivity].
  cbn [seq_outcome]. destruct r; rewrite ?run_retJ, ?after_all_Done,
    ?app_nil_r; reflexivity.
Qed.

(** When the engine's two parses agree, the relay of this section and
    [Relay.onRequestPost] run alike, call for call, and return the same
    response. *)
Lemma untyped_agrees (ctx : Context) fuel :
  run (world w) fuel (Untyped.onRequestPost ctx) 0
  = map_outcome inr (run (world w) fuel (onRequestPost ctx) 0).
Proof.
  unfold Untyped.onRequestPost, onRequestPost.
  destruct (negb (truthy_opt (API_KEY (env ctx)))).
  - rewrite !run_ret. reflexivity.
  - rewrite !run_try_catch, dispatch_agrees.
    destruct (run (world w) fuel (dispatch _) 0) as [r s cs f|];
      [|reflexivity].
    cbn [map_outcome seq_outcome]. rewrite map_outcome_after_all.
    apply f_equal. destruct r as [e|response]; cbn [lifted];
      [|reflexivity].
    rewrite !run_bind.
    destruct f as [|f]; rewrite ?run_trigger, ?run_trigger_0;
      cbn [seq_outcome]; [reflexivity|].
    rewrite !run_ret. rewrite ?after_all_Done. reflexivity.
Qed.

End Agreement.

End UntypedFacts.

(* ===================================================================== *)
(** * The master prompts of a response *)
(* ===================================================================== *)

Module MasterPromptFacts.
Import Js Types Async Script RunFacts AsyncFacts Relay GenerateFacts
  ResponseFacts RejectionFacts.




End MasterPromptFacts.

(* ===================================================================== *)
(** * The guards of the dispatcher *)
(* ===================================================================== *)

Module DispatchFacts.
Import Js Types Async Script RunFacts AsyncFacts Relay ResponseFacts.

(** C5. Without a credential (the variable is not set, or is empty) the
    relay is the configuration-error response and nothing else: it makes no
    call at all, so it neither reads the body nor contacts the provider, and
    the response is the same whatever the environment would have answered.
    *)
Theorem missing_credential_is_configuration_error
    {platform : Platform} (ctx : Context) :
  truthy_opt ctx.(env).(API_KEY) = false ->
  onRequestPost ctx
    = Ret (jsonResponse
             (error_body "API_KEY is not configured on the server.") 500)
  /\ forall (S : Type) (answer : Environment S) fuel s,
       run answer fuel (onRequestPost ctx) s
       = Done (jsonResponse
                 (error_body "API_KEY is not configured on the server.") 500)
           s [] fuel.
Proof.
  intros Hkey.
  assert (H : onRequestPost ctx
              = Ret (jsonResponse
                       (error_body "API_KEY is not configured on the server.")
                       500)).
  { unfold onRequestPost. rewrite Hkey. reflexivity. }
  split; [exact H|]. intros S answer fuel s. rewrite H. apply run_ret.
Qed.

Lemma missing_credential_is_configuration_error_witness :
  @onRequestPost Examples.engine Examples.unconfigured
    = Ret (jsonResponse
             (error_body "API_KEY is not configured on the server.") 500)
  /\ forall (S : Type) (answer : Environment S) fuel s,
       run answer fuel (@onRequestPost Examples.engine Examples.unconfigured) s
       = Done (jsonResponse
                 (error_body "API_KEY is not configured on the server.") 500)
           s [] fuel.
Proof.
  apply (@missing_credential_is_configuration_error Examples.engine
           Examples.unconfigured).
  reflexivity.
Defined.

(** C6. With the credential in place, a body whose [type] is neither
    ['generate'] nor ['analyze'] is answered with status 400 and
    [{ error: 'Invalid request type' }]; the only call made is the read of
    the body, so the provider is not called. *)
Theorem unknown_type_is_invalid_request
    {platform : Platform} (w : World) (ctx : Context) (key : string)
    (body : ProxyRequestBody) fuel :
  ctx.(env).(API_KEY) = Some key ->
  truthy key = true ->
  w.(request_body) = inr body ->
  body.(type) <> "generate" ->
  body.(type) <> "analyze" ->
  run (world w) (S fuel) (onRequestPost ctx) 0
    = Done (jsonResponse (error_body "Invalid request type") 400) 0
        [made request_json] fuel
  /\ filter is_provider_call
       (calls_of (run (world w) (S fuel) (onRequestPost ctx) 0)) = [].
Proof.
  intros Hkey Htruthy Hbody Hgenerate Hanalyze.
  assert (H : run (world w) (S fuel) (onRequestPost ctx) 0
              = Done (jsonResponse (error_body "Invalid request type") 400) 0
                  [made request_json] fuel).
  { rewrite (onRequestPost_tries key ctx Hkey Htruthy). unfold dispatch.
    run_go. rewrite Hbody. run_simpl.
    destruct (String.eqb_spec body.(type) "generate") as [E|_];
      [contradiction|].
    destruct (String.eqb_spec body.(type) "analyze") as [E|_];
      [contradiction|].
    run_go. reflexivity. }
  split; [exact H|]. rewrite H. reflexivity.
Qed.

Lemma unknown_type_is_invalid_request_witness :
  let w := Examples.studio
             (inr {| type := "delete";
                     payload := AnalyzePayload "Describe a kite." |})
             Examples.bilingual 0 Examples.finished_operation in
  run (world w) 1 (@onRequestPost Examples.engine Examples.configured) 0
    = Done (jsonResponse (error_body "Invalid request type") 400) 0
        [made request_json] 0
  /\ filter is_provider_call
       (calls_of
          (run (world w) 1 (@onRequestPost Examples.engine Examples.configured)
             0)) = [].
Proof.
  intros w.
  apply (@unknown_type_is_invalid_request Examples.engine w
           Examples.configured "k-123"
           {| type := "delete"; payload := AnalyzePayload "Describe a kite." |}
           0); try reflexivity; discriminate.
Defined.

End DispatchFacts.

(* ===================================================================== *)
(** * Failures *)
(* ===================================================================== *)

Module FailureFacts.
Import Js Types Async Script RunFacts AsyncFacts PollFacts Relay GenerateFacts
  ResponseFacts RejectionFacts UntypedFacts.

(** C7, refuted as it stands.  The provider answers the structured request
    of a text generation with [{"prompts":[{"language":"English"}]}]: the
    entry lacks the [prompt] that the declared schema requires.  The relay
    does not fail: it asks for the preview with the text "undefined" and
    answers with status 200, the entry returned as it was parsed. *)
Theorem result_off_the_schema_is_answered_200 :
  let d := Examples.request "Email" None in
  let w := Samples.reciting Samples.promptless_text
             (inr {| type := "generate"; payload := GeneratePayload d |}) in
  let preview_request :=
    {| gc_model := "gemini-2.5-flash";
       gc_contents :=
         ContentsParts
           [TextPart
              ("undefined" ++ nl ++ nl
               ++ "--- IMPORTANT: Please provide your entire response in Vietnamese. ---")];
       gc_config := SamplingConfig (7 # 10)%Q (95 # 100)%Q |}%string in
  w.(on_generateContent) (@prompts_request d)
    = inr {| text := Some Samples.promptless_text |}
  /\ @JSON_parse Samples.lenient (@trim Samples.lenient Samples.promptless_text)
     = inr (JObj [("prompts", JArr [JObj [("language", JStr "English")]])])%string
  /\ run (world w) 3
       (@Untyped.onRequestPost Samples.lenient Samples.runtime
          Examples.configured) 0
     = Done
         (inr {| status := 200;
                 headers := [("Content-Type", "application/json")];
                 body :=
                   JObj [("masterPrompts",
                          JArr [JObj [("language", JStr "English")]]);
                         ("preview",
                          JObj [("type", JStr "text");
                                ("content", JStr "Lễ hội diều")])] |}%string)
         0
         [made request_json;
          made (generateContent (@prompts_request d));
          made (generateContent preview_request)]
         0.
Proof. cbv zeta. repeat split; vm_compute; reflexivity. Qed.

(** C7, amended.  Whatever is thrown inside the [try] block of the relay,
    in the read of the body or in a handler, is answered by its [catch]:
    status 500 and a body [{ error: message }] whose message is that of the
    error thrown, or "An unknown error occurred." for what is no error,
    after one [console.error] and no other call, so nothing is tried again.
    In the generation handler that is the answer to a structured completion
    that the provider refuses, that has no text, that is not JSON, or whose
    result holds no prompts ([prompts] absent, [null] or an empty array);
    to a result that cannot be read (a result that is [null], a first entry
    that is [null], or whose [language] is absent or is no string); and to
    a video operation that is done but names no asset, with the message
    "Could not generate video.".  It is also the answer to an analysis
    whose completion is not JSON and to a status check that throws.  The
    relay does not compare the result with the schema it declared: a result
    that can be read is no failure, and a first entry in English without a
    [prompt], on a text request without a file, is answered with status
    200. *)
Theorem handler_failures_are_caught
    {platform : Platform} {runtime : Runtime} (w : World) (ctx : Context)
    (key : string) :
  ctx.(env).(API_KEY) = Some key ->
  truthy key = true ->
  let failure := fun error : thrown =>
    {| status := 500;
       headers := [("Content-Type", "application/json")];
       body :=
         JObj [("error",
                JStr match error with
                     | JsError message => message
                     | NonError => "An unknown error occurred."
                     end)] |}%string in
  (forall fuel error s calls left,
     run (world w) fuel (dispatch key) 0 = Done (inl error) s calls (S left) ->
     run (world w) fuel (onRequestPost ctx) 0
     = Done (failure error) s
         (calls ++ [made (console_error "Error in proxy function:" error)])
         left)
  /\ (forall fuel error s calls left,
        run (world w) fuel (Untyped.dispatch key) 0
          = Done (inl error) s calls (S left) ->
        run (world w) fuel (Untyped.onRequestPost ctx) 0
        = Done (inr (failure error)) s
            (calls ++ [made (console_error "Error in proxy function:" error)])
            left)
  /\ (forall d error fuel,
        w.(request_body)
          = inr {| type := "generate"; payload := GeneratePayload d |} ->
        w.(on_generateContent) (prompts_request d) = inl error ->
        run (world w) (3 + fuel) (onRequestPost ctx) 0
        = Done (failure error) 0
            [made request_json;
             made (generateContent (prompts_request d));
             made (console_error "Error in proxy function:" error)]
            fuel)
  /\ (forall d fuel,
        w.(request_body)
          = inr {| type := "generate"; payload := GeneratePayload d |} ->
        w.(on_generateContent) (prompts_request d) = inr {| text := None |} ->
        run (world w) (3 + fuel) (onRequestPost ctx) 0
        = Done (failure (JsError (type_error_message "text.trim"))) 0
            [made request_json;
             made (generateContent (prompts_request d));
             made (console_error "Error in proxy function:"
                     (JsError (type_error_message "text.trim")))]
            fuel)
  /\ (forall d completion message fuel,
        w.(request_body)
          = inr {| type := "generate"; payload := GeneratePayload d |} ->
        w.(on_generateContent) (prompts_request d)
          = inr {| text := Some completion |} ->
        JSON_parse_prompts (trim completion) = inl message ->
        run (world w) (3 + fuel) (onRequestPost ctx) 0
        = Done (failure (JsError message)) 0
            [made request_json;
             made (generateContent (prompts_request d));
             made (console_error "Error in proxy function:" (JsError message))]
            fuel)
  /\ (forall d completion masterPrompts fuel,
        w.(request_body)
          = inr {| type := "generate"; payload := GeneratePayload d |} ->
        w.(on_generateContent) (prompts_request d)
          = inr {| text := Some completion |} ->
        JSON_parse_prompts (trim completion)
          = inr {| prompts := masterPrompts |} ->
        masterPrompts = None \/ masterPrompts = Some [] ->
        run (world w) (3 + fuel) (onRequestPost ctx) 0
        = Done (failure (JsError "AI did not return any prompts.")) 0
            [made request_json;
             made (generateContent (prompts_request d));
             made (console_error "Error in proxy function:"
                     (JsError "AI did not return any prompts."))]
            fuel)
  /\ (forall d completion result error fuel,
        w.(request_body)
          = inr {| type := "generate"; payload := GeneratePayload d |} ->
        w.(on_generateContent) (prompts_request d)
          = inr {| text := Some completion |} ->
        JSON_parse (trim completion) = inr result ->
        match result with
        | JNull => error = JsError (null_error_message "result.prompts")
        | JObj fields =>
            match assoc "prompts" fields with
            | None | Some JNull | Some (JArr []) =>
                error = JsError "AI did not return any prompts."
            | Some (JArr (JNull :: _)) =>
                error = JsError (null_error_message "p.language")
            | Some (JArr (JObj entry :: _)) =>
                match assoc "language" entry with
                | None =>
                    error
                    = JsError (type_error_message "p.language.toLowerCase")
                | Some JNull =>
                    error
                    = JsError (null_error_message "p.language.toLowerCase")
                | Some (JStr _) => False
                | Some _ =>
                    error
                    = JsError
                        (not_a_function_message "p.language.toLowerCase")
                end
            | Some _ => False
            end
        | _ => error = JsError "AI did not return any prompts."
        end ->
        run (world w) (3 + fuel) (Untyped.onRequestPost ctx) 0
        = Done (inr (failure error)) 0
            [made request_json;
             made (generateContent (prompts_request d));
             made (console_error "Error in proxy function:" error)]
            fuel)
  /\ (forall d completion masterPrompts basePrompt
             (op : nat -> GenerateVideosOperation) N fuel,
        w.(request_body)
          = inr {| type := "generate"; payload := GeneratePayload d |} ->
        includes VIDEO_OUTPUT_TYPES d.(outputType) = true ->
        w.(on_generateContent) (prompts_request d)
          = inr {| text := Some completion |} ->
        JSON_parse_prompts (trim completion)
          = inr {| prompts := Some masterPrompts |} ->
        basePromptForPreview masterPrompts = Some basePrompt ->
        (forall i, i <= N ->
           job_report w (videoGenParams basePrompt d) i = inr (op i)) ->
        (forall i, i < N -> (op i).(done) <> Some true) ->
        (op N).(done) = Some true ->
        match (op N).(response) with
        | Some {| generatedVideos :=
                    Some ({| video := Some {| uri := Some link |} |} :: _) |} =>
            link = ""%string
        | _ => True
        end ->
        run (world w) (3 + (3 * N + (1 + fuel))) (onRequestPost ctx) 0
        = Done (failure (JsError "Could not generate video.")) N
            ([made request_json;
              made (generateContent (prompts_request d));
              made (generateVideos (videoGenParams basePrompt d))]
             ++ polling_rounds 5000 op N
             ++ [made (console_error "Error in proxy function:"
                         (JsError "Could not generate video."))])
            fuel)
  /\ (forall promptToAnalyze completion message fuel,
        w.(request_body)
          = inr {| type := "analyze";
                   payload := AnalyzePayload promptToAnalyze |} ->
        w.(on_generateContent) (analysis_request (Some promptToAnalyze))
          = inr {| text := Some completion |} ->
        JSON_parse (trim completion) = inl message ->
        run (world w) (3 + fuel) (onRequestPost ctx) 0
        = Done (failure (JsError message)) 0
            [made request_json;
             made (generateContent (analysis_request (Some promptToAnalyze)));
             made (console_error "Error in proxy function:" (JsError message))]
            fuel)
  /\ (forall d completion masterPrompts basePrompt
             (op : nat -> GenerateVideosOperation) N error fuel,
        w.(request_body)
          = inr {| type := "generate"; payload := GeneratePayload d |} ->
        includes VIDEO_OUTPUT_TYPES d.(outputType) = true ->
        w.(on_generateContent) (prompts_request d)
          = inr {| text := Some completion |} ->
        JSON_parse_prompts (trim completion)
          = inr {| prompts := Some masterPrompts |} ->
        basePromptForPreview masterPrompts = Some basePrompt ->
        (forall i, i <= N ->
           job_report w (videoGenParams basePrompt d) i = inr (op i)) ->
        (forall i, i <= N -> (op i).(done) <> Some true) ->
        w.(status_report) N = inl error ->
        run (world w) (3 + (3 * N + (3 + fuel))) (onRequestPost ctx) 0
        = Done (failure error) (S N)
            ([made request_json;
              made (generateContent (prompts_request d));
              made (generateVideos (videoGenParams basePrompt d))]
             ++ polling_rounds 5000 op (S N)
             ++ [made (console_error "Error in proxy function:" error)])
            fuel)
  /\ (forall d completion fields first rest language preview_text fuel,
        w.(request_body)
          = inr {| type := "generate"; payload := GeneratePayload d |} ->
        includes IMAGE_OUTPUT_TYPES d.(outputType) = false ->
        includes VIDEO_OUTPUT_TYPES d.(outputType) = false ->
        d.(file) = None ->
        w.(on_generateContent) (prompts_request d)
          = inr {| text := Some completion |} ->
        JSON_parse (trim completion) = inr (JObj fields) ->
        assoc "prompts" fields = Some (JArr (JObj first :: rest)) ->
        assoc "language" first = Some (JStr language) ->
        toLowerCase language = "english"%string ->
        assoc "prompt" first = None ->
        let preview_request :=
          {| gc_model := "gemini-2.5-flash";
             gc_contents :=
               ContentsParts
                 [TextPart
                    ("undefined" ++ nl ++ nl
                     ++ "--- IMPORTANT: Please provide your entire response in "
                     ++ d.(previewLanguage) ++ ". ---")];
             gc_config := SamplingConfig d.(temperature) d.(topP) |}%string in
        w.(on_generateContent) preview_request
          = inr {| text := Some preview_text |} ->
        run (world w) (3 + fuel) (Untyped.onRequestPost ctx) 0
        = Done
            (inr {| status := 200;
                    headers := [("Content-Type", "application/json")];
                    body :=
                      JObj [("masterPrompts", JArr (JObj first :: rest));
                            ("preview",
                             JObj [("type", JStr "text");
                                   ("content", JStr preview_text)])]
                 |}%string)
            0
            [made request_json;
             made (generateContent (prompts_request d));
             made (generateContent preview_request)]
            fuel).
Proof.
  intros Hkey Htruthy failure.
  split; [|split; [|split; [|split; [|split; [|split; [|split; [|split;
    [|split; [|split]]]]]]]]].
  - intros fuel error s calls left Hrun.
    apply (failure_caught w key ctx Hkey Htruthy fuel error s calls left Hrun).
  - intros fuel error s calls left Hrun.
    apply (untyped_failure_caught w ctx key Hkey Htruthy fuel error s calls
             left Hrun).
  - intros d error fuel Hbody Hrefused.
    apply (completion_rejected w ctx key d Hkey Htruthy Hbody error fuel).
    rewrite Hrefused. reflexivity.
  - intros d fuel Hbody Hnotext.
    apply (completion_rejected w ctx key d Hkey Htruthy Hbody
             (TypeError "text.trim") fuel).
    rewrite Hnotext. reflexivity.
  - intros d completion message fuel Hbody Hcompletion Hparse.
    apply (completion_rejected w ctx key d Hkey Htruthy Hbody
             (JsError message) fuel).
    rewrite Hcompletion, Hparse. reflexivity.
  - intros d completion masterPrompts fuel Hbody Hcompletion Hparse Hnone.
    apply (completion_rejected w ctx key d Hkey Htruthy Hbody
             (JsError "AI did not return any prompts.") fuel).
    rewrite Hcompletion, Hparse. destruct Hnone as [-> | ->]; reflexivity.
  - intros d completion result error fuel Hbody Hcompletion Hparse Hshape.
    apply (untyped_result_rejected w ctx key Hkey Htruthy d Hbody completion
             result error fuel Hcompletion Hparse).
    unfold Untyped.masterPrompts_of.
    destruct result as [|b|n|t|items|fields|x]; cbn [get];
      try exact Hshape.
    destruct (assoc "prompts" fields) as [[|b|n|t|[|p ps]|entries|x]|];
      try contradiction; cbn [Client.truthy_json negb];
      try exact Hshape.
    unfold Untyped.basePromptForPreview. cbn [Untyped.find_english].
    destruct p as [|b|n|t|items|entry|x]; try contradiction;
      [subst error; reflexivity|].
    cbn [get].
    destruct (assoc "language" entry) as [[|b|n|t|items|inner|x]|];
      try contradiction; subst error; reflexivity.
  - intros d completion masterPrompts basePrompt op N fuel Hbody Hvideo
      Hcompletion Hparse Hbase Hreports Hpending Hdone Hresponse.
    apply (video_without_asset w ctx key d Hkey Htruthy Hbody completion
             masterPrompts basePrompt op Hvideo Hcompletion Hparse Hbase
             N fuel Hreports Hpending Hdone Hresponse).
  - intros promptToAnalyze completion message fuel Hbody Hcompletion Hparse.
    apply (analysis_rejected w ctx key (AnalyzePayload promptToAnalyze)
             (JsError message) fuel Hkey Htruthy Hbody).
    cbv zeta. rewrite Hcompletion, Hparse. reflexivity.
  - intros d completion masterPrompts basePrompt op N error fuel Hbody Hvideo
      Hcompletion Hparse Hbase Hreports Hpending Hthrown.
    apply (video_check_thrown w ctx key d Hkey Htruthy Hbody completion
             masterPrompts basePrompt op Hvideo Hcompletion Hparse Hbase
             N error fuel Hreports).
    + intros i Hi. apply not_done_iff, Hpending, Hi.
    + exact Hthrown.
  - intros d completion fields first rest language preview_text fuel Hbody
      Himage Hvideo Hfile Hcompletion Hparse Hprompts Hlanguage Henglish
      Hprompt preview_request Hpreview.
    apply (untyped_text_delivered w ctx key Hkey Htruthy d Hbody completion
             fields first rest language preview_text fuel Himage Hvideo Hfile
             Hcompletion Hparse Hprompts Hlanguage Henglish Hprompt Hpreview).
Qed.

(** C7 amended, on samples: a completion with an empty array; a job that is
    done after two pending reports but holds no video; and a completion
    that is the empty object. *)
Lemma handler_failures_are_caught_witness :
  run (world (Examples.studio
                (inr (generate_body (Examples.request "Video" None)))
                [] 0 Examples.finished_operation))
    (3 + 0) (@onRequestPost Examples.engine Examples.configured) 0
  = Done
      {| status := 500;
         headers := [("Content-Type", "application/json")];
         body := JObj [("error", JStr "AI did not return any prompts.")]
      |}%string
      0
      [made request_json;
       made (generateContent
               (@prompts_request (Examples.request "Video" None)));
       made (console_error "Error in proxy function:"
               (JsError "AI did not return any prompts."))]
      0
  /\
  run (world (Examples.studio
                (inr (generate_body (Examples.request "Video" None)))
                Examples.bilingual 1 Examples.empty_operation))
    (3 + (3 * 2 + (1 + 0))) (@onRequestPost Examples.engine Examples.configured)
    0
  = Done
      {| status := 500;
         headers := [("Content-Type", "application/json")];
         body := JObj [("error", JStr "Could not generate video.")]
      |}%string
      2
      ([made request_json;
        made (generateContent
                (@prompts_request (Examples.request "Video" None)));
        made (generateVideos
                (videoGenParams "Draw a red kite over the dunes at dawn."
                   (Examples.request "Video" None)))]
       ++ polling_rounds 5000
            (fun i => if i <? 2 then Examples.pending_operation
                      else Examples.empty_operation) 2
       ++ [made (console_error "Error in proxy function:"
                   (JsError "Could not generate video."))])
      0
  /\
  run (world (Samples.reciting "{}"
                (inr (generate_body (Examples.request "Email" None)))))
    (3 + 0)
    (@Untyped.onRequestPost Samples.lenient Samples.runtime
       Examples.configured) 0
  = Done
      (inr {| status := 500;
              headers := [("Content-Type", "application/json")];
              body := JObj [("error", JStr "AI did not return any prompts.")]
           |}%string)
      0
      [made request_json;
       made (generateContent
               (@prompts_request (Examples.request "Email" None)));
       made (console_error "Error in proxy function:"
               (JsError "AI did not return any prompts."))]
      0.
Proof.
  split; [|split].
  - apply (proj1 (proj2 (proj2 (proj2 (proj2 (proj2
      (@handler_failures_are_caught Examples.engine Samples.runtime _
         Examples.configured "k-123" eq_refl eq_refl))))))
      (Examples.request "Video" None) (Examples.prompts_text []) (Some []) 0);
      try reflexivity.
    right. reflexivity.
  - apply (proj1 (proj2 (proj2 (proj2 (proj2 (proj2 (proj2 (proj2
      (@handler_failures_are_caught Examples.engine Samples.runtime _
         Examples.configured "k-123" eq_refl eq_refl))))))))
      (Examples.request "Video" None)
      (Examples.prompts_text Examples.bilingual) Examples.bilingual
      "Draw a red kite over the dunes at dawn."
      (fun i => if i <? 2 then Examples.pending_operation
                else Examples.empty_operation) 2 0);
      try reflexivity; try exact I.
    + intros [|[|[|i]]] Hi; reflexivity || lia.
    + intros [|[|i]] Hi; discriminate || lia.
  - apply (proj1 (proj2 (proj2 (proj2 (proj2 (proj2 (proj2
      (@handler_failures_are_caught Samples.lenient Samples.runtime _
         Examples.configured "k-123" eq_refl eq_refl)))))))
      (Examples.request "Email" None) "{}"%string (JObj [])
      (JsError "AI did not return any prompts.") 0);
      reflexivity.
Defined.

End FailureFacts.

(* ===================================================================== *)
(** * The inline file of a text request *)
(* ===================================================================== *)

Module FileFacts.
Import Js Types Async Script RunFacts AsyncFacts Relay GenerateFacts
  ResponseFacts.

Lemma text_pathway_tests x :
  pathway_of x = TextPathway ->
  includes IMAGE_OUTPUT_TYPES x = false /\ includes VIDEO_OUTPUT_TYPES x = false.
Proof.
  unfold pathway_of.
  destruct (includes IMAGE_OUTPUT_TYPES x); [discriminate|].
  destruct (includes VIDEO_OUTPUT_TYPES x); [discriminate|]. auto.
Qed.

Ltac world_simpl :=
  cbn [world with_body request_body on_generateContent on_generateImages
       submission status_report on_fetch].

Section Hollow.
Context {platform : Platform}.
Variables (w : World) (ctx : Context) (key : string)
          (d : PromptGenerationRequest) (f : InlineFile).
Hypothesis Hkey : ctx.(env).(API_KEY) = Some key.
Hypothesis Htruthy : truthy key = true.
Hypothesis Hfile : d.(file) = Some f.
Hypothesis Hhollow :
  truthy_opt (nth_error (split ","%char f.(data)) 1) = false.
Hypothesis Htext : pathway_of d.(outputType) = TextPathway.

(** The preview request holds the text part alone. *)
Lemma hollow_file_parts basePrompt :
  previewPromptParts basePrompt d.(file) = [TextPart basePrompt].
Proof.
  rewrite Hfile. unfold previewPromptParts. rewrite Hhollow. reflexivity.
Qed.

(** The handler runs alike on the request and on the request without its
    file, whatever the body the world holds. *)
Lemma hollow_file_handled (w1 w2 : World) fuel :
  w1.(on_generateContent) = w2.(on_generateContent) ->
  run (world w1) fuel
    (handleGenerate {| apiKey := key |} (GeneratePayload d) key) 0
  = run (world w2) fuel
      (handleGenerate {| apiKey := key |} (GeneratePayload (without_file d))
         key) 0.
Proof.
  intros Hsame. destruct (text_pathway_tests _ Htext) as [Himage Hvideo].
  unfold handleGenerate, request_masterPrompts.
  change (prompts_request (without_file d)) with (prompts_request d).
  run_go. need_fuel; run_go; [reflexivity|]. rewrite Hsame.
  destruct (on_generateContent w2 (prompts_request d))
    as [e|[[completion|]]]; run_go; cbn [text]; run_go; try reflexivity.
  destruct (JSON_parse_prompts (trim completion))
    as [message|[[[|p0 ps]|]]]; cbn [prompts]; run_go; try reflexivity.
  destruct (basePromptForPreview (p0 :: ps)) as [basePrompt|];
    run_go; try reflexivity.
  cbn [without_file outputType file]. rewrite Himage, Hvideo.
  rewrite hollow_file_parts. unfold text_preview.
  change (text_request (previewPromptParts basePrompt None) (without_file d))
    with (text_request [TextPart basePrompt] d).
  run_go. need_fuel; run_go; [reflexivity|]. rewrite Hsame.
  destruct (on_generateContent w2 _); run_go; reflexivity.
Qed.

End Hollow.

(** C10. A text request carries a file whose data, split at the commas, has
    no second component or an empty one.  Then the preview request holds the
    text part alone, the relay runs call for call and answer for answer as
    on the same request without the file, and when the provider answers the
    two completions the response is the successful one: the file's data
    raises no error. *)
Theorem hollow_file_is_left_out
    {platform : Platform} (w : World) (ctx : Context) (key : string)
    (d : PromptGenerationRequest) (f : InlineFile) :
  ctx.(env).(API_KEY) = Some key ->
  truthy key = true ->
  d.(file) = Some f ->
  truthy_opt (nth_error (split ","%char f.(data)) 1) = false ->
  pathway_of d.(outputType) = TextPathway ->
  (forall basePrompt,
     previewPromptParts basePrompt d.(file) = [TextPart basePrompt])
  /\ (forall fuel,
        run (world (with_body w (inr (generate_body d)))) fuel
          (onRequestPost ctx) 0
        = run (world (with_body w (inr (generate_body (without_file d)))))
            fuel (onRequestPost ctx) 0)
  /\ (forall completion masterPrompts basePrompt answer fuel,
        w.(on_generateContent) (prompts_request d)
          = inr {| text := Some completion |} ->
        JSON_parse_prompts (trim completion)
          = inr {| prompts := Some masterPrompts |} ->
        basePromptForPreview masterPrompts = Some basePrompt ->
        w.(on_generateContent) (text_request [TextPart basePrompt] d)
          = inr answer ->
        run (world (with_body w (inr (generate_body d)))) (3 + fuel)
          (onRequestPost ctx) 0
        = Done (jsonResponse
                  (generation_json masterPrompts
                     {| preview_type := Some PreviewText;
                        preview_content := answer.(text) |})
                  200)
            0
            [made request_json;
             made (generateContent (prompts_request d));
             made (generateContent (text_request [TextPart basePrompt] d))]
            fuel).
Proof.
  intros Hkey Htruthy Hfile Hhollow Htext. split; [|split].
  - intros basePrompt. apply (hollow_file_parts d f Hfile Hhollow).
  - intros [|fuel].
    + rewrite (onRequestPost_tries key ctx Hkey Htruthy). unfold dispatch.
      run_go. reflexivity.
    + rewrite (generate_dispatched (with_body w (inr (generate_body d)))
                 ctx key d Hkey Htruthy eq_refl).
      rewrite (generate_dispatched
                 (with_body w (inr (generate_body (without_file d))))
                 ctx key (without_file d) Hkey Htruthy eq_refl).
      rewrite (hollow_file_handled key d f Hfile Hhollow Htext
                 (with_body w (inr (generate_body d)))
                 (with_body w (inr (generate_body (without_file d))))
                 fuel eq_refl).
      reflexivity.
  - intros completion masterPrompts basePrompt answer fuel Hcompletion Hparse
      Hbase Hanswer.
    destruct (text_pathway_tests _ Htext) as [Himage Hvideo].
    change (3 + fuel) with (S (S (S fuel))).
    rewrite (generate_dispatched (with_body w (inr (generate_body d)))
               ctx key d Hkey Htruthy eq_refl).
    unfold handleGenerate, request_masterPrompts. run_go. world_simpl.
    rewrite Hcompletion. run_simpl. cbn [text]. rewrite Hparse. cbn [prompts].
    destruct masterPrompts as [|p0 ps]; [discriminate Hbase|].
    run_go. rewrite Hbase, Himage, Hvideo.
    rewrite (hollow_file_parts d f Hfile Hhollow). unfold text_preview.
    run_go. world_simpl. rewrite Hanswer. run_go. reflexivity.
Qed.

Lemma hollow_file_is_left_out_witness :
  let d := Examples.request "Email" (Some Examples.hollow_file) in
  let w := Examples.studio (inl NonError) Examples.bilingual 0
             Examples.finished_operation in
  (forall basePrompt,
     previewPromptParts basePrompt d.(file) = [TextPart basePrompt])
  /\ (forall fuel,
        run (world (with_body w (inr (generate_body d)))) fuel
          (@onRequestPost Examples.engine Examples.configured) 0
        = run (world (with_body w (inr (generate_body (without_file d)))))
            fuel (@onRequestPost Examples.engine Examples.configured) 0)
  /\ run (world (with_body w (inr (generate_body d)))) (3 + 0)
       (@onRequestPost Examples.engine Examples.configured) 0
     = Done (jsonResponse
               (generation_json Examples.bilingual
                  {| preview_type := Some PreviewText;
                     preview_content := Some "Lễ hội diều" |})
               200)
         0
         [made request_json;
          made (generateContent (@prompts_request d));
          made (generateContent
                  (text_request
                     [TextPart "Draw a red kite over the dunes at dawn."] d))]
         0.
Proof.
  intros d w.
  destruct (@hollow_file_is_left_out Examples.engine w Examples.configured
              "k-123" d Examples.hollow_file eq_refl eq_refl eq_refl eq_refl
              eq_refl) as [Hparts [Hsame Hsucceeds]].
  split; [exact Hparts|]. split; [exact Hsame|].
  apply (Hsucceeds (Examples.prompts_text Examples.bilingual)
           Examples.bilingual "Draw a red kite over the dunes at dawn."
           {| text := Some "Lễ hội diều" |} 0); reflexivity.
Defined.

End FileFacts.

(* ===================================================================== *)
(** * The base prompt of the preview *)
(* ===================================================================== *)

Module BasePromptFacts.
Import Js Types Script Relay.

Lemma english_entry_found (before after : list MasterPrompt) (e : MasterPrompt) :
  (forall p, In p before -> toLowerCase p.(language) <> "english") ->
  toLowerCase e.(language) = "english" ->
  english_entry (before ++ e :: after) = Some e.
Proof.
  intros Hbefore He. unfold english_entry.
  induction before as [|p before IH]; cbn [app find].
  - rewrite He. reflexivity.
  - destruct (String.eqb_spec (toLowerCase p.(language)) "english") as [E|_].
    + exfalso. apply (Hbefore p); [left; reflexivity|exact E].
    + apply IH. intros p' Hp'. apply Hbefore. right. exact Hp'.
Qed.

(** C4, as the specification states it, fails: the English entry of the
    sample is the second one and its prompt is the empty string; the base
    prompt is not that prompt but the prompt of the first entry. *)
Lemma english_entry_with_empty_prompt_is_passed_over :
  Examples.french_first <> []
  /\ english_entry Examples.french_first
     = Some {| language := "English"; prompt := "" |}
  /\ basePromptForPreview Examples.french_first
     = Some "Dessine un cerf-volant rouge."
  /\ basePromptForPreview Examples.french_first
     <> option_map prompt (english_entry Examples.french_first).
Proof. repeat split; try reflexivity; discriminate. Qed.

(** C4, amended.  The base prompt is the prompt of the first entry whose
    language is English, whatever the case of its letters and wherever it
    stands, when there is one and its prompt is not the empty string; it is
    the prompt of the first entry of the sequence when no entry is English
    or when the English entry's prompt is empty. *)
Theorem base_prompt_prefers_english (masterPrompts : list MasterPrompt) :
  (forall e,
     english_entry masterPrompts = Some e ->
     truthy e.(prompt) = true ->
     basePromptForPreview masterPrompts = Some e.(prompt))
  /\ (forall before e after,
        masterPrompts = before ++ e :: after ->
        (forall p, In p before -> toLowerCase p.(language) <> "english") ->
        toLowerCase e.(language) = "english" ->
        truthy e.(prompt) = true ->
        basePromptForPreview masterPrompts = Some e.(prompt))
  /\ (forall first rest,
        masterPrompts = first :: rest ->
        english_entry masterPrompts = None ->
        basePromptForPreview masterPrompts = Some first.(prompt))
  /\ (forall first rest e,
        masterPrompts = first :: rest ->
        english_entry masterPrompts = Some e ->
        truthy e.(prompt) = false ->
        basePromptForPreview masterPrompts = Some first.(prompt)).
Proof.
  assert (found : forall e,
     english_entry masterPrompts = Some e ->
     truthy e.(prompt) = true ->
     basePromptForPreview masterPrompts = Some e.(prompt)).
  { intros e He Hprompt. unfold basePromptForPreview.
    fold (english_entry masterPrompts). rewrite He. cbn [option_map truthy_opt].
    rewrite Hprompt. reflexivity. }
  split; [exact found|]. split; [|split].
  - intros before e after -> Hbefore He Hprompt.
    apply found; [|exact Hprompt]. apply english_entry_found; assumption.
  - intros first rest -> Hnone. unfold basePromptForPreview.
    fold (english_entry (first :: rest)). rewrite Hnone. reflexivity.
  - intros first rest e -> He Hprompt. unfold basePromptForPreview.
    fold (english_entry (first :: rest)). rewrite He.
    cbn [option_map truthy_opt]. rewrite Hprompt. reflexivity.
Qed.

Lemma base_prompt_prefers_english_witness :
  basePromptForPreview Examples.english_second = Some "Draw a red kite."
  /\ basePromptForPreview Examples.french_first
     = Some "Dessine un cerf-volant rouge.".
Proof.
  split.
  - apply (proj1 (proj2 (base_prompt_prefers_english Examples.english_second))
             [{| language := "French";
                 prompt := "Dessine un cerf-volant rouge." |}]
             {| language := "ENGLISH"; prompt := "Draw a red kite." |} []);
      try reflexivity.
    intros p [<-|[]]. discriminate.
  - apply (proj2 (proj2 (proj2
             (base_prompt_prefers_english Examples.french_first)))
             {| language := "French";
                prompt := "Dessine un cerf-volant rouge." |}
             [{| language := "English"; prompt := "" |}]
             {| language := "English"; prompt := "" |});
      reflexivity.
Defined.

End BasePromptFacts.

(* ===================================================================== *)
(** * Export and import of a project *)
(* ===================================================================== *)

Module ProjectFacts.
Import Js App.

(** An import reads every field as [project.field ?? default]. *)
Lemma import_reads (f : Field) (project : json) (s : Signals) :
  project <> JNull ->
  read f (onProjectImport (FileText (inr project)) s)
  = nullish (get (key f) project) (default f).
Proof.
  intros Hproject. destruct project; try contradiction; destruct f; reflexivity.
Qed.

Lemma nullish_value (v d : json) : v <> JNull -> nullish (Some v) d = v.
Proof. destruct v; try reflexivity. contradiction. Qed.

Lemma declared_not_null (f : Field) (v : json) :
  f <> f_uploadedFile -> declared f v = true -> v <> JNull.
Proof. intros Hf Hv ->. destruct f; try discriminate Hv. contradiction. Qed.

(** Two states with the same tab and the same fields are equal. *)
Lemma signals_eq (s t : Signals) :
  activeTab s = activeTab t ->
  (forall f, read f s = read f t) ->
  s = t.
Proof.
  intros Htab Hread. destruct s, t. cbn in Htab. subst.
  pose proof (Hread f_context) as H1. pose proof (Hread f_objective) as H2.
  pose proof (Hread f_role) as H3. pose proof (Hread f_expectations) as H4.
  pose proof (Hread f_systemInstruction) as H5.
  pose proof (Hread f_promptBody) as H6.
  pose proof (Hread f_mediaInstruction) as H7.
  pose proof (Hread f_aiPlatform) as H8. pose proof (Hread f_outputType) as H9.
  pose proof (Hread f_uploadedFile) as H10.
  pose proof (Hread f_previewLanguage) as H11.
  pose proof (Hread f_masterLanguages) as H12.
  pose proof (Hread f_temperature) as H13. pose proof (Hread f_topP) as H14.
  pose proof (Hread f_aspectRatio) as H15.
  pose proof (Hread f_generationState) as H16.
  cbn in *. subst. reflexivity.
Qed.

(** What an import makes of an export, field by field: the value read back
    from the file, or the default when that is [null]. *)
Lemma export_read_back (s before : Signals) (f : Field) :
  read f (onProjectImport (FileText (inr (exportProject s))) before)
  = match written (read f s) with
    | JNull => default f
    | v => v
    end.
Proof.
  rewrite import_reads by discriminate.
  destruct f; cbn; destruct (written _); reflexivity.
Qed.

(** C9. Importing the document that [exportProject] wrote sets every field
    to the value that is read back from the file, or to its default when
    that value is [null], and leaves the create tab active.  For a state
    whose fields have their declared types and hold no number that JSON
    cannot write, that is the value the field had: every field, the
    generation state with the last response included, is restored.  A
    temperature or a top-p that is [NaN] or infinite is written as [null]
    and comes back as the default, 0.7 or 0.95; the negative zero comes back
    as zero.  Importing a document in which a field is absent (or null) sets
    that field to its default, which is the value the signal is created
    with. *)
Theorem export_import_round_trip :
  (forall (s before : Signals) (f : Field),
     read f (onProjectImport (FileText (inr (exportProject s))) before)
     = match written (read f s) with
       | JNull => default f
       | v => v
       end)
  /\ (forall s before : Signals,
        well_typed s = true ->
        all_writable s = true ->
        onProjectImport (FileText (inr (exportProject s))) before
        = on_create_tab s)
  /\ (forall (s before : Signals) (x : special),
        (s.(temperature) = JSpecial x ->
         (onProjectImport (FileText (inr (exportProject s))) before)
           .(temperature)
         = match x with
           | NegativeZero => JNum (0 # 1)%Q
           | _ => JNum (7 # 10)%Q
           end)
        /\ (s.(topP) = JSpecial x ->
            (onProjectImport (FileText (inr (exportProject s))) before).(topP)
            = match x with
              | NegativeZero => JNum (0 # 1)%Q
              | _ => JNum (95 # 100)%Q
              end))
  /\ (forall (project : json) (before : Signals) (f : Field),
        project <> JNull ->
        get (key f) project = None \/ get (key f) project = Some JNull ->
        read f (onProjectImport (FileText (inr project)) before) = default f)
  /\ (forall f : Field, default f = read f initial).
Proof.
  split; [exact export_read_back|].
  split; [|split; [|split]].
  - intros s before Htyped Hwritable. apply signals_eq; [reflexivity|].
    intros f. rewrite export_read_back.
    unfold well_typed in Htyped. rewrite forallb_forall in Htyped.
    unfold all_writable in Hwritable. rewrite forallb_forall in Hwritable.
    assert (Hin : In f all_fields) by (destruct f; cbn; tauto).
    rewrite (ValueFacts.written_writable _ (Hwritable f Hin)).
    pose proof (Htyped f Hin) as Hf.
    destruct f; cbn in Hf |- *;
      match goal with
      | |- _ = ?v => destruct v
      end;
      try reflexivity; discriminate Hf.
  - intros s before x. split; intros Hx.
    + change (temperature (onProjectImport
                             (FileText (inr (exportProject s))) before))
        with (read f_temperature
                (onProjectImport (FileText (inr (exportProject s))) before)).
      rewrite export_read_back. cbn [read]. rewrite Hx.
      destruct x; reflexivity.
    + change (topP (onProjectImport
                      (FileText (inr (exportProject s))) before))
        with (read f_topP
                (onProjectImport (FileText (inr (exportProject s))) before)).
      rewrite export_read_back. cbn [read]. rewrite Hx.
      destruct x; reflexivity.
  - intros project before f Hproject Habsent. rewrite import_reads by assumption.
    destruct Habsent as [-> | ->]; reflexivity.
  - intros f. destruct f; reflexivity.
Qed.

(** C9, on samples: a session is restored, its generation state included;
    an older snapshot gives the temperature and the file their defaults. *)
Lemma export_import_round_trip_witness :
  onProjectImport (FileText (inr (exportProject Examples.session))) initial
  = on_create_tab Examples.session
  /\ read f_generationState
       (onProjectImport (FileText (inr (exportProject Examples.session)))
          initial)
     = Examples.session.(generationState)
  /\ read f_temperature
       (onProjectImport (FileText (inr Examples.older_snapshot))
          Examples.session)
     = JNum (7 # 10)%Q
  /\ read f_uploadedFile
       (onProjectImport (FileText (inr Examples.older_snapshot))
          Examples.session)
     = JNull.
Proof.
  destruct export_import_round_trip
    as [Hfield [Hstate [_ [Hdefault _]]]].
  split; [apply Hstate; reflexivity|].
  split; [rewrite (Hfield Examples.session initial f_generationState);
          reflexivity|].
  split.
  - apply (Hdefault Examples.older_snapshot Examples.session f_temperature);
      [discriminate|left; reflexivity].
  - apply (Hdefault Examples.older_snapshot Examples.session f_uploadedFile);
      [discriminate|right; reflexivity].
Defined.

(** C9, refuted as it stands.  A project file that holds the temperature
    [1e999] and the top-p [-0] is imported: the signals, of their declared
    type [number], hold the positive infinity and the negative zero.  The
    export of that state holds [null] and [0], so that importing it again
    gives the temperature 0.7 and the top-p 0: the round trip does not
    reproduce the two fields. *)
Theorem unwritable_number_is_not_restored :
  let s := onProjectImport (FileText (inr Examples.overflowing_snapshot))
             initial in
  let again := onProjectImport (FileText (inr (exportProject s))) initial in
  well_typed s = true
  /\ s.(temperature) = JSpecial PositiveInfinity
  /\ s.(topP) = JSpecial NegativeZero
  /\ get "temperature" (exportProject s) = Some JNull
  /\ get "topP" (exportProject s) = Some (JNum (0 # 1)%Q)
  /\ again.(temperature) = JNum (7 # 10)%Q
  /\ again.(topP) = JNum (0 # 1)%Q
  /\ again <> on_create_tab s.
Proof.
  cbv zeta. repeat split; try reflexivity.
  intros H. apply (f_equal temperature) in H. discriminate H.
Qed.

End ProjectFacts.

(* ===================================================================== *)
(** * The order and the number of the relay's calls *)
(* ===================================================================== *)

Module ProtocolFacts.
Import Js Types Async Script RunFacts AsyncFacts PollFacts Relay Protocol
  ResponseFacts.

Lemma follows_app interval calls : forall p more,
  follows interval p (calls ++ more) =
  match follows interval p calls with
  | Some q => follows interval q more
  | None => None
  end.
Proof.
  induction calls as [|c calls IH]; intros p more; [reflexivity|].
  cbn [app follows]. destruct (step interval p c); [apply IH|reflexivity].
Qed.

Lemma ends_in_app interval p calls more allowed q :
  follows interval p calls = Some q ->
  ends_in interval p (calls ++ more) allowed
  = ends_in interval q more allowed.
Proof. intros H. unfold ends_in. rewrite follows_app, H. reflexivity. Qed.

Lemma ends_in_more interval p calls allowed wider :
  incl allowed wider ->
  ends_in interval p calls allowed = true ->
  ends_in interval p calls wider = true.
Proof.
  unfold ends_in. intros Hincl. destruct (follows interval p calls) as [q|];
    [|discriminate].
  rewrite !existsb_exists. intros [x [Hx Hq]]. exists x. auto.
Qed.

Lemma one_round interval cur p :
  follows interval Submitted
    [made (setTimeout interval); made (getVideosOperation cur)] = Some p ->
  p = Submitted.
Proof.
  cbn. rewrite Z.eqb_refl. intros [= <-]. reflexivity.
Qed.

Section Conformance.
Context {platform : Platform}.
Variable w : World.

(** The polling loop: sleeps and status checks in alternation, and the
    loop is left after a status check or before any. *)
Lemma poll_follows interval fuel : forall cur k,
  match run (world w) fuel (poll_until_done interval cur) k with
  | Done _ _ calls _ => follows interval Submitted calls = Some Submitted
  | OutOfFuel _ calls =>
      ends_in interval Submitted calls [Submitted; Slept] = true
  end.
Proof.
  induction fuel as [fuel IH] using lt_wf_ind. intros cur k.
  unfold poll_until_done. rewrite run_iter. fold (poll_until_done interval).
  destruct (not_done cur) eqn:Hcur; [|run_go; reflexivity].
  destruct fuel as [|[|[|fuel]]].
  - run_go. reflexivity.
  - run_go. unfold ends_in. cbn. rewrite Z.eqb_refl. reflexivity.
  - run_go. destruct (status_report w k) as [e|next]; run_go.
    + cbn. rewrite Z.eqb_refl. reflexivity.
    + unfold ends_in. cbn. rewrite Z.eqb_refl. reflexivity.
  - run_go. destruct (status_report w k) as [e|next]; run_go.
    + cbn. rewrite Z.eqb_refl. reflexivity.
    + fold (poll_until_done interval next).
      specialize (IH fuel ltac:(lia) next (S k)).
      destruct (run (world w) fuel (poll_until_done interval next) (S k))
        as [r' s' calls' f'|s' calls']; run_simpl.
      * cbn. rewrite Z.eqb_refl. exact IH.
      * unfold ends_in in *. cbn. rewrite Z.eqb_refl. exact IH.
Qed.

(** The generation handler, whatever the provider answers and whatever
    the fuel. *)
Lemma generate_follows key data fuel :
  match run (world w) fuel (handleGenerate {| apiKey := key |} data key) 0 with
  | Done (inr response) _ calls _ =>
      response.(status) = 200%Z
      /\ ends_in 5000 BodyRead calls [PreviewAsked; Downloaded] = true
  | Done (inl _) _ calls _ => ends_in 5000 BodyRead calls failing = true
  | OutOfFuel _ calls => ends_in 5000 BodyRead calls any_phase = true
  end.
Proof.
  destruct data as [d|p]; [|unfold handleGenerate; run_go; reflexivity].
  unfold handleGenerate, request_masterPrompts.
  run_go; need_fuel; run_go; [reflexivity|].
  destruct (on_generateContent w (prompts_request d))
    as [e|[[completion|]]]; run_go; cbn [text]; run_go; try reflexivity.
  destruct (JSON_parse_prompts (trim completion)) as [message|[[[|p0 ps]|]]];
    cbn [prompts]; run_go; try reflexivity.
  destruct (basePromptForPreview (p0 :: ps)) as [basePrompt|];
    run_go; try reflexivity.
  destruct (includes IMAGE_OUTPUT_TYPES (outputType d));
    [|destruct (includes VIDEO_OUTPUT_TYPES (outputType d))].
  - unfold image_preview. run_go; need_fuel; run_go; [reflexivity|].
    destruct (on_generateImages w _) as [e|[[[|[[img|]] gs]|]]];
      cbn [generatedImages nth_error image]; run_go;
      first [reflexivity | split; reflexivity].
  - unfold video_preview. run_go; need_fuel; run_go; [reflexivity|].
    destruct (submission w _) as [e|op0]; run_go; [reflexivity|].
    pose proof (poll_follows 5000 fuel op0 0) as Hpoll.
    destruct (run (world w) fuel (poll_until_done 5000 op0) 0)
      as [r s cs f|s cs]; run_go.
    + assert (Hcs : forall more allowed,
                ends_in 5000 BodyRead
                  (made (generateContent (prompts_request d))
                   :: made (generateVideos (videoGenParams basePrompt d))
                   :: cs ++ more) allowed
                = ends_in 5000 Submitted more allowed).
      { intros more allowed. unfold ends_in. cbn [follows step projT2 made].
        rewrite follows_app, Hpoll. reflexivity. }
      destruct r as [e|operation]; run_go;
        [rewrite <- ?app_assoc; cbn [app]; rewrite <- (app_nil_r cs), Hcs;
         reflexivity|].
      destruct (truthy_opt (downloadLink_of operation)); run_go;
        [|rewrite <- ?app_assoc; cbn [app]; rewrite <- (app_nil_r cs), Hcs;
          reflexivity].
      destruct f as [|f]; run_go;
        [rewrite <- ?app_assoc; cbn [app]; rewrite <- (app_nil_r cs), Hcs;
         reflexivity|].
      destruct (on_fetch w _) as [e|blob]; run_go;
        rewrite <- ?app_assoc; cbn [app]; rewrite Hcs;
        first [reflexivity | split; reflexivity].
    + rewrite <- ?app_assoc. cbn [app].
      unfold ends_in in *. cbn [follows step projT2 made].
      destruct (follows 5000 Submitted cs) as [[]|]; try discriminate Hpoll;
        reflexivity.
  - unfold text_preview. run_go; need_fuel; run_go; [reflexivity|].
    destruct (on_generateContent w (text_request _ _)) as [e|r];
      run_go; first [reflexivity | split; reflexivity].
Qed.

(** The analysis handler makes one call. *)
Lemma analyze_follows key data fuel :
  match run (world w) fuel (handleAnalyze {| apiKey := key |} data) 0 with
  | Done (inr response) _ calls _ =>
      response.(status) = 200%Z
      /\ ends_in 5000 BodyRead calls [PromptsAsked] = true
  | Done (inl _) _ calls _ => ends_in 5000 BodyRead calls failing = true
  | OutOfFuel _ calls => ends_in 5000 BodyRead calls any_phase = true
  end.
Proof.
  unfold handleAnalyze. run_go; need_fuel; run_go; [reflexivity|].
  destruct (on_generateContent w _) as [e|[[completion|]]];
    run_go; cbn [text]; run_go; try reflexivity.
  destruct (JSON_parse (trim completion)); run_go;
    first [reflexivity | split; reflexivity].
Qed.

Lemma failure_logged interval calls label error :
  ends_in interval BodyRead calls failing = true ->
  follows interval BodyRead (calls ++ [made (console_error label error)])
  = Some Logged.
Proof.
  unfold ends_in. rewrite follows_app.
  destruct (follows interval BodyRead calls) as [[]|]; try discriminate;
    reflexivity.
Qed.

Lemma ends_in_follows interval p calls allowed :
  ends_in interval p calls allowed = true ->
  exists q, follows interval p calls = Some q /\ In q allowed.
Proof.
  unfold ends_in. destruct (follows interval p calls) as [q|]; [|discriminate].
  rewrite existsb_exists. intros [x [Hx Hq]]. exists q. split; [reflexivity|].
  destruct q, x; try discriminate Hq; exact Hx.
Qed.

(** The [try] block: the read of the body, then one of the handlers. *)
Lemma dispatch_follows key fuel :
  match run (world w) fuel (dispatch key) 0 with
  | Done (inr response) _ calls _ =>
      exists rest p, calls = made request_json :: rest
        /\ follows 5000 BodyRead rest = Some p
        /\ match p with
           | BodyRead =>
               response = jsonResponse (error_body "Invalid request type") 400
           | PromptsAsked | PreviewAsked | Downloaded =>
               response.(status) = 200%Z
           | _ => False
           end
  | Done (inl _) _ calls _ =>
      exists rest, calls = made request_json :: rest
        /\ ends_in 5000 BodyRead rest failing = true
  | OutOfFuel _ calls => follows 5000 Arrived calls <> None
  end.
Proof.
  unfold dispatch. run_go; need_fuel; run_go; [discriminate|].
  destruct (request_body w) as [e|body]; run_go;
    [exists []; split; reflexivity|].
  destruct (type body =? "generate")%string;
    [|destruct (type body =? "analyze")%string].
  - pose proof (generate_follows key (payload body) fuel) as H.
    destruct (run (world w) fuel _ 0) as [[e|response] s cs f|s cs]; run_simpl.
    + exists cs. split; [reflexivity|exact H].
    + destruct H as [Hstatus H].
      destruct (ends_in_follows _ _ _ _ H) as [q [Hq Hin]].
      exists cs, q. split; [reflexivity|]. split; [exact Hq|].
      cbn [In] in Hin. destruct Hin as [<-|[<-|[]]]; exact Hstatus.
    + cbn [app follows step projT2 made].
      destruct (ends_in_follows _ _ _ _ H) as [q [Hq _]]. rewrite Hq.
      discriminate.
  - pose proof (analyze_follows key (payload body) fuel) as H.
    destruct (run (world w) fuel _ 0) as [[e|response] s cs f|s cs]; run_simpl.
    + exists cs. split; [reflexivity|exact H].
    + destruct H as [Hstatus H].
      destruct (ends_in_follows _ _ _ _ H) as [q [Hq Hin]].
      exists cs, q. split; [reflexivity|]. split; [exact Hq|].
      cbn [In] in Hin. destruct Hin as [<-|[]]; exact Hstatus.
    + cbn [app follows step projT2 made].
      destruct (ends_in_follows _ _ _ _ H) as [q [Hq _]]. rewrite Hq.
      discriminate.
  - run_go. exists [], BodyRead. repeat split; reflexivity.
Qed.

(** The relay as a whole. *)
Lemma onRequestPost_follows ctx fuel :
  match run (world w) fuel (onRequestPost ctx) 0 with
  | Done response _ calls _ =>
      exists p, follows 5000 Arrived calls = Some p
        /\ match p with
           | Arrived =>
               truthy_opt ctx.(env).(API_KEY) = false
               /\ response
                  = jsonResponse
                      (error_body "API_KEY is not configured on the server.")
                      500
           | BodyRead =>
               response = jsonResponse (error_body "Invalid request type") 400
           | PromptsAsked | PreviewAsked | Downloaded =>
               response.(status) = 200%Z
           | Logged =>
               exists error before,
                 response
                 = jsonResponse (error_body (errorMessage_of error)) 500
                 /\ calls
                    = before
                      ++ [made (console_error "Error in proxy function:"
                                  error)]
           | Submitted | Slept => False
           end
  | OutOfFuel _ calls => follows 5000 Arrived calls <> None
  end.
Proof.
  unfold onRequestPost.
  destruct (truthy_opt (API_KEY (env ctx))) eqn:Hkey; cbn [negb].
  - rewrite run_try_catch.
    pose proof (dispatch_follows (value (API_KEY (env ctx))) fuel) as H.
    destruct (run (world w) fuel (dispatch _) 0)
      as [[e|response] s cs f|s cs]; run_simpl.
    + destruct H as [rest [-> H]].
      destruct f as [|f]; run_go.
      * cbn [app follows step projT2 made].
        destruct (ends_in_follows _ _ _ _ H) as [q [-> _]]. discriminate.
      * exists Logged. split.
        { cbn [app follows step projT2 made]. apply failure_logged, H. }
        exists e, (made request_json :: rest). split; reflexivity.
    + destruct H as [rest [p [-> [Hp H]]]]. exists p.
      split; [cbn [follows step projT2 made]; exact Hp|].
      destruct p; try contradiction; exact H.
    + exact H.
  - run_go. exists Arrived. repeat split; reflexivity.
Qed.

End Conformance.

(** ** Counting with the phases *)

(** A kind of call whose every occurrence uses up part of what the phase
    still allows occurs no more often than the first phase allows. *)
Lemma bounded_by interval (kind : call -> bool) (budget : Phase -> nat) :
  (forall p c q, step interval p c = Some q ->
     (if kind c then 1 else 0) + budget q <= budget p) ->
  forall calls p q, follows interval p calls = Some q ->
    length (filter kind calls) + budget q <= budget p.
Proof.
  intros Hstep. induction calls as [|c calls IH]; intros p q.
  - cbn. intros [= <-]. lia.
  - cbn [follows filter]. destruct (step interval p c) as [p'|] eqn:Hp;
      [|discriminate].
    intros Hq. specialize (IH _ _ Hq). specialize (Hstep _ _ _ Hp).
    destruct (kind c); cbn [length]; lia.
Qed.

(** Sleeps and status checks are in step: one sleep more than checks in
    the phase [Slept], as many otherwise. *)
Lemma sleeps_and_checks interval : forall calls p q,
  follows interval p calls = Some q ->
  length (filter is_sleep calls) + (if phase_eqb p Slept then 1 else 0)
  = length (filter is_status_check calls)
    + (if phase_eqb q Slept then 1 else 0).
Proof.
  induction calls as [|c calls IH]; intros p q.
  - cbn. intros [= <-]. reflexivity.
  - cbn [follows filter]. destruct (step interval p c) as [p'|] eqn:Hp;
      [|discriminate].
    intros Hq. specialize (IH _ _ Hq).
    destruct c as [T e]. destruct e; destruct p; cbn in Hp;
      try discriminate Hp;
      try (destruct (ms =? interval)%Z; [|discriminate Hp]);
      injection Hp as <-; cbn in IH |- *; lia.
Qed.

Ltac budget_steps :=
  let p := fresh "p" in
  let c := fresh "c" in
  let q := fresh "q" in
  let T := fresh "T" in
  let e := fresh "e" in
  let H := fresh "H" in
  intros p c q H; destruct c as [T e]; destruct e; destruct p; cbn in H;
  try discriminate H;
  try match type of H with
      | context [Z.eqb ?a ?b] => destruct (Z.eqb a b); [|discriminate H]
      end;
  injection H as <-; cbn; lia.

Lemma body_read_once interval calls q :
  follows interval Arrived calls = Some q ->
  length (filter is_body_read calls) <= 1.
Proof.
  intros H.
  pose proof (bounded_by interval is_body_read
                (fun p => match p with Arrived => 1 | _ => 0 end)
                ltac:(budget_steps) calls _ _ H).
  cbn in *. lia.
Qed.

Lemma generation_calls_bounded interval calls q :
  follows interval Arrived calls = Some q ->
  length (filter (fun c => is_completion c || is_image_call c
                           || is_submission c) calls) <= 2.
Proof.
  intros H.
  pose proof (bounded_by interval
                (fun c => is_completion c || is_image_call c
                          || is_submission c)
                (fun p => match p with
                          | Arrived | BodyRead => 2
                          | PromptsAsked => 1
                          | _ => 0
                          end)
                ltac:(budget_steps) calls _ _ H).
  cbn in *. lia.
Qed.

Lemma one_media_call interval calls q :
  follows interval Arrived calls = Some q ->
  length (filter (fun c => is_image_call c || is_submission c) calls) <= 1.
Proof.
  intros H.
  pose proof (bounded_by interval
                (fun c => is_image_call c || is_submission c)
                (fun p => match p with
                          | Arrived | BodyRead | PromptsAsked => 1
                          | _ => 0
                          end)
                ltac:(budget_steps) calls _ _ H).
  cbn in *. lia.
Qed.

Lemma one_download interval calls q :
  follows interval Arrived calls = Some q ->
  length (filter is_download calls) <= 1.
Proof.
  intros H.
  pose proof (bounded_by interval is_download
                (fun p => match p with
                          | Downloaded | Logged | PreviewAsked => 0
                          | _ => 1
                          end)
                ltac:(budget_steps) calls _ _ H).
  cbn in *. lia.
Qed.

Lemma one_log interval calls q :
  follows interval Arrived calls = Some q ->
  length (filter is_log calls) <= 1.
Proof.
  intros H.
  pose proof (bounded_by interval is_log
                (fun p => match p with Logged => 0 | _ => 1 end)
                ltac:(budget_steps) calls _ _ H).
  cbn in *. lia.
Qed.

(** Every run of the relay follows the protocol. *)
Lemma relay_follows {platform : Platform} (w : World) (ctx : Context) fuel :
  exists q,
    follows 5000 Arrived (calls_of (run (world w) fuel (onRequestPost ctx) 0))
    = Some q
    /\ (finished (run (world w) fuel (onRequestPost ctx) 0) <> None ->
        q <> Slept).
Proof.
  pose proof (onRequestPost_follows w ctx fuel) as H.
  destruct (run (world w) fuel (onRequestPost ctx) 0) as [r s cs f|s cs];
    cbn [calls_of finished].
  - destruct H as [p [Hp H]]. exists p. split; [exact Hp|].
    intros _ ->. exact H.
  - destruct (follows 5000 Arrived cs) as [q|]; [|contradiction].
    exists q. split; [reflexivity|]. intros Hfin. contradiction.
Qed.

(** X1. Whatever the request, the provider and the moment, the calls the
    relay has made follow one order: the body is read first; the structured
    completion comes next; then at most one preview call; a video job is
    slept on for 5000 ms and checked in alternation, and its asset is
    downloaded at most once, after a status check or right after the
    submission; a failure is logged last.  The response tells where the run
    ended: the configuration error is returned before any call, status 400
    right after the read of the body, status 200 after a provider call that
    was answered, and a caught failure, with status 500 and its message,
    right after its log. *)
Theorem relay_calls_follow_one_order
    {platform : Platform} (w : World) (ctx : Context) fuel :
  exists p,
    follows 5000 Arrived (calls_of (run (world w) fuel (onRequestPost ctx) 0))
    = Some p
    /\ forall response calls,
         finished (run (world w) fuel (onRequestPost ctx) 0)
           = Some (response, calls) ->
         match p with
         | Arrived =>
             truthy_opt ctx.(env).(API_KEY) = false
             /\ response
                = jsonResponse
                    (error_body "API_KEY is not configured on the server.")
                    500
         | BodyRead =>
             response = jsonResponse (error_body "Invalid request type") 400
         | PromptsAsked | PreviewAsked | Downloaded =>
             response.(status) = 200%Z
         | Logged =>
             exists error before,
               response
               = jsonResponse (error_body (errorMessage_of error)) 500
               /\ calls
                  = before
                    ++ [made (console_error "Error in proxy function:"
                                error)]
         | Submitted | Slept => False
         end.
Proof.
  pose proof (onRequestPost_follows w ctx fuel) as H.
  destruct (run (world w) fuel (onRequestPost ctx) 0) as [r s cs f|s cs];
    cbn [calls_of finished].
  - destruct H as [p [Hp H]]. exists p. split; [exact Hp|].
    intros response calls [= <- <-]. exact H.
  - destruct (follows 5000 Arrived cs) as [q|]; [|contradiction].
    exists q. split; [reflexivity|]. intros response calls Hfin.
    discriminate Hfin.
Qed.

(** X2. The relay repeats nothing: at any moment of any run it has read the
    body at most once, made at most two generation calls of which at most
    one asks for an image or submits a video job, downloaded at most one
    asset and logged at most one failure; it has slept once before every
    status check, and when it has returned it has slept exactly as often as
    it has checked. *)
Theorem relay_repeats_no_call
    {platform : Platform} (w : World) (ctx : Context) fuel :
  let calls := calls_of (run (world w) fuel (onRequestPost ctx) 0) in
  length (filter is_body_read calls) <= 1
  /\ length (filter (fun c => is_completion c || is_image_call c
                              || is_submission c) calls) <= 2
  /\ length (filter (fun c => is_image_call c || is_submission c) calls) <= 1
  /\ length (filter is_download calls) <= 1
  /\ length (filter is_log calls) <= 1
  /\ length (filter is_status_check calls) <= length (filter is_sleep calls)
  /\ length (filter is_sleep calls)
     <= length (filter is_status_check calls) + 1
  /\ (finished (run (world w) fuel (onRequestPost ctx) 0) <> None ->
      length (filter is_sleep calls)
      = length (filter is_status_check calls)).
Proof.
  intros calls. destruct (relay_follows w ctx fuel) as [q [Hq Hfinished]].
  fold calls in Hq.
  pose proof (sleeps_and_checks 5000 calls _ _ Hq) as Hsleeps.
  cbn [phase_eqb] in Hsleeps.
  split; [exact (body_read_once _ _ _ Hq)|].
  split; [exact (generation_calls_bounded _ _ _ Hq)|].
  split; [exact (one_media_call _ _ _ Hq)|].
  split; [exact (one_download _ _ _ Hq)|].
  split; [exact (one_log _ _ _ Hq)|].
  split; [destruct (phase_eqb q Slept); lia|].
  split; [destruct (phase_eqb q Slept); lia|].
  intros Hfin. specialize (Hfinished Hfin).
  destruct q; cbn [phase_eqb] in Hsleeps; try lia. contradiction.
Qed.

End ProtocolFacts.

(* ===================================================================== *)
(** * The analysis handler and the requests the relay cannot use *)
(* ===================================================================== *)

Module AnalysisFacts.
Import Js Types Async Script RunFacts AsyncFacts Relay ResponseFacts.

Section Analysis.
Context {platform : Platform}.
Variables (w : World) (ctx : Context) (key : string).
Hypothesis Hkey : ctx.(env).(API_KEY) = Some key.
Hypothesis Htruthy : truthy key = true.

(** The relay reads the body and hands the payload to [handleAnalyze]. *)
Lemma analyze_dispatched data fuel :
  w.(request_body) = inr {| type := "analyze"; payload := data |} ->
  run (world w) (S fuel) (onRequestPost ctx) 0 =
  after_all [made request_json]
    (seq_outcome
       (run (world w) fuel (handleAnalyze {| apiKey := key |} data) 0)
       (fun r s f =>
          match r with
          | inl e => deliver f s (caught e)
          | inr response => Done response s [] f
          end)).
Proof.
  intros Hbody.
  rewrite (onRequestPost_tries key ctx Hkey Htruthy). unfold dispatch.
  run_go. rewrite Hbody. run_simpl. cbn [type payload].
  change ("analyze" =? "generate")%string with false.
  change ("analyze" =? "analyze")%string with true. cbv iota.
  destruct (run (world w) fuel _ 0) as [r s cs f|]; [|run_done].
  destruct r as [e|response]; [|run_done].
  destruct f as [|f]; run_go; run_done.
Qed.


End Analysis.



(** X4. A body that cannot be read (the text of the request is not JSON) is
    no invalid request for the relay: the rejection of [request.json()] is
    caught like any failure and answered with status 500 and its message,
    after one [console.error]; the provider is not called. *)
Theorem unreadable_body_is_a_server_error
    {platform : Platform} (w : World) (ctx : Context) (key : string)
    (error : thrown) fuel :
  ctx.(env).(API_KEY) = Some key ->
  truthy key = true ->
  w.(request_body) = inl error ->
  run (world w) (2 + fuel) (onRequestPost ctx) 0
  = Done (jsonResponse (error_body (errorMessage_of error)) 500) 0
      [made request_json;
       made (console_error "Error in proxy function:" error)] fuel
  /\ filter is_provider_call
       (calls_of (run (world w) (2 + fuel) (onRequestPost ctx) 0)) = [].
Proof.
  intros Hkey Htruthy Hbody.
  assert (H : run (world w) (2 + fuel) (onRequestPost ctx) 0
              = Done (jsonResponse (error_body (errorMessage_of error)) 500) 0
                  [made request_json;
                   made (console_error "Error in proxy function:" error)]
                  fuel).
  { rewrite (onRequestPost_tries key ctx Hkey Htruthy). unfold dispatch.
    change (2 + fuel) with (S (S fuel)).
    run_go. rewrite Hbody. run_go. reflexivity. }
  split; [exact H|]. rewrite H. reflexivity.
Qed.

Lemma unreadable_body_is_a_server_error_witness :
  let w := Examples.studio
             (inl (JsError "Unexpected token < in JSON at position 0"))
             Examples.bilingual 0 Examples.finished_operation in
  run (world w) (2 + 0) (@onRequestPost Examples.engine Examples.configured) 0
  = Done (jsonResponse
            (error_body "Unexpected token < in JSON at position 0") 500) 0
      [made request_json;
       made (console_error "Error in proxy function:"
               (JsError "Unexpected token < in JSON at position 0"))] 0
  /\ filter is_provider_call
       (calls_of
          (run (world w) (2 + 0)
             (@onRequestPost Examples.engine Examples.configured) 0)) = [].
Proof.
  intros w.
  apply (@unreadable_body_is_a_server_error Examples.engine w
           Examples.configured "k-123"
           (JsError "Unexpected token < in JSON at position 0") 0);
    reflexivity.
Defined.

(** X5. The relay does not check the payload against the type of the
    envelope.  A [generate] envelope whose payload has no generation fields
    fails at [masterPromptLanguages.join], before any provider call, and is
    answered with status 500 and the engine's message.  An [analyze]
    envelope whose payload has no [promptToAnalyze] is not refused at all:
    the relay runs, call for call, as on the request to analyse the text
    [undefined]. *)
Theorem payload_is_not_checked
    {platform : Platform} (w : World) (ctx : Context) (key : string) :
  ctx.(env).(API_KEY) = Some key ->
  truthy key = true ->
  (forall promptToAnalyze fuel,
     run (world
            (with_body w
               (inr {| type := "generate";
                       payload := AnalyzePayload promptToAnalyze |})))
       (2 + fuel) (onRequestPost ctx) 0
     = Done (jsonResponse
               (error_body (type_error_message "masterPromptLanguages.join"))
               500) 0
         [made request_json;
          made (console_error "Error in proxy function:"
                  (TypeError "masterPromptLanguages.join"))] fuel)
  /\ (forall d fuel,
        run (world
               (with_body w
                  (inr {| type := "analyze"; payload := GeneratePayload d |})))
          fuel (onRequestPost ctx) 0
        = run (world
                 (with_body w
                    (inr {| type := "analyze";
                            payload := AnalyzePayload "undefined" |})))
            fuel (onRequestPost ctx) 0).
Proof.
  intros Hkey Htruthy. split.
  - intros promptToAnalyze fuel.
    rewrite (onRequestPost_tries key ctx Hkey Htruthy). unfold dispatch.
    change (2 + fuel) with (S (S fuel)).
    run_go. cbn [with_body request_body type payload].
    change ("generate" =? "generate")%string with true. cbv iota.
    unfold handleGenerate. run_go. reflexivity.
  - intros d [|fuel].
    + rewrite (onRequestPost_tries key ctx Hkey Htruthy). unfold dispatch.
      run_go. reflexivity.
    + rewrite (analyze_dispatched
                 (with_body w
                    (inr {| type := "analyze"; payload := GeneratePayload d |}))
                 ctx key Hkey Htruthy (GeneratePayload d) fuel eq_refl).
      rewrite (analyze_dispatched
                 (with_body w
                    (inr {| type := "analyze";
                            payload := AnalyzePayload "undefined" |}))
                 ctx key Hkey Htruthy (AnalyzePayload "undefined") fuel
                 eq_refl).
      unfold handleAnalyze.
      change (analysis_request None)
        with (analysis_request (Some "undefined")).
      run_go. destruct fuel as [|fuel]; run_go; [reflexivity|].
      cbn [with_body on_generateContent].
      destruct (on_generateContent w _) as [e|[[completion|]]];
        run_go; cbn [text]; run_go; try reflexivity.
      destruct (JSON_parse (trim completion)); run_go; reflexivity.
Qed.

Lemma payload_is_not_checked_witness :
  let w := Examples.studio (inl NonError) Examples.bilingual 0
             Examples.finished_operation in
  run (world
         (with_body w
            (inr {| type := "generate";
                    payload := AnalyzePayload "Describe a kite." |})))
    (2 + 0) (@onRequestPost Examples.engine Examples.configured) 0
  = Done (jsonResponse
            (error_body
               "Cannot read properties of undefined (reading 'masterPromptLanguages.join')")
            500) 0
      [made request_json;
       made (console_error "Error in proxy function:"
               (@TypeError Examples.engine "masterPromptLanguages.join"))] 0.
Proof.
  intros w.
  destruct (@payload_is_not_checked Examples.engine w Examples.configured
              "k-123" eq_refl eq_refl) as [Hgenerate _].
  apply (Hgenerate "Describe a kite." 0).
Defined.

End AnalysisFacts.

(* ===================================================================== *)
(** * The three previews and the uploaded file *)
(* ===================================================================== *)

Module PreviewFacts.
Import Js Types Async Script RunFacts AsyncFacts PollFacts Relay GenerateFacts
  ResponseFacts FileFacts.

(** ** Splitting a data URL at its commas *)

(** A split has a first component. *)
Lemma split_not_nil c s : split c s <> [].
Proof.
  destruct s as [|x s]; cbn [split]; [discriminate|].
  destruct (Ascii.eqb x c); [discriminate|].
  destruct (split c s); discriminate.
Qed.

(** Behind a header that has no separator, the components are the header
    and then those of the rest. *)
Lemma split_header c header rest :
  split c header = [header] ->
  split c (header ++ String c rest) = header :: split c rest.
Proof.
  induction header as [|x header IH]; cbn [split append].
  - intros _. rewrite Ascii.eqb_refl. reflexivity.
  - destruct (Ascii.eqb x c).
    + intros H. discriminate H.
    + destruct (split c header) as [|h t] eqn:Hs;
        [destruct (split_not_nil _ _ Hs)|].
      intros [= Hh Ht]. subst t. rewrite IH by (rewrite Hh; reflexivity).
      reflexivity.
Qed.

(** The second component of [header,payload]. *)
Lemma data_url_payload header payload :
  split ","%char header = [header] ->
  split ","%char payload = [payload] ->
  nth_error (split ","%char (header ++ "," ++ payload)) 1 = Some payload.
Proof.
  intros Hheader Hpayload.
  change ("," ++ payload)%string with (String ","%char payload).
  rewrite (split_header _ _ _ Hheader), Hpayload. reflexivity.
Qed.

Section Preview.
Context {platform : Platform}.
Variables (w : World) (ctx : Context) (key : string)
          (d : PromptGenerationRequest) (completion : string)
          (masterPrompts : list MasterPrompt) (basePrompt : string).
Hypothesis Hkey : ctx.(env).(API_KEY) = Some key.
Hypothesis Htruthy : truthy key = true.
Hypothesis Hbody : w.(request_body) = inr (generate_body d).
Hypothesis Hcompletion :
  w.(on_generateContent) (prompts_request d) = inr {| text := Some completion |}.
Hypothesis Hparse :
  JSON_parse_prompts (trim completion) = inr {| prompts := Some masterPrompts |}.
Hypothesis Hbase : basePromptForPreview masterPrompts = Some basePrompt.

(** Up to the preview and from the preview on: two calls, the preview of
    the pathway, and the response or the [catch]. *)
Lemma preview_run fuel :
  run (world w) (2 + fuel) (onRequestPost ctx) 0 =
  after_all [made request_json; made (generateContent (prompts_request d))]
    (seq_outcome
       (run (world w) fuel
          (if includes IMAGE_OUTPUT_TYPES d.(outputType) then
             image_preview basePrompt d
           else if includes VIDEO_OUTPUT_TYPES d.(outputType) then
             video_preview basePrompt d key
           else
             text_preview (previewPromptParts basePrompt d.(file)) d) 0)
       (fun r s f =>
          match r with
          | inl e => deliver f s (caught e)
          | inr preview =>
              Done (jsonResponse (generation_json masterPrompts preview) 200)
                s [] f
          end)).
Proof.
  change (2 + fuel) with (S (S fuel)).
  rewrite (generate_dispatched w ctx key d Hkey Htruthy Hbody).
  unfold handleGenerate, request_masterPrompts. run_go.
  rewrite Hcompletion. run_simpl. cbn [text]. rewrite Hparse. cbn [prompts].
  destruct masterPrompts as [|p0 ps]; [discriminate Hbase|].
  run_go. rewrite Hbase. run_go.
  destruct (run (world w) fuel _ 0) as [r s cs f|]; [|run_done].
  destruct r as [e|preview]; run_go; [|run_done].
  destruct f as [|f]; run_go; run_done.
Qed.

End Preview.

(** ** Two providers that answer alike *)

Section SameProvider.
Context {platform : Platform}.
Variables (w1 w2 : World).
Hypothesis Hcontent : w1.(on_generateContent) = w2.(on_generateContent).
Hypothesis Himages : w1.(on_generateImages) = w2.(on_generateImages).
Hypothesis Hsubmission : w1.(submission) = w2.(submission).
Hypothesis Hreports : w1.(status_report) = w2.(status_report).
Hypothesis Hfetch : w1.(on_fetch) = w2.(on_fetch).

Lemma poll_same interval fuel : forall cur k,
  run (world w1) fuel (poll_until_done interval cur) k
  = run (world w2) fuel (poll_until_done interval cur) k.
Proof.
  induction fuel as [fuel IH] using lt_wf_ind. intros cur k.
  unfold poll_until_done. rewrite !run_iter. fold (poll_until_done interval).
  destruct (not_done cur); [|run_go; reflexivity].
  destruct fuel as [|[|[|fuel]]]; run_go; try reflexivity;
    rewrite Hreports; destruct (status_report w2 k) as [e|next]; run_go;
    try reflexivity.
  fold (poll_until_done interval next). rewrite (IH fuel) by lia.
  reflexivity.
Qed.

(** The generation handler on a request and on the same request without
    its file, when the pathway does not use the file. *)
Lemma file_not_used key d fuel :
  (includes IMAGE_OUTPUT_TYPES d.(outputType) = true
   \/ (includes VIDEO_OUTPUT_TYPES d.(outputType) = true
       /\ match d.(file) with
          | Some f => startsWith f.(mimeType) "image/" = false
          | None => True
          end)) ->
  run (world w1) fuel
    (handleGenerate {| apiKey := key |} (GeneratePayload d) key) 0
  = run (world w2) fuel
      (handleGenerate {| apiKey := key |} (GeneratePayload (without_file d))
         key) 0.
Proof.
  intros Hpath.
  unfold handleGenerate, request_masterPrompts.
  change (prompts_request (without_file d)) with (prompts_request d).
  run_go. need_fuel; run_go; [reflexivity|]. rewrite Hcontent.
  destruct (on_generateContent w2 (prompts_request d))
    as [e|[[completion|]]]; run_go; cbn [text]; run_go; try reflexivity.
  destruct (JSON_parse_prompts (trim completion))
    as [message|[[[|p0 ps]|]]]; cbn [prompts]; run_go; try reflexivity.
  destruct (basePromptForPreview (p0 :: ps)) as [basePrompt|];
    run_go; try reflexivity.
  cbn [without_file outputType file].
  destruct Hpath as [Himage|[Hvideo Hmime]].
  - rewrite Himage. unfold image_preview.
    change (images_request basePrompt (without_file d))
      with (images_request basePrompt d).
    run_go. need_fuel; run_go; [reflexivity|]. rewrite Himages.
    destruct (on_generateImages w2 _) as [e|[[[|[[img|]] gs]|]]];
      cbn [generatedImages nth_error image]; run_go; reflexivity.
  - rewrite (video_not_image _ Hvideo), Hvideo. unfold video_preview.
    assert (Hparams : videoGenParams basePrompt (without_file d)
                      = videoGenParams basePrompt d).
    { unfold videoGenParams. cbn [without_file file].
      destruct (file d) as [f|]; [rewrite Hmime|]; reflexivity. }
    rewrite Hparams.
    run_go. need_fuel; run_go; [reflexivity|]. rewrite Hsubmission.
    destruct (submission w2 _) as [e|op0]; run_go; [reflexivity|].
    rewrite poll_same.
    destruct (run (world w2) fuel (poll_until_done 5000 op0) 0)
      as [r s cs f|s cs]; run_go; [|reflexivity].
    destruct r as [e|operation]; run_go; [reflexivity|].
    destruct (truthy_opt (downloadLink_of operation)); run_go;
      [|reflexivity].
    destruct f as [|f]; run_go; [reflexivity|]. rewrite Hfetch.
    destruct (on_fetch w2 _) as [e|blob]; run_go; reflexivity.
Qed.

End SameProvider.

(** X6. On a text request with a file whose data is a header, a comma and
    a payload that is not empty, neither of the two holding a comma, the
    preview request holds two parts: the payload with the file's MIME type,
    then the base prompt, to which the instruction to answer in the preview
    language is appended; the sampling parameters are the caller's.  The
    text of the answer is the content of the preview, as it is; when the
    answer has no text, the preview of the response has no content at all.
    *)
Theorem inline_file_precedes_the_prompt
    {platform : Platform} (w : World) (ctx : Context) (key : string)
    (d : PromptGenerationRequest) (completion : string)
    (masterPrompts : list MasterPrompt) (basePrompt : string)
    (f : InlineFile) (header payload : string) :
  ctx.(env).(API_KEY) = Some key ->
  truthy key = true ->
  w.(request_body) = inr (generate_body d) ->
  w.(on_generateContent) (prompts_request d)
    = inr {| text := Some completion |} ->
  JSON_parse_prompts (trim completion)
    = inr {| prompts := Some masterPrompts |} ->
  basePromptForPreview masterPrompts = Some basePrompt ->
  pathway_of d.(outputType) = TextPathway ->
  d.(file) = Some f ->
  f.(data) = (header ++ "," ++ payload)%string ->
  split ","%char header = [header] ->
  split ","%char payload = [payload] ->
  payload <> ""%string ->
  let request :=
    {| gc_model := "gemini-2.5-flash";
       gc_contents :=
         ContentsParts
           [InlineDataPart f.(mimeType) payload;
            TextPart
              (basePrompt ++ nl ++ nl
               ++ "--- IMPORTANT: Please provide your entire response in "
               ++ d.(previewLanguage) ++ ". ---")%string];
       gc_config := SamplingConfig d.(temperature) d.(topP) |} in
  forall answer fuel,
    w.(on_generateContent) request = inr answer ->
    run (world w) (3 + fuel) (onRequestPost ctx) 0
    = Done (jsonResponse
              (generation_json masterPrompts
                 {| preview_type := Some PreviewText;
                    preview_content := answer.(text) |})
              200)
        0
        [made request_json;
         made (generateContent (prompts_request d));
         made (generateContent request)]
        fuel
    /\ (answer.(text) = None ->
        get "preview"
          (generation_json masterPrompts
             {| preview_type := Some PreviewText;
                preview_content := answer.(text) |})
        = Some (JObj [("type", JStr "text")])).
Proof.
  intros Hkey Htruthy Hbody Hcompletion Hparse Hbase Htext Hfile Hdata
    Hheader Hpayload Hfull request answer fuel Hanswer.
  destruct (text_pathway_tests _ Htext) as [Himage Hvideo].
  split; [|intros ->; reflexivity].
  change (3 + fuel) with (2 + S fuel).
  rewrite (preview_run w ctx key d completion masterPrompts basePrompt
             Hkey Htruthy Hbody Hcompletion Hparse Hbase).
  rewrite Himage, Hvideo.
  assert (Hparts : text_request (previewPromptParts basePrompt d.(file)) d
                   = request).
  { rewrite Hfile. unfold previewPromptParts, text_request.
    rewrite Hdata, (data_url_payload _ _ Hheader Hpayload).
    cbn [truthy_opt value]. unfold truthy.
    destruct (String.eqb_spec payload "") as [E|_]; [contradiction|].
    reflexivity. }
  unfold text_preview. rewrite Hparts. run_go. rewrite Hanswer. run_go.
  reflexivity.
Qed.

Lemma inline_file_precedes_the_prompt_witness :
  let note := {| data := "data:text/plain;base64,SGk=";
                 mimeType := "text/plain" |} in
  let d := Examples.request "Email" (Some note) in
  let w := Examples.studio (inr (generate_body d)) Examples.bilingual 0
             Examples.finished_operation in
  let request :=
    {| gc_model := "gemini-2.5-flash";
       gc_contents :=
         ContentsParts
           [InlineDataPart "text/plain" "SGk=";
            TextPart
              ("Draw a red kite over the dunes at dawn." ++ nl ++ nl
               ++ "--- IMPORTANT: Please provide your entire response in "
               ++ "Vietnamese" ++ ". ---")%string];
       gc_config := SamplingConfig (7 # 10)%Q (95 # 100)%Q |} in
  run (world w) (3 + 0) (@onRequestPost Examples.engine Examples.configured) 0
  = Done (jsonResponse
            (generation_json Examples.bilingual
               {| preview_type := Some PreviewText;
                  preview_content := Some "Lễ hội diều"%string |})
            200)
      0
      [made request_json;
       made (generateContent (@prompts_request d));
       made (generateContent request)]
      0.
Proof.
  intros note d w request.
  apply (@inline_file_precedes_the_prompt Examples.engine w
           Examples.configured "k-123" d
           (Examples.prompts_text Examples.bilingual) Examples.bilingual
           "Draw a red kite over the dunes at dawn." note
           "data:text/plain;base64" "SGk="
           eq_refl eq_refl eq_refl eq_refl eq_refl eq_refl eq_refl eq_refl
           eq_refl eq_refl eq_refl ltac:(discriminate)
           {| text := Some "Lễ hội diều"%string |} 0 eq_refl).
Defined.

(** X7. On an image request the relay asks for one PNG image of the base
    prompt in the aspect ratio of the request, and of what the provider
    returns it reads the bytes of the first image only: the preview is the
    data URL made of them, or of the word [undefined] when that image has no
    bytes.  When the provider returns no image the request fails like any
    other, with status 500. *)
Theorem image_preview_is_a_png_data_url
    {platform : Platform} (w : World) (ctx : Context) (key : string)
    (d : PromptGenerationRequest) (completion : string)
    (masterPrompts : list MasterPrompt) (basePrompt : string) :
  ctx.(env).(API_KEY) = Some key ->
  truthy key = true ->
  w.(request_body) = inr (generate_body d) ->
  w.(on_generateContent) (prompts_request d)
    = inr {| text := Some completion |} ->
  JSON_parse_prompts (trim completion)
    = inr {| prompts := Some masterPrompts |} ->
  basePromptForPreview masterPrompts = Some basePrompt ->
  includes IMAGE_OUTPUT_TYPES d.(outputType) = true ->
  let request :=
    {| gi_model := "imagen-3.0-generate-002";
       gi_prompt := basePrompt;
       numberOfImages := 1;
       outputMimeType := "image/png";
       gi_aspectRatio := d.(aspectRatio) |} in
  (forall first others fuel,
     w.(on_generateImages) request
       = inr {| generatedImages :=
                  Some ({| image := Some first |} :: others) |} ->
     run (world w) (3 + fuel) (onRequestPost ctx) 0
     = Done (jsonResponse
               (generation_json masterPrompts
                  {| preview_type := Some PreviewImage;
                     preview_content :=
                       Some ("data:image/png;base64,"
                             ++ interpolate first.(imageBytes))%string |})
               200)
         0
         [made request_json;
          made (generateContent (prompts_request d));
          made (generateImages request)]
         fuel)
  /\ (forall fuel,
        w.(on_generateImages) request
          = inr {| generatedImages := Some [] |} ->
        run (world w) (4 + fuel) (onRequestPost ctx) 0
        = Done (jsonResponse
                  (error_body (type_error_message "generatedImages[0].image"))
                  500)
            0
            [made request_json;
             made (generateContent (prompts_request d));
             made (generateImages request);
             made (console_error "Error in proxy function:"
                     (TypeError "generatedImages[0].image"))]
            fuel).
Proof.
  intros Hkey Htruthy Hbody Hcompletion Hparse Hbase Himage request.
  split.
  - intros first others fuel Hanswer.
    change (3 + fuel) with (2 + S fuel).
    rewrite (preview_run w ctx key d completion masterPrompts basePrompt
               Hkey Htruthy Hbody Hcompletion Hparse Hbase).
    rewrite Himage. unfold image_preview.
    change (images_request basePrompt d) with request.
    run_go. rewrite Hanswer. run_simpl.
    cbn [generatedImages nth_error image]. run_go. reflexivity.
  - intros fuel Hanswer.
    change (4 + fuel) with (2 + S (S fuel)).
    rewrite (preview_run w ctx key d completion masterPrompts basePrompt
               Hkey Htruthy Hbody Hcompletion Hparse Hbase).
    rewrite Himage. unfold image_preview.
    change (images_request basePrompt d) with request.
    run_go. rewrite Hanswer. run_simpl.
    cbn [generatedImages nth_error]. run_go. run_done.
Qed.

Lemma image_preview_is_a_png_data_url_witness :
  let d := Examples.request "Hình ảnh" None in
  let w := Examples.studio (inr (generate_body d)) Examples.bilingual 0
             Examples.finished_operation in
  let request :=
    {| gi_model := "imagen-3.0-generate-002";
       gi_prompt := "Draw a red kite over the dunes at dawn.";
       numberOfImages := 1;
       outputMimeType := "image/png";
       gi_aspectRatio := "1:1" |} in
  run (world w) (3 + 0) (@onRequestPost Examples.engine Examples.configured) 0
  = Done (jsonResponse
            (generation_json Examples.bilingual
               {| preview_type := Some PreviewImage;
                  preview_content :=
                    Some "data:image/png;base64,iVBORw0KGgo="%string |})
            200)
      0
      [made request_json;
       made (generateContent (@prompts_request d));
       made (generateImages request)]
      0.
Proof.
  intros d w request.
  destruct (@image_preview_is_a_png_data_url Examples.engine w
              Examples.configured "k-123" d
              (Examples.prompts_text Examples.bilingual) Examples.bilingual
              "Draw a red kite over the dunes at dawn."
              eq_refl eq_refl eq_refl eq_refl eq_refl eq_refl eq_refl)
    as [Hfirst _].
  apply (Hfirst {| imageBytes := Some "iVBORw0KGgo="%string |} [] 0).
  reflexivity.
Defined.

(** X8. Outside the text pathway the uploaded file is used for one thing
    only, to seed a video with an image.  On an image request, and on a
    video request whose file is not of an [image/] type, the relay runs call
    for call and answer for answer as on the same request without the
    file: no error is raised and nothing of the file is sent. *)
Theorem file_is_ignored_outside_its_pathway
    {platform : Platform} (w : World) (ctx : Context) (key : string)
    (d : PromptGenerationRequest) :
  ctx.(env).(API_KEY) = Some key ->
  truthy key = true ->
  (includes IMAGE_OUTPUT_TYPES d.(outputType) = true
   \/ (includes VIDEO_OUTPUT_TYPES d.(outputType) = true
       /\ match d.(file) with
          | Some f => startsWith f.(mimeType) "image/" = false
          | None => True
          end)) ->
  forall fuel,
    run (world (with_body w (inr (generate_body d)))) fuel
      (onRequestPost ctx) 0
    = run (world (with_body w (inr (generate_body (without_file d)))))
        fuel (onRequestPost ctx) 0.
Proof.
  intros Hkey Htruthy Hpath [|fuel].
  - rewrite (onRequestPost_tries key ctx Hkey Htruthy). unfold dispatch.
    run_go. reflexivity.
  - rewrite (generate_dispatched (with_body w (inr (generate_body d)))
               ctx key d Hkey Htruthy eq_refl).
    rewrite (generate_dispatched
               (with_body w (inr (generate_body (without_file d))))
               ctx key (without_file d) Hkey Htruthy eq_refl).
    rewrite (file_not_used
               (with_body w (inr (generate_body d)))
               (with_body w (inr (generate_body (without_file d))))
               eq_refl eq_refl eq_refl eq_refl eq_refl key d fuel Hpath).
    reflexivity.
Qed.

Lemma file_is_ignored_outside_its_pathway_witness :
  let note := {| data := "data:text/plain;base64,SGk=";
                 mimeType := "text/plain" |} in
  let d := Examples.request "Video" (Some note) in
  let w := Examples.studio (inl NonError) Examples.bilingual 1
             Examples.finished_operation in
  run (world (with_body w (inr (generate_body d)))) 9
    (@onRequestPost Examples.engine Examples.configured) 0
  = run (world (with_body w (inr (generate_body (without_file d))))) 9
      (@onRequestPost Examples.engine Examples.configured) 0.
Proof.
  intros note d w.
  apply (@file_is_ignored_outside_its_pathway Examples.engine w
           Examples.configured "k-123" d eq_refl eq_refl).
  right. split; reflexivity.
Defined.

(** X9. On a video request with a file of an [image/] type the job is
    submitted with the file as its seed: the MIME type of the file and, as
    bytes, the second component of its data split at the commas, which is
    the payload of a data URL.  Unlike the text pathway the video pathway
    does not look at that component: for data without a comma the seed is
    sent all the same, without bytes. *)
Theorem image_file_seeds_the_video
    {platform : Platform} (w : World) (ctx : Context) (key : string)
    (d : PromptGenerationRequest) (completion : string)
    (masterPrompts : list MasterPrompt) (basePrompt : string)
    (f : InlineFile) fuel :
  ctx.(env).(API_KEY) = Some key ->
  truthy key = true ->
  w.(request_body) = inr (generate_body d) ->
  w.(on_generateContent) (prompts_request d)
    = inr {| text := Some completion |} ->
  JSON_parse_prompts (trim completion)
    = inr {| prompts := Some masterPrompts |} ->
  basePromptForPreview masterPrompts = Some basePrompt ->
  includes VIDEO_OUTPUT_TYPES d.(outputType) = true ->
  d.(file) = Some f ->
  startsWith f.(mimeType) "image/" = true ->
  let bytes := nth_error (split ","%char f.(data)) 1 in
  firstn 3 (calls_of (run (world w) (3 + fuel) (onRequestPost ctx) 0))
  = [made request_json;
     made (generateContent (prompts_request d));
     made (generateVideos
             {| gv_model := "veo-2.0-generate-001";
                gv_prompt := basePrompt;
                numberOfVideos := 1;
                gv_image :=
                  Some {| seed_imageBytes := bytes;
                          seed_mimeType := f.(mimeType) |} |})]
  /\ (forall header payload,
        f.(data) = (header ++ "," ++ payload)%string ->
        split ","%char header = [header] ->
        split ","%char payload = [payload] ->
        bytes = Some payload)
  /\ (split ","%char f.(data) = [f.(data)] -> bytes = None).
Proof.
  intros Hkey Htruthy Hbody Hcompletion Hparse Hbase Hvideo Hfile Hmime bytes.
  split; [|split].
  - rewrite (PathwayFacts.pathway_entered w ctx key d completion
               masterPrompts basePrompt fuel Hkey Htruthy Hbody Hcompletion
               Hparse Hbase).
    unfold pathway_of. rewrite (video_not_image _ Hvideo), Hvideo.
    cbn [pathway_call]. unfold videoGenParams. rewrite Hfile, Hmime.
    reflexivity.
  - intros header payload Hdata Hheader Hpayload. unfold bytes.
    rewrite Hdata. apply data_url_payload; assumption.
  - intros Hnone. unfold bytes. rewrite Hnone. reflexivity.
Qed.

Lemma image_file_seeds_the_video_witness :
  let picture := {| data := "data:image/png;base64,iVBORw0KGgo=";
                    mimeType := "image/png" |} in
  let d := Examples.request "Video" (Some picture) in
  let w := Examples.studio (inr (generate_body d)) Examples.bilingual 0
             Examples.finished_operation in
  firstn 3
    (calls_of
       (run (world w) (3 + 0)
          (@onRequestPost Examples.engine Examples.configured) 0))
  = [made request_json;
     made (generateContent (@prompts_request d));
     made (generateVideos
             {| gv_model := "veo-2.0-generate-001";
                gv_prompt := "Draw a red kite over the dunes at dawn.";
                numberOfVideos := 1;
                gv_image :=
                  Some {| seed_imageBytes := Some "iVBORw0KGgo="%string;
                          seed_mimeType := "image/png" |} |})].
Proof.
  intros picture d w.
  apply (@image_file_seeds_the_video Examples.engine w Examples.configured
           "k-123" d (Examples.prompts_text Examples.bilingual)
           Examples.bilingual "Draw a red kite over the dunes at dawn."
           picture 0);
    reflexivity.
Defined.

End PreviewFacts.

(* ===================================================================== *)
(** * The encoding of the downloaded asset *)
(* ===================================================================== *)

Module Base64Facts.
Import Js Relay GenerateFacts.

Local Open Scope string_scope.

(** Induction on a string, three characters at a time. *)
Lemma string_ind3 (P : string -> Prop) :
  P "" ->
  (forall a, P (String a "")) ->
  (forall a b, P (String a (String b ""))) ->
  (forall a b c r, P r -> P (String a (String b (String c r)))) ->
  forall s, P s.
Proof.
  intros H0 H1 H2 H3.
  assert (H : forall s, P s /\ (forall a, P (String a s))
                        /\ (forall a b, P (String a (String b s)))).
  { induction s as [|c s [IH0 [IH1 IH2]]].
    - auto.
    - split; [apply IH1|]. split; [intros a; apply IH2|].
      intros a b. apply H3, IH0. }
  intros s. apply H.
Qed.

Lemma btoa_length s :
  String.length (btoa s) = 4 * ((String.length s + 2) / 3).
Proof.
  induction s as [|a|a b|a b c r IH] using string_ind3;
    try reflexivity.
  cbn [btoa String.length]. rewrite IH.
  replace (S (S (S (String.length r))) + 2)
    with (String.length r + 2 + 1 * 3) by lia.
  rewrite Nat.div_add by lia. lia.
Qed.

(** ** The digits *)

Lemma N_of_ascii_bound a : (N_of_ascii a < 256)%N.
Proof. destruct a as [[] [] [] [] [] [] [] []]; reflexivity. Qed.

Local Abbreviation sixty_four := (map N.of_nat (seq 0 64)).

Lemma below_64 n : (n < 64)%N -> In n sixty_four.
Proof.
  intros H. apply in_map_iff. exists (N.to_nat n).
  split; [lia|]. apply in_seq. lia.
Qed.

Lemma b64_digit_not_pad n : (n < 64)%N -> b64_digit n <> "="%char.
Proof.
  intros H. apply below_64 in H. revert n H. apply Forall_forall.
  cbn [seq map].
  repeat (constructor; [discriminate|]). constructor.
Qed.

Lemma b64_digit_injective n m :
  (n < 64)%N -> (m < 64)%N -> b64_digit n = b64_digit m -> n = m.
Proof.
  intros Hn Hm. apply below_64 in Hn, Hm. revert m Hm. revert n Hn.
  assert (H : forallb (fun n =>
                forallb (fun m =>
                  implb (Ascii.eqb (b64_digit n) (b64_digit m)) (N.eqb n m))
                  sixty_four) sixty_four = true) by (vm_compute; reflexivity).
  rewrite forallb_forall in H. intros n Hn m Hm Heq.
  specialize (H n Hn). rewrite forallb_forall in H. specialize (H m Hm).
  rewrite Heq, Ascii.eqb_refl in H. cbn [implb] in H.
  apply N.eqb_eq, H.
Qed.

(** Arithmetic with quotients and remainders by a constant: name them,
    keep their defining equation and bound, and leave the rest to [lia]. *)
Ltac name_division a d :=
  let q := fresh "q" in
  let r := fresh "r" in
  pose proof (N.div_mod' a d);
  pose proof (N.mod_lt a d ltac:(discriminate));
  set (q := (a / d)%N) in *; set (r := (a mod d)%N) in *;
  clearbody q r.

Ltac euclid :=
  repeat match goal with
         | |- context [(?a / ?d)%N] => name_division a d
         | |- context [(?a mod ?d)%N] => name_division a d
         | H : context [(?a / ?d)%N] |- _ => name_division a d
         | H : context [(?a mod ?d)%N] |- _ => name_division a d
         end;
  lia.

Ltac bytes_bounded :=
  repeat match goal with
         | |- context [N_of_ascii ?a] =>
             lazymatch goal with
             | _ : (N_of_ascii a < 256)%N |- _ => fail
             | _ => pose proof (N_of_ascii_bound a)
             end
         | H : context [N_of_ascii ?a] |- _ =>
             lazymatch goal with
             | _ : (N_of_ascii a < 256)%N |- _ => fail
             | _ => pose proof (N_of_ascii_bound a)
             end
         end.

(** A padding character is no digit. *)
Ltac pad_is_no_digit :=
  match goal with
  | H : b64_digit ?n = "="%char |- _ =>
      exfalso; apply (b64_digit_not_pad n); [bytes_bounded; euclid|exact H]
  | H : "="%char = b64_digit ?n |- _ =>
      exfalso; apply (b64_digit_not_pad n);
      [bytes_bounded; euclid|symmetry; exact H]
  end.

(** Equal digits are digits of equal numbers. *)
Ltac same_digits :=
  repeat match goal with
         | H : b64_digit ?n = b64_digit ?m |- _ =>
             apply b64_digit_injective in H;
             [|bytes_bounded; euclid|bytes_bounded; euclid]
         end.

Lemma N_of_ascii_injective a b : N_of_ascii a = N_of_ascii b -> a = b.
Proof.
  intros H. rewrite <- (ascii_N_embedding a), <- (ascii_N_embedding b), H.
  reflexivity.
Qed.

Lemma btoa_injective : forall a b, btoa a = btoa b -> a = b.
Proof.
  induction a as [|x|x y|x y z r IH] using string_ind3;
    intros [|x' [|y' [|z' r']]]; cbn [btoa]; intros H;
    try reflexivity; try discriminate H;
    injection H; clear H; intros; try pad_is_no_digit; same_digits.
  - f_equal. apply N_of_ascii_injective. bytes_bounded. euclid.
  - assert (N_of_ascii x = N_of_ascii x' /\ N_of_ascii y = N_of_ascii y')
      as [Hx Hy] by (bytes_bounded; euclid).
    apply N_of_ascii_injective in Hx, Hy. subst. reflexivity.
  - assert (N_of_ascii x = N_of_ascii x' /\ N_of_ascii y = N_of_ascii y'
            /\ N_of_ascii z = N_of_ascii z')
      as [Hx [Hy Hz]] by (bytes_bounded; euclid).
    apply N_of_ascii_injective in Hx, Hy, Hz. subst.
    f_equal. f_equal. f_equal. apply IH.
    match goal with H : btoa r = btoa r' |- _ => exact H end.
Qed.

(** X10. The encoding of the downloaded asset loses nothing: the loop of
    [arrayBufferToBase64] hands every byte to [btoa] in its order, the
    result has four characters for every three bytes, the last group padded,
    and two assets with the same encoding are the same bytes. *)
Theorem asset_encoding_loses_nothing :
  (forall buffer, arrayBufferToBase64 buffer = btoa buffer)
  /\ (forall buffer,
        String.length (arrayBufferToBase64 buffer)
        = 4 * ((String.length buffer + 2) / 3))
  /\ (forall a b,
        arrayBufferToBase64 a = arrayBufferToBase64 b -> a = b).
Proof.
  split; [exact arrayBufferToBase64_btoa|]. split.
  - intros buffer. rewrite arrayBufferToBase64_btoa. apply btoa_length.
  - intros a b. rewrite !arrayBufferToBase64_btoa. apply btoa_injective.
Qed.

End Base64Facts.

(* ===================================================================== *)
(** * The service in the browser *)
(* ===================================================================== *)

Module ServiceFacts.
Import Js Types Async Script RunFacts AsyncFacts PollFacts Relay GenerateFacts
  ResponseFacts Protocol ProtocolFacts.

Section Service.
Context {platform : Platform} {browser : Browser}.
Variables (w : World) (env : Service.ProcessEnv).

(** The [try] block of [generateProfessionalPrompt], whatever the provider
    answers and whatever the fuel: the calls of the relay's handler, in the
    same order, with a sleep of 10000 ms. *)
Lemma generation_follows d fuel :
  match run (world w) fuel (Service.generation env d) 0 with
  | Done (inr _) _ calls _ =>
      ends_in 10000 BodyRead calls [PreviewAsked; Downloaded] = true
  | Done (inl _) _ calls _ => ends_in 10000 BodyRead calls failing = true
  | OutOfFuel _ calls => ends_in 10000 BodyRead calls any_phase = true
  end.
Proof.
  unfold Service.generation, Service.request_masterPrompts.
  run_go; need_fuel; run_go; [reflexivity|].
  destruct (on_generateContent w (Service.prompts_request d))
    as [e|[[completion|]]]; run_go; cbn [text]; run_go; try reflexivity.
  destruct (JSON_parse_prompts (trim completion)) as [message|[[[|p0 ps]|]]];
    cbn [prompts]; run_go; try reflexivity.
  destruct (basePromptForPreview (p0 :: ps)) as [basePrompt|];
    run_go; try reflexivity.
  destruct (includes IMAGE_OUTPUT_TYPES (outputType d));
    [|destruct (includes VIDEO_OUTPUT_TYPES (outputType d))].
  - unfold image_preview. run_go; need_fuel; run_go; [reflexivity|].
    destruct (on_generateImages w _) as [e|[[[|[[img|]] gs]|]]];
      cbn [generatedImages nth_error image]; run_go; reflexivity.
  - unfold Service.video_preview. run_go; need_fuel; run_go; [reflexivity|].
    destruct (submission w _) as [e|op0]; run_go; [reflexivity|].
    pose proof (poll_follows w 10000 fuel op0 0) as Hpoll.
    destruct (run (world w) fuel (poll_until_done 10000 op0) 0)
      as [r s cs f|s cs]; run_go.
    + assert (Hcs : forall more allowed,
                ends_in 10000 BodyRead
                  (made (generateContent (Service.prompts_request d))
                   :: made (generateVideos (videoGenParams basePrompt d))
                   :: cs ++ more) allowed
                = ends_in 10000 Submitted more allowed).
      { intros more allowed. unfold ends_in. cbn [follows step projT2 made].
        rewrite follows_app, Hpoll. reflexivity. }
      destruct r as [e|operation]; run_go;
        [rewrite <- ?app_assoc; cbn [app]; rewrite <- (app_nil_r cs), Hcs;
         reflexivity|].
      destruct (truthy_opt (downloadLink_of operation)); run_go;
        [|rewrite <- ?app_assoc; cbn [app]; rewrite <- (app_nil_r cs), Hcs;
          reflexivity].
      destruct f as [|f]; run_go;
        [rewrite <- ?app_assoc; cbn [app]; rewrite <- (app_nil_r cs), Hcs;
         reflexivity|].
      destruct (on_fetch w _) as [e|blob]; run_go;
        [rewrite <- ?app_assoc; cbn [app]; rewrite Hcs; reflexivity|].
      destruct (readAsDataURL blob); run_go;
        rewrite <- ?app_assoc; cbn [app]; rewrite Hcs; reflexivity.
    + rewrite <- ?app_assoc. cbn [app].
      unfold ends_in in *. cbn [follows step projT2 made].
      destruct (follows 10000 Submitted cs) as [[]|]; try discriminate Hpoll;
        reflexivity.
  - unfold text_preview. run_go; need_fuel; run_go; [reflexivity|].
    destruct (on_generateContent w (text_request _ _)) as [e|r];
      run_go; reflexivity.
Qed.

(** The [try] block of [analyzePromptQuality]: one call. *)
Lemma analysis_follows promptToAnalyze fuel :
  match run (world w) fuel (Service.analysis promptToAnalyze) 0 with
  | Done (inr _) _ calls _ =>
      ends_in 10000 BodyRead calls [PromptsAsked] = true
  | Done (inl _) _ calls _ => ends_in 10000 BodyRead calls failing = true
  | OutOfFuel _ calls => ends_in 10000 BodyRead calls any_phase = true
  end.
Proof.
  unfold Service.analysis. run_go; need_fuel; run_go; [reflexivity|].
  destruct (on_generateContent w _) as [e|[[completion|]]];
    run_go; cbn [text]; run_go; try reflexivity.
  destruct (JSON_parse (trim completion)); run_go; reflexivity.
Qed.

(** A [try] block whose failure is logged and thrown again as a new
    [Error]. *)
Lemma rethrown {A} (m : js A) label prefix fuel :
  match run (world w) fuel m 0 with
  | Done (inr _) _ calls _ =>
      exists q, follows 10000 BodyRead calls = Some q /\ q <> Logged
  | Done (inl _) _ calls _ => ends_in 10000 BodyRead calls failing = true
  | OutOfFuel _ calls => ends_in 10000 BodyRead calls any_phase = true
  end ->
  match
    run (world w) fuel
      (try_catch (Async.bind m (fun a => ret (inr a)))
         (fun error =>
            ITree.bind (ITree.trigger (console_error label error))
              (fun _ =>
                 Ret (inl (prefix ++ Service.errorMessage_of error)%string))))
      0
  with
  | Done (inr a) s calls spare =>
      run (world w) fuel m 0 = Done (inr a) s calls spare
      /\ filter is_log calls = []
  | Done (inl message) s calls spare =>
      exists error before,
        run (world w) fuel m 0 = Done (inl error) s before (S spare)
        /\ message = (prefix ++ Service.errorMessage_of error)%string
        /\ calls = before ++ [made (console_error label error)]
        /\ filter is_log before = []
  | OutOfFuel _ calls => follows 10000 BodyRead calls <> None
  end.
Proof.
  intros H. rewrite run_try_catch, run_bindJ.
  destruct (run (world w) fuel m 0) as [[e|a] s cs f|s cs]; run_go.
  - destruct (ends_in_follows _ _ _ _ H) as [q [Hq Hin]].
    assert (Hlog : filter is_log cs = []).
    { pose proof (bounded_by 10000 is_log
                    (fun p => match p with Logged => 0 | _ => 1 end)
                    ltac:(budget_steps) cs _ _ Hq) as Hb.
      cbn in Hb. destruct (filter is_log cs); [reflexivity|].
      cbn [In failing] in Hin.
      destruct Hin as [<-|[<-|[<-|[<-|[<-|[]]]]]]; cbn in Hb; lia. }
    destruct f as [|f]; run_go.
    + rewrite Hq. discriminate.
    + exists e, cs. repeat split. exact Hlog.
  - split; [reflexivity|].
    destruct H as [q [Hq Hneq]].
    pose proof (bounded_by 10000 is_log
                  (fun p => match p with Logged => 0 | _ => 1 end)
                  ltac:(budget_steps) cs _ _ Hq) as Hb.
    cbn in Hb. destruct (filter is_log cs); [reflexivity|].
    destruct q; cbn in Hb; try lia. contradiction.
  - destruct (ends_in_follows _ _ _ _ H) as [q [Hq _]]. rewrite Hq.
    discriminate.
Qed.

End Service.

(** X11. The service in the browser never lets a failure through as it
    is: whatever fails inside [generateProfessionalPrompt] or
    [analyzePromptQuality] is logged once, as the last call, and the promise
    rejects with a new error whose message is the method's prefix followed
    by the message of the failure; a promise that resolves has logged
    nothing.  Up to that log the calls follow the order of the relay's
    handler, with a sleep of 10000 ms between two status checks. *)
Theorem browser_service_rethrows_every_failure
    {platform : Platform} {browser : Browser} (w : World)
    (env : Service.ProcessEnv) (d : PromptGenerationRequest)
    (promptToAnalyze : string) fuel :
  match run (world w) fuel (Service.generateProfessionalPrompt env d) 0 with
  | Done (inr response) s calls spare =>
      run (world w) fuel (Service.generation env d) 0
      = Done (inr response) s calls spare
      /\ filter is_log calls = []
  | Done (inl message) s calls spare =>
      exists error before,
        run (world w) fuel (Service.generation env d) 0
        = Done (inl error) s before (S spare)
        /\ message
           = ("Không thể tạo prompt. Lỗi: "
              ++ Service.errorMessage_of error)%string
        /\ calls
           = before
             ++ [made (console_error "Error in generation process:" error)]
        /\ filter is_log before = []
  | OutOfFuel _ calls => follows 10000 BodyRead calls <> None
  end
  /\
  match run (world w) fuel (Service.analyzePromptQuality promptToAnalyze) 0 with
  | Done (inr result) s calls spare =>
      run (world w) fuel (Service.analysis promptToAnalyze) 0
      = Done (inr result) s calls spare
      /\ filter is_log calls = []
  | Done (inl message) s calls spare =>
      exists error before,
        run (world w) fuel (Service.analysis promptToAnalyze) 0
        = Done (inl error) s before (S spare)
        /\ message
           = ("Không thể phân tích prompt. Lỗi: "
              ++ Service.errorMessage_of error)%string
        /\ calls
           = before ++ [made (console_error "Error analyzing prompt:" error)]
        /\ filter is_log before = []
  | OutOfFuel _ calls => follows 10000 BodyRead calls <> None
  end.
Proof.
  split.
  - apply (rethrown w (Service.generation env d)).
    pose proof (generation_follows w env d fuel) as H.
    destruct (run (world w) fuel (Service.generation env d) 0)
      as [[e|a] s cs f|s cs]; try exact H.
    destruct (ends_in_follows _ _ _ _ H) as [q [Hq Hin]].
    exists q. split; [exact Hq|].
    cbn [In] in Hin. destruct Hin as [<-|[<-|[]]]; discriminate.
  - apply (rethrown w (Service.analysis promptToAnalyze)).
    pose proof (analysis_follows w promptToAnalyze fuel) as H.
    destruct (run (world w) fuel (Service.analysis promptToAnalyze) 0)
      as [[e|a] s cs f|s cs]; try exact H.
    destruct (ends_in_follows _ _ _ _ H) as [q [Hq Hin]].
    exists q. split; [exact Hq|].
    cbn [In] in Hin. destruct Hin as [<-|[]]; discriminate.
Qed.

(** X12. The service in the browser polls a video job like the relay, on
    an interval of 10000 ms: when the first [N] reports of the job are not
    done and the next one is, it sleeps and checks [N] times, downloads the
    asset from the link with the key of the environment appended (the word
    [undefined] when the variable is not set: the service has no guard on
    the key), and resolves with the master prompts and the data URL the
    [FileReader] made of the asset. *)
Theorem browser_service_polls_until_done
    {platform : Platform} {browser : Browser} (w : World)
    (env : Service.ProcessEnv) (d : PromptGenerationRequest)
    (completion : string) (masterPrompts : list MasterPrompt)
    (basePrompt : string) (op : nat -> GenerateVideosOperation) (N : nat)
    (link : string) (asset : Blob) (videoDataUrl : string) fuel :
  includes VIDEO_OUTPUT_TYPES d.(outputType) = true ->
  w.(on_generateContent) (Service.prompts_request d)
    = inr {| text := Some completion |} ->
  JSON_parse_prompts (trim completion)
    = inr {| prompts := Some masterPrompts |} ->
  basePromptForPreview masterPrompts = Some basePrompt ->
  (forall i, i <= N ->
     job_report w (videoGenParams basePrompt d) i = inr (op i)) ->
  (forall i, i < N -> not_done (op i) = true) ->
  not_done (op N) = false ->
  downloadLink_of (op N) = Some link ->
  truthy link = true ->
  let url := (link ++ "&key=" ++ interpolate env.(Service.API_KEY))%string in
  w.(on_fetch) url = inr asset ->
  readAsDataURL asset = Some videoDataUrl ->
  let calls :=
    [made (generateContent (Service.prompts_request d));
     made (generateVideos (videoGenParams basePrompt d))]
    ++ polling_rounds 10000 op N ++ [made (fetch url)] in
  run (world w) (2 + (3 * N + (1 + fuel)))
    (Service.generateProfessionalPrompt env d) 0
  = Done (inr {| Service.masterPrompts := masterPrompts;
                 Service.preview :=
                   {| preview_type := Some PreviewVideo;
                      preview_content := Some videoDataUrl |} |})
      N calls fuel
  /\ length (filter is_status_check calls) = N
  /\ length (filter is_sleep calls) = N.
Proof.
  intros Hvideo Hcompletion Hparse Hbase Hreports Hpending Hdone Hlink
    Htruthy url Hfetch Hread calls.
  split.
  - unfold Service.generateProfessionalPrompt, Service.generation,
      Service.request_masterPrompts.
    change (2 + (3 * N + (1 + fuel))) with (S (S (3 * N + (1 + fuel)))).
    run_go. rewrite Hcompletion. run_simpl. cbn [text]. rewrite Hparse.
    cbn [prompts].
    destruct masterPrompts as [|p0 ps]; [discriminate Hbase|].
    run_go. rewrite Hbase, (video_not_image _ Hvideo), Hvideo.
    unfold Service.video_preview. run_go.
    pose proof (Hreports 0 (Nat.le_0_l N)) as Hsubmitted.
    cbn [job_report] in Hsubmitted. rewrite Hsubmitted. run_go.
    rewrite (polled_until_done w 10000 N op 0 (1 + fuel) Hpending).
    + run_go. rewrite Hlink. cbn [truthy_opt interpolate]. rewrite Htruthy.
      change (1 + fuel) with (S fuel). run_go. fold url. rewrite Hfetch.
      run_simpl. rewrite Hread. run_go.
      unfold calls. rewrite <- ?app_assoc. reflexivity.
    + intros i Hi. apply (Hreports (S i)). lia.
    + exact Hdone.
  - unfold calls. rewrite !filter_app, !length_app.
    rewrite status_checks_in_rounds, sleeps_in_rounds. cbn. lia.
Qed.

(** X12, on a sample: the submitted operation and the first status check
    are pending, the second status check is done; the browser has no key.
    *)
Lemma browser_service_polls_until_done_witness :
  let d := Examples.request "Video" None in
  let w := Examples.studio (inl NonError) Examples.bilingual 1
             Examples.finished_operation in
  let op := fun i => if i <? 2 then Examples.pending_operation
                     else Examples.finished_operation in
  let url := "https://files/kite?alt=media&key=undefined"%string in
  let calls :=
    [made (generateContent (@Service.prompts_request d));
     made (generateVideos (videoGenParams
                             "Draw a red kite over the dunes at dawn." d))]
    ++ polling_rounds 10000 op 2 ++ [made (fetch url)] in
  run (world w) (2 + (3 * 2 + (1 + 0)))
    (@Service.generateProfessionalPrompt Examples.engine Samples.browser
       Samples.keyless d) 0
  = Done (inr {| Service.masterPrompts := Examples.bilingual;
                 Service.preview :=
                   {| preview_type := Some PreviewVideo;
                      preview_content :=
                        Some "data:video/mp4;base64,TWFu"%string |} |})
      2 calls 0
  /\ length (filter is_status_check calls) = 2
  /\ length (filter is_sleep calls) = 2.
Proof.
  intros d w op url calls.
  apply (@browser_service_polls_until_done Examples.engine Samples.browser
           w Samples.keyless d (Examples.prompts_text Examples.bilingual)
           Examples.bilingual "Draw a red kite over the dunes at dawn." op 2
           "https://files/kite?alt=media"
           {| blob_type := "video/mp4"; blob_bytes := "Man" |}
           "data:video/mp4;base64,TWFu" 0);
    try reflexivity.
  - intros [|[|[|i]]] Hi; reflexivity || lia.
  - intros [|[|i]] Hi; reflexivity || lia.
Defined.

End ServiceFacts.

(* ===================================================================== *)
(** * From the relay to the form *)
(* ===================================================================== *)

Module ClientFacts.
Import Js Types Async Script RunFacts AsyncFacts Relay ResponseFacts Protocol
  ProtocolFacts.

(** Every response of the relay has status 200, or status 400 or 500 and a
    body [{ error: message }]. *)
Lemma relay_response_shape {platform : Platform} (w : World) (ctx : Context)
    fuel response calls :
  finished (run (world w) fuel (onRequestPost ctx) 0)
    = Some (response, calls) ->
  response.(status) = 200%Z
  \/ exists message,
       response.(body) = error_body message
       /\ (response.(status) = 400%Z \/ response.(status) = 500%Z).
Proof.
  pose proof (onRequestPost_follows w ctx fuel) as H.
  destruct (run (world w) fuel (onRequestPost ctx) 0) as [r s cs f|s cs];
    [|discriminate].
  intros [= <- <-]. destruct H as [p [_ H]].
  destruct p; try contradiction; try (left; exact H).
  - right. destruct H as [_ ->]. eexists. split; [reflexivity|]. right.
    reflexivity.
  - right. rewrite H. eexists. split; [reflexivity|]. left. reflexivity.
  - right. destruct H as [error [before [-> _]]]. eexists.
    split; [reflexivity|]. right. reflexivity.
Qed.

Section Client.
Context {platform : Platform} {browser : Browser}.

(** A response of the relay with status 200 resolves the promise with its
    body, read back. *)
Lemma served_ok network body reason r :
  network body = Some (inr (Client.served reason r)) ->
  r.(status) = 200%Z ->
  Client.postToProxy network body
  = Some (inr (written r.(Relay.body)), []).
Proof.
  intros Hnet Hstatus. unfold Client.postToProxy. rewrite Hnet.
  unfold Client.attempt, Client.served.
  cbn [Client.parsed Client.ok Client.statusText]. rewrite Hstatus.
  reflexivity.
Qed.

(** An error response of the relay rejects the promise with its message,
    or with the status text when the message is empty. *)
Lemma served_error network body reason r message :
  network body = Some (inr (Client.served reason r)) ->
  r.(status) = 400%Z \/ r.(status) = 500%Z ->
  r.(Relay.body) = error_body message ->
  let shown :=
    if truthy message then message
    else ("Server error: " ++ reason r.(status))%string in
  Client.postToProxy network body
  = Some (inl ("Không thể thực hiện yêu cầu. Lỗi: " ++ shown)%string,
          [made (console_error
                   ("Error calling proxy for type " ++ body.(type) ++ ":")
                   (JsError shown))]).
Proof.
  intros Hnet Hstatus Hbody shown. unfold Client.postToProxy. rewrite Hnet.
  unfold Client.attempt, Client.served.
  cbn [Client.parsed Client.ok Client.statusText]. rewrite Hbody.
  assert (Hok : ((200 <=? status r) && (status r <=? 299))%Z = false)
    by (destruct Hstatus as [-> | ->]; reflexivity).
  rewrite Hok. cbn [negb error_body written map get assoc]. cbn [String.eqb Ascii.eqb Bool.eqb].
  cbn [Client.truthy_json]. unfold shown.
  destruct (truthy message); reflexivity.
Qed.

(** A response with status 200 comes from a relay that holds a key. *)
Lemma status_200_has_key (w : World) (ctx : Context) fuel response calls :
  finished (run (world w) fuel (onRequestPost ctx) 0)
    = Some (response, calls) ->
  response.(status) = 200%Z ->
  exists key, ctx.(env).(API_KEY) = Some key /\ truthy key = true.
Proof.
  unfold onRequestPost.
  destruct (API_KEY (env ctx)) as [key|] eqn:Hkey; cbn [truthy_opt].
  - destruct (truthy key) eqn:Htruthy; cbn [negb].
    + intros _ _. exists key. split; [reflexivity|exact Htruthy].
    + rewrite run_ret. intros [= <- <-] Hstatus. discriminate Hstatus.
  - cbn [negb]. rewrite run_ret. intros [= <- <-] Hstatus.
    discriminate Hstatus.
Qed.

End Client.

(** What [postToProxy] makes of the answer of the relay. *)
Lemma proxy_outcome
    {platform : Platform} {browser : Browser} (w : World) (ctx : Context)
    (body : ProxyRequestBody) (answer : option Response)
    (network : Client.Network) (reason : Z -> string) :
  Client.relay_answers w ctx body answer ->
  network body = option_map (fun r => inr (Client.served reason r)) answer ->
  match answer with
  | None => Client.postToProxy network body = None
  | Some r =>
      (r.(status) = 200%Z
       /\ Client.postToProxy network body
          = Some (inr (written r.(Relay.body)), [])
       /\ (writable r.(Relay.body) = true ->
           written r.(Relay.body) = r.(Relay.body)))
      \/ (exists message,
            r.(status) <> 200%Z
            /\ r.(Relay.body) = error_body message
            /\ let shown :=
                 if truthy message then message
                 else ("Server error: " ++ reason r.(status))%string in
               Client.postToProxy network body
               = Some (inl ("Không thể thực hiện yêu cầu. Lỗi: "
                            ++ shown)%string,
                       [made (console_error
                                ("Error calling proxy for type "
                                 ++ body.(type) ++ ":")
                                (JsError shown))]))
  end.
Proof.
  intros Hrelay Hnet. destruct answer as [r|]; cbn [option_map] in Hnet.
  - destruct Hrelay as [fuel [calls Hrun]].
    destruct (relay_response_shape _ ctx fuel r calls Hrun)
      as [Hstatus|[message [Hbody Hstatus]]].
    + left. split; [exact Hstatus|]. split.
      * apply (served_ok network body reason r Hnet Hstatus).
      * apply ValueFacts.written_writable.
    + right. exists message.
      split; [destruct Hstatus as [-> | ->]; discriminate|].
      split; [exact Hbody|].
      apply (served_error network body reason r message Hnet Hstatus Hbody).
  - unfold Client.postToProxy. rewrite Hnet. reflexivity.
Qed.

(** X13. The caller of the relay gets what the relay answered.  When the
    relay returns a response with status 200, [postToProxy] resolves with
    the body of the response as it is read back from its text, which is the
    body itself unless it holds a number that JSON cannot write, and logs
    nothing.  Every other response of the relay has a body
    [{ error: message }], and [postToProxy] logs once and rejects with the
    prefix of the client followed by that message, or by the status text
    when the message is empty.  When the relay never returns, the promise
    never settles: the client sets no time limit. *)
Theorem relay_outcome_reaches_the_caller
    {platform : Platform} {browser : Browser} (w : World) (ctx : Context)
    (body : ProxyRequestBody) (answer : option Response)
    (network : Client.Network) (reason : Z -> string) :
  Client.relay_answers w ctx body answer ->
  network body = option_map (fun r => inr (Client.served reason r)) answer ->
  match answer with
  | None => Client.postToProxy network body = None
  | Some r =>
      (r.(status) = 200%Z
       /\ Client.postToProxy network body
          = Some (inr (written r.(Relay.body)), [])
       /\ (writable r.(Relay.body) = true ->
           written r.(Relay.body) = r.(Relay.body)))
      \/ (exists message,
            r.(status) <> 200%Z
            /\ r.(Relay.body) = error_body message
            /\ let shown :=
                 if truthy message then message
                 else ("Server error: " ++ reason r.(status))%string in
               Client.postToProxy network body
               = Some (inl ("Không thể thực hiện yêu cầu. Lỗi: "
                            ++ shown)%string,
                       [made (console_error
                                ("Error calling proxy for type "
                                 ++ body.(type) ++ ":")
                                (JsError shown))]))
  end.
Proof.
  intros Hrelay Hnet. destruct answer as [r|]; cbn [option_map] in Hnet.
  - destruct Hrelay as [fuel [calls Hrun]].
    destruct (relay_response_shape _ ctx fuel r calls Hrun)
      as [Hstatus|[message [Hbody Hstatus]]].
    + left. split; [exact Hstatus|]. split.
      * apply (served_ok network body reason r Hnet Hstatus).
      * apply ValueFacts.written_writable.
    + right. exists message.
      split; [destruct Hstatus as [-> | ->]; discriminate|].
      split; [exact Hbody|].
      apply (served_error network body reason r message Hnet Hstatus Hbody).
  - unfold Client.postToProxy. rewrite Hnet. reflexivity.
Qed.

(** X13, on a sample: the relay has no key. *)
Lemma relay_outcome_reaches_the_caller_witness :
  let body := generate_body (Examples.request "Image" None) in
  let r :=
    jsonResponse (error_body "API_KEY is not configured on the server.") 500 in
  let network : Client.Network :=
    fun _ => Some (inr (Client.served (fun _ => ""%string) r)) in
  @Client.postToProxy Examples.engine Samples.browser network body
  = Some (inl "Không thể thực hiện yêu cầu. Lỗi: API_KEY is not configured on the server."%string,
          [made (console_error "Error calling proxy for type generate:"
                   (JsError "API_KEY is not configured on the server."))]).
Proof.
  intros body r network.
  destruct (@relay_outcome_reaches_the_caller Examples.engine Samples.browser
              (Examples.studio (inl NonError) Examples.bilingual 0
                 Examples.finished_operation)
              Examples.unconfigured body (Some r) network
              (fun _ => ""%string))
    as [[Hstatus _]|[message [_ [Hbody H]]]].
  - exists 0, []. reflexivity.
  - reflexivity.
  - discriminate Hstatus.
  - injection Hbody as <-. exact H.
Defined.

End ClientFacts.

(* ===================================================================== *)
(** * The form *)
(* ===================================================================== *)

Module FormFacts.
Import Js Types Async Script RunFacts AsyncFacts Relay ResponseFacts
  ClientFacts.

(** The body of a successful generation holds strings only: it is read
    back as it is. *)
Lemma generation_json_written masterPrompts preview :
  written (generation_json masterPrompts preview)
  = generation_json masterPrompts preview.
Proof.
  apply ValueFacts.written_writable. unfold generation_json.
  cbn [writable forallb]. rewrite andb_true_r. apply andb_true_iff. split.
  - induction masterPrompts as [|p ps IH]; [reflexivity|]. exact IH.
  - destruct preview as [[[]|] [content|]]; reflexivity.
Qed.

Section Form.
Context {platform : Platform} {browser : Browser}.

(** Setting the generation state twice is setting it once. *)
Lemma set_generationState_twice g g' (s : Component.State) :
  Component.set_generationState g (Component.set_generationState g' s)
  = Component.set_generationState g s.
Proof. reflexivity. Qed.

Lemma set_analysisState_twice a a' (s : Component.State) :
  Component.set_analysisState a (Component.set_analysisState a' s)
  = Component.set_analysisState a s.
Proof. reflexivity. Qed.

(** With a language selected, [generatePrompt] awaits the service on the
    request of the form. *)
Lemma generatePrompt_awaits (s : Component.State) :
  Component.selectedLanguages s <> [] ->
  Component.generatePrompt_begin s
  = (Component.set_generationState
       {| Component.masterPrompts :=
            s.(Component.generationState).(Component.masterPrompts);
          Component.preview :=
            s.(Component.generationState).(Component.preview);
          Component.isLoading := true;
          Component.error := None;
          Component.loadingMessage :=
            if Component.isMediaOutput s
            then "Đang tạo media... Quá trình này có thể mất vài phút."%string
            else "AI đang sáng tạo prompt và kết quả..."%string |} s,
     Some (Component.generation_request s (Component.selectedLanguages s))).
Proof.
  intros Hselected. unfold Component.generatePrompt_begin.
  destruct (Component.selectedLanguages s); [contradiction|]. reflexivity.
Qed.

End Form.

(** X14. From the form to the provider and back.  The form has a language
    selected and [generatePrompt] runs against the relay, nothing else
    happening meanwhile.  When the relay answers with status 200, the
    generation state becomes the master prompts and the preview of the
    response, not loading, without error.  When it answers with another
    status, the state keeps the master prompts and the preview it had, stops
    loading and shows the client's prefix followed by the relay's message.
    When the relay never answers, as for a video job that never reports
    done, the state stays loading.  In each case every other signal of the
    form is left as it was. *)
Theorem relay_outcome_reaches_the_form
    {platform : Platform} {browser : Browser} (s : Component.State)
    (w : World) (ctx : Context) (answer : option Response)
    (network : Client.Network) (reason : Z -> string) :
  Component.selectedLanguages s <> [] ->
  let request :=
    Component.generation_request s (Component.selectedLanguages s) in
  Client.relay_answers w ctx (generate_body request) answer ->
  network (generate_body request)
    = option_map (fun r => inr (Client.served reason r)) answer ->
  let service :=
    fun d => option_map fst (Client.generateProfessionalPrompt network d) in
  let before := s.(Component.generationState) in
  let loadingMessage :=
    if Component.isMediaOutput s
    then "Đang tạo media... Quá trình này có thể mất vài phút."%string
    else "AI đang sáng tạo prompt và kết quả..."%string in
  match answer with
  | None =>
      Component.generatePrompt service s
      = Component.set_generationState
          {| Component.masterPrompts := before.(Component.masterPrompts);
             Component.preview := before.(Component.preview);
             Component.isLoading := true;
             Component.error := None;
             Component.loadingMessage := loadingMessage |} s
  | Some r =>
      (exists masterPrompts preview,
         r = jsonResponse (generation_json masterPrompts preview) 200
         /\ Component.generatePrompt service s
            = Component.set_generationState
                {| Component.masterPrompts :=
                     Some (JArr (map masterPrompt_json masterPrompts));
                   Component.preview := Some (preview_json preview);
                   Component.isLoading := false;
                   Component.error := None;
                   Component.loadingMessage := "" |} s)
      \/ (exists message,
            r.(status) <> 200%Z
            /\ r.(Relay.body) = error_body message
            /\ Component.generatePrompt service s
               = Component.set_generationState
                   {| Component.masterPrompts :=
                        before.(Component.masterPrompts);
                      Component.preview := before.(Component.preview);
                      Component.isLoading := false;
                      Component.error :=
                        Some ("Không thể thực hiện yêu cầu. Lỗi: "
                              ++ (if truthy message then message
                                  else "Server error: "
                                       ++ reason r.(status)))%string;
                      Component.loadingMessage := loadingMessage |} s)
  end.
Proof.
  intros Hselected request Hrelay Hnet service before loadingMessage.
  pose proof (proxy_outcome w ctx
                (generate_body request) answer network reason Hrelay Hnet)
    as Hcaller.
  unfold Component.generatePrompt.
  rewrite (generatePrompt_awaits s Hselected). fold request.
  unfold service, Client.generateProfessionalPrompt.
  change {| type := "generate"; payload := GeneratePayload request |}
    with (generate_body request).
  destruct answer as [r|].
  - destruct Hcaller as [[Hstatus [-> _]]|[message [Hstatus [Hbody ->]]]];
      cbn [option_map fst].
    + left. destruct Hrelay as [fuel [calls Hrun]].
      destruct (status_200_has_key _ ctx fuel r calls Hrun Hstatus)
        as [key [Hkey Htruthy]].
      destruct (generate_success (with_body w (inr (generate_body request)))
                  key request ctx Hkey Htruthy eq_refl fuel r calls Hrun
                  Hstatus)
        as [completion [masterPrompts [basePrompt [preview [rest H]]]]].
      destruct H as [_ [_ [_ [_ [Hr _]]]]].
      exists masterPrompts, preview. split; [exact Hr|].
      rewrite Hr. cbn [body jsonResponse].
      rewrite generation_json_written. reflexivity.
    + right. exists message. split; [exact Hstatus|]. split; [exact Hbody|].
      reflexivity.
  - rewrite Hcaller. reflexivity.
Qed.

(** X14, on a sample: the form as it is created, a relay without key. *)
Lemma relay_outcome_reaches_the_form_witness :
  let s := Component.initial in
  let r :=
    jsonResponse (error_body "API_KEY is not configured on the server.") 500 in
  let network : Client.Network :=
    fun _ => Some (inr (Client.served (fun _ => ""%string) r)) in
  let service :=
    fun d =>
      option_map fst
        (@Client.generateProfessionalPrompt Examples.engine Samples.browser
           network d) in
  @Component.generatePrompt Examples.engine Samples.browser service s
  = Component.set_generationState
      {| Component.masterPrompts := Some (JArr []);
         Component.preview :=
           Some (JObj [("type", JNull); ("content", JStr "")]);
         Component.isLoading := false;
         Component.error :=
           Some "Không thể thực hiện yêu cầu. Lỗi: API_KEY is not configured on the server."%string;
         Component.loadingMessage :=
           "Đang tạo media... Quá trình này có thể mất vài phút." |} s.
Proof.
  intros s r network service.
  destruct (@relay_outcome_reaches_the_form Examples.engine Samples.browser
              s
              (Examples.studio (inl NonError) Examples.bilingual 0
                 Examples.finished_operation)
              Examples.unconfigured (Some r) network (fun _ => ""%string))
    as [[masterPrompts [preview [Hr _]]]|[message [_ [Hbody H]]]].
  - discriminate.
  - exists 0, []. reflexivity.
  - reflexivity.
  - discriminate Hr.
  - injection Hbody as <-. exact H.
Defined.

(** X15. [generatePrompt] sends a request only when a language is
    selected.  With none, it asks nothing of the service: it sets the error
    of the generation state and leaves the rest of that state, the loading
    flag included, and every other signal as they were.  A request that is
    sent names the selected languages, at least one, in the order of the
    keys of [masterLanguages]: the keys whose value is [true]. *)
Theorem generation_needs_a_language
    {platform : Platform} {browser : Browser} (s : Component.State) :
  (Component.selectedLanguages s = [] ->
   forall service,
     Component.generatePrompt service s
     = Component.set_generationState
         {| Component.masterPrompts :=
              s.(Component.generationState).(Component.masterPrompts);
            Component.preview :=
              s.(Component.generationState).(Component.preview);
            Component.isLoading :=
              s.(Component.generationState).(Component.isLoading);
            Component.error :=
              Some "Vui lòng chọn ít nhất một ngôn ngữ cho Prompt Master."%string;
            Component.loadingMessage :=
              s.(Component.generationState).(Component.loadingMessage) |} s)
  /\ (forall request,
        snd (Component.generatePrompt_begin s) = Some request ->
        request.(masterPromptLanguages) <> []
        /\ request.(masterPromptLanguages) = Component.selectedLanguages s
        /\ forall lang,
             In lang request.(masterPromptLanguages)
             <-> Component.lookup lang s.(Component.masterLanguages)
                 = Some true).
Proof.
  split.
  - intros Hnone service. unfold Component.generatePrompt,
      Component.generatePrompt_begin. rewrite Hnone. reflexivity.
  - intros request. unfold Component.generatePrompt_begin.
    destruct (Component.selectedLanguages s) as [|l ls] eqn:Hselected;
      cbn [length Nat.eqb snd]; [discriminate|].
    intros [= <-]. cbn [masterPromptLanguages Component.generation_request].
    split; [discriminate|]. split; [reflexivity|].
    intros lang. rewrite <- Hselected. unfold Component.selectedLanguages.
    rewrite filter_In. unfold Component.property_truthy, Component.Object_keys.
    generalize (Component.masterLanguages s) as o. intros o. split.
    + intros [Hin Htrue].
      destruct (Component.lookup lang o) as [b|] eqn:Hlookup;
        [rewrite Htrue; reflexivity|].
      exfalso. clear Htrue. induction o as [|[k v] o IH]; [exact Hin|].
      cbn [Component.lookup] in Hlookup. cbn [map fst In] in Hin.
      destruct (String.eqb_spec k lang) as [->|Hne]; [discriminate|].
      destruct Hin as [->|Hin]; [contradiction|]. apply IH; assumption.
    + intros Hlookup. rewrite Hlookup. split; [|reflexivity].
      induction o as [|[k v] o IH]; [discriminate|].
      cbn [Component.lookup] in Hlookup. cbn [map fst In].
      destruct (String.eqb_spec k lang) as [->|Hne]; [left; reflexivity|].
      right. apply IH, Hlookup.
Qed.

End FormFacts.

(* ===================================================================== *)
(** * The selection of languages *)
(* ===================================================================== *)

Module LanguageFacts.
Import Js.

Section Properties.
Variable A : Type.
Implicit Types (o : list (string * A)) (k l : string) (v : A).

Lemma lookup_app k o o' :
  Component.lookup k (o ++ o')
  = match Component.lookup k o with
    | Some v => Some v
    | None => Component.lookup k o'
    end.
Proof.
  induction o as [|[k' v'] o IH]; [reflexivity|].
  cbn [app Component.lookup]. destruct (k' =? k)%string; [reflexivity|].
  exact IH.
Qed.

Lemma lookup_key k o :
  In k (map fst o) <-> Component.lookup k o <> None.
Proof.
  induction o as [|[k' v'] o IH]; cbn [map fst In Component.lookup].
  - split; [contradiction|]. intros H. apply H. reflexivity.
  - destruct (String.eqb_spec k' k) as [->|Hne].
    + split; [discriminate|]. intros _. left. reflexivity.
    + rewrite <- IH. split; [|tauto]. intros [E|H]; [contradiction|exact H].
Qed.

(** A property that exists is replaced where it is. *)
Lemma replace_property_spec k v o :
  Component.lookup k o <> None ->
  exists before w after,
    o = before ++ (k, w) :: after
    /\ Component.lookup k before = None
    /\ Component.replace_property k v o = before ++ (k, v) :: after.
Proof.
  induction o as [|[k' v'] o IH]; cbn [Component.lookup].
  - intros H. exfalso. apply H. reflexivity.
  - cbn [Component.replace_property].
    destruct (String.eqb_spec k' k) as [->|Hne].
    + intros _. exists [], v', o. repeat split.
    + intros H. destruct (IH H) as [before [w [after [-> [Hb Hr]]]]].
      exists ((k', v') :: before), w, after. split; [reflexivity|].
      split.
      * cbn [Component.lookup].
        destruct (String.eqb_spec k' k); [contradiction|exact Hb].
      * rewrite Hr. reflexivity.
Qed.

(** A new property is put between two parts of the object. *)
Lemma insert_index_spec n k v o :
  exists before after,
    o = before ++ after
    /\ Component.insert_index n k v o = before ++ (k, v) :: after.
Proof.
  induction o as [|[k' v'] o [before [after [Ho Hi]]]].
  - exists [], []. split; reflexivity.
  - cbn [Component.insert_index].
    destruct (Component.array_index k') as [n'|].
    + destruct (n' <? n)%N.
      * exists ((k', v') :: before), after. rewrite Hi.
        split; [rewrite Ho at 1|]; reflexivity.
      * exists [], ((k', v') :: o). split; reflexivity.
    + exists [], ((k', v') :: o). split; reflexivity.
Qed.

(** [{ ...o, [k]: v }] holds [v] at [k], what [o] holds elsewhere, and the
    keys of [o] with [k] among them. *)
Lemma with_property_spec k v o :
  exists before after,
    Component.with_property k v o = before ++ (k, v) :: after
    /\ Component.lookup k before = None
    /\ (forall l, l <> k ->
          Component.lookup l (before ++ after) = Component.lookup l o)
    /\ filter (fun l => negb (l =? k)%string) (map fst (before ++ after))
       = filter (fun l => negb (l =? k)%string) (map fst o).
Proof.
  unfold Component.with_property.
  destruct (Component.lookup k o) as [w|] eqn:Hlookup.
  - destruct (replace_property_spec k v o) as [before [w' [after [-> [Hb ->]]]]];
      [rewrite Hlookup; discriminate|].
    exists before, after. split; [reflexivity|]. split; [exact Hb|]. split.
    + intros l Hl. rewrite !lookup_app. cbn [Component.lookup].
      destruct (String.eqb_spec k l) as [->|_]; [contradiction|reflexivity].
    + rewrite !map_app, !filter_app. cbn [map fst filter].
      rewrite String.eqb_refl. reflexivity.
  - assert (Hinsert : exists before after,
              o = before ++ after
              /\ match Component.array_index k with
                 | Some n => Component.insert_index n k v o
                 | None => o ++ [(k, v)]
                 end = before ++ (k, v) :: after).
    { destruct (Component.array_index k) as [n|];
        [apply insert_index_spec|].
      exists o, []. split; [rewrite app_nil_r|]; reflexivity. }
    destruct Hinsert as [before [after [-> ->]]].
    exists before, after. split; [reflexivity|].
    rewrite lookup_app in Hlookup.
    destruct (Component.lookup k before); [discriminate|].
    repeat split; reflexivity.
Qed.

Lemma replace_property_first k v w o o' :
  Component.lookup k o = None ->
  Component.replace_property k v (o ++ (k, w) :: o') = o ++ (k, v) :: o'.
Proof.
  induction o as [|[k' v'] o IH]; cbn [app Component.lookup
                                        Component.replace_property].
  - intros _. rewrite String.eqb_refl. reflexivity.
  - destruct (k' =? k)%string; [discriminate|].
    intros H. rewrite (IH H). reflexivity.
Qed.

Lemma replace_property_back k v w o :
  Component.lookup k o = Some w ->
  Component.replace_property k w (Component.replace_property k v o) = o.
Proof.
  induction o as [|[k' v'] o IH]; cbn [Component.lookup
                                        Component.replace_property];
    [discriminate|].
  destruct (String.eqb_spec k' k) as [->|Hne].
  - intros [= ->]. cbn [Component.replace_property].
    rewrite String.eqb_refl. reflexivity.
  - intros H. cbn [Component.replace_property].
    destruct (String.eqb_spec k' k); [contradiction|]. rewrite (IH H).
    reflexivity.
Qed.

End Properties.

Section Languages.
Context {platform : Platform} {browser : Browser}.

(** The selection is a matter of the languages alone. *)
Lemma selected_of_languages (s : Component.State) :
  Component.selectedLanguages s
  = filter (fun lang =>
              Component.property_truthy lang s.(Component.masterLanguages))
      (map fst s.(Component.masterLanguages)).
Proof. reflexivity. Qed.

Lemma selected_iff (s : Component.State) l :
  In l (Component.selectedLanguages s)
  <-> Component.lookup l s.(Component.masterLanguages) = Some true.
Proof.
  rewrite selected_of_languages, filter_In, lookup_key.
  unfold Component.property_truthy.
  destruct (Component.lookup l (Component.masterLanguages s)) as [[]|];
    intuition congruence.
Qed.

End Languages.

(** X16. [toggleMasterLanguage(lang)], for a name that objects do not
    inherit: the language is selected afterwards exactly when it was not
    selected before, whether or not it was a key of [masterLanguages], and
    the selection of every other language is as it was; toggling the same
    language twice gives back the selection, in the same order. *)
Theorem toggling_a_language
    {platform : Platform} {browser : Browser} (lang : string)
    (s : Component.State) :
  inherited_truthy lang = false ->
  (forall l,
     In l (Component.selectedLanguages (Component.toggleMasterLanguage lang s))
     <-> (l = lang /\ ~ In lang (Component.selectedLanguages s))
         \/ (l <> lang /\ In l (Component.selectedLanguages s)))
  /\ Component.selectedLanguages
       (Component.toggleMasterLanguage lang
          (Component.toggleMasterLanguage lang s))
     = Component.selectedLanguages s.
Proof.
  intros Hinherited. split.
  - intros l. rewrite !selected_iff.
    unfold Component.toggleMasterLanguage.
    cbn [Component.masterLanguages Component.set_masterLanguages].
    set (m := Component.masterLanguages s).
    destruct (with_property_spec bool lang
                (negb (Component.property_truthy lang m)) m)
      as [before [after [-> [Hb [Hother _]]]]].
    destruct (String.eqb_spec lang l) as [<-|Hne].
    + rewrite lookup_app, Hb. cbn [Component.lookup].
      rewrite String.eqb_refl. unfold Component.property_truthy.
      destruct (Component.lookup lang m) as [[]|]; rewrite ?Hinherited;
        cbn [negb]; intuition congruence.
    + rewrite <- (Hother l) by congruence. rewrite !lookup_app.
      cbn [Component.lookup].
      destruct (String.eqb_spec lang l) as [E|_]; [contradiction|].
      destruct (Component.lookup l before); intuition congruence.
  - rewrite !selected_of_languages. unfold Component.toggleMasterLanguage.
    cbn [Component.masterLanguages Component.set_masterLanguages].
    set (m := Component.masterLanguages s).
    set (m1 := Component.with_property lang
                 (negb (Component.property_truthy lang m)) m).
    destruct (Component.lookup lang m) as [b|] eqn:Hlookup.
    + assert (Hb : Component.property_truthy lang m = b)
        by (unfold Component.property_truthy; rewrite Hlookup; reflexivity).
      assert (Hm1 : m1 = Component.replace_property lang (negb b) m).
      { unfold m1, Component.with_property. rewrite Hlookup, Hb.
        reflexivity. }
      destruct (replace_property_spec bool lang (negb b) m)
        as [before [w [after [Hm [Hbefore Hr]]]]];
        [rewrite Hlookup; discriminate|].
      assert (Hlookup1 : Component.lookup lang m1 = Some (negb b)).
      { rewrite Hm1, Hr, lookup_app, Hbefore. cbn [Component.lookup].
        rewrite String.eqb_refl. reflexivity. }
      assert (Hm2 : Component.with_property lang
                      (negb (Component.property_truthy lang m1)) m1 = m).
      { unfold Component.with_property, Component.property_truthy.
        rewrite Hlookup1, negb_involutive, Hm1.
        apply replace_property_back. exact Hlookup. }
      rewrite Hm2. reflexivity.
    + assert (Hb : Component.property_truthy lang m = false)
        by (unfold Component.property_truthy; rewrite Hlookup;
            exact Hinherited).
      assert (Hinsert : exists before after,
                m = before ++ after
                /\ m1 = before ++ (lang, true) :: after).
      { unfold m1, Component.with_property. rewrite Hlookup, Hb. cbn [negb].
        destruct (Component.array_index lang) as [n|];
          [apply insert_index_spec|].
        exists m, []. split; [rewrite app_nil_r|]; reflexivity. }
      destruct Hinsert as [before [after [Hm Hm1]]].
      assert (Hbefore : Component.lookup lang before = None).
      { rewrite Hm, lookup_app in Hlookup.
        destruct (Component.lookup lang before); [discriminate|reflexivity]. }
      assert (Hlookup1 : Component.lookup lang m1 = Some true).
      { rewrite Hm1, lookup_app, Hbefore. cbn [Component.lookup].
        rewrite String.eqb_refl. reflexivity. }
      assert (Hm2 : Component.with_property lang
                      (negb (Component.property_truthy lang m1)) m1
                    = before ++ (lang, false) :: after).
      { unfold Component.with_property, Component.property_truthy.
        rewrite Hlookup1. cbn [negb]. rewrite Hm1.
        apply replace_property_first. exact Hbefore. }
      rewrite Hm2, Hm, !map_app, !filter_app. cbn [map fst filter].
      assert (Hdropped : Component.property_truthy lang
                           (before ++ (lang, false) :: after) = false).
      { unfold Component.property_truthy. rewrite lookup_app, Hbefore.
        cbn [Component.lookup]. rewrite String.eqb_refl. reflexivity. }
      rewrite Hdropped.
      assert (Hsame : forall part : list (string * bool),
                (forall l, In l (map fst part) -> l <> lang) ->
                filter (fun l =>
                          Component.property_truthy l
                            (before ++ (lang, false) :: after))
                  (map fst part)
                = filter (fun l =>
                            Component.property_truthy l (before ++ after))
                    (map fst part)).
      { intros part Hpart. apply filter_ext_in. intros l Hl.
        unfold Component.property_truthy.
        rewrite !lookup_app. cbn [Component.lookup].
        destruct (String.eqb_spec lang l) as [<-|_];
          [destruct (Hpart lang Hl eq_refl)|reflexivity]. }
      assert (Hkeys : forall l, In l (map fst m) -> l <> lang).
      { intros l Hl ->. apply lookup_key in Hl. contradiction. }
      rewrite Hm, map_app in Hkeys.
      rewrite !Hsame; [reflexivity| |];
        intros l Hl; apply Hkeys, in_or_app; auto.
Qed.

(** X16, on a sample: French, in the form as it is created. *)
Lemma toggling_a_language_witness :
  (forall l,
     In l (@Component.selectedLanguages Samples.browser
             (@Component.toggleMasterLanguage Samples.browser "French"
                Component.initial))
     <-> (l = "French"%string
          /\ ~ In "French"%string
                 (@Component.selectedLanguages Samples.browser
                    Component.initial))
         \/ (l <> "French"%string
             /\ In l (@Component.selectedLanguages Samples.browser
                        Component.initial)))
  /\ @Component.selectedLanguages Samples.browser
       (@Component.toggleMasterLanguage Samples.browser "French"
          (@Component.toggleMasterLanguage Samples.browser "French"
             Component.initial))
     = @Component.selectedLanguages Samples.browser Component.initial.
Proof.
  apply (@toggling_a_language Examples.engine Samples.browser "French"
           Component.initial).
  reflexivity.
Defined.

End LanguageFacts.

(* ===================================================================== *)
(** * The analysis tab, the loading message and the project file *)
(* ===================================================================== *)

Module TabFacts.
Import Js Types Async Script RunFacts AsyncFacts Relay ResponseFacts
  ClientFacts FormFacts.

(** X17. From the analysis tab to the provider and back.  A prompt that is
    blank once trimmed is not sent: the error of the analysis state is set
    and its result and loading flag stay.  A prompt that is not blank is
    sent as it is, untrimmed; when the relay answers with status 200 the
    result is the body of the response as it is read back from its text,
    which is the body itself unless it holds a number that JSON cannot
    write; when it answers with another status the result is [null], the
    result of an earlier analysis being lost, and the error is the client's
    prefix followed by the relay's message; when the relay never answers
    the state stays loading.  The signals of the other tab are left as they
    were. *)
Theorem relay_outcome_reaches_the_analysis_tab
    {platform : Platform} {browser : Browser} (s : Component.State) :
  (truthy (trim s.(Component.promptToAnalyze)) = false ->
   forall service,
     Component.analyzePrompt service s
     = Component.set_analysisState
         {| Component.result :=
              s.(Component.analysisState).(Component.result);
            Component.analysis_isLoading :=
              s.(Component.analysisState).(Component.analysis_isLoading);
            Component.analysis_error :=
              Some "Vui lòng nhập một prompt để phân tích."%string |} s)
  /\ (truthy (trim s.(Component.promptToAnalyze)) = true ->
      forall (w : World) (ctx : Context) (answer : option Response)
             (network : Client.Network) (reason : Z -> string),
        let body :=
          {| type := "analyze";
             payload := AnalyzePayload s.(Component.promptToAnalyze) |} in
        Client.relay_answers w ctx body answer ->
        network body
          = option_map (fun r => inr (Client.served reason r)) answer ->
        let service :=
          fun p => option_map fst (Client.analyzePromptQuality network p) in
        match answer with
        | None =>
            Component.analyzePrompt service s
            = Component.set_analysisState
                {| Component.result := JNull;
                   Component.analysis_isLoading := true;
                   Component.analysis_error := None |} s
        | Some r =>
            (r.(status) = 200%Z
             /\ Component.analyzePrompt service s
                = Component.set_analysisState
                    {| Component.result := written r.(Relay.body);
                       Component.analysis_isLoading := false;
                       Component.analysis_error := None |} s
             /\ (writable r.(Relay.body) = true ->
                 written r.(Relay.body) = r.(Relay.body)))
            \/ (exists message,
                  r.(status) <> 200%Z
                  /\ r.(Relay.body) = error_body message
                  /\ Component.analyzePrompt service s
                     = Component.set_analysisState
                         {| Component.result := JNull;
                            Component.analysis_isLoading := false;
                            Component.analysis_error :=
                              Some ("Không thể thực hiện yêu cầu. Lỗi: "
                                    ++ (if truthy message then message
                                        else "Server error: "
                                             ++ reason r.(status)))%string
                         |} s)
        end).
Proof.
  split.
  - intros Hblank service. unfold Component.analyzePrompt,
      Component.analyzePrompt_begin. rewrite Hblank. reflexivity.
  - intros Hfilled w ctx answer network reason body Hrelay Hnet service.
    pose proof (proxy_outcome w ctx body answer network reason Hrelay Hnet)
      as Hcaller.
    unfold Component.analyzePrompt, Component.analyzePrompt_begin.
    rewrite Hfilled. cbn [negb].
    unfold service, Client.analyzePromptQuality. fold body.
    destruct answer as [r|].
    + destruct Hcaller as [[Hstatus [-> Hsame]]|[message [Hstatus [Hbody ->]]]];
        cbn [option_map fst].
      * left. split; [exact Hstatus|]. split; [reflexivity|exact Hsame].
      * right. exists message. split; [exact Hstatus|].
        split; [exact Hbody|]. reflexivity.
    + rewrite Hcaller. reflexivity.
Qed.

(** X17, on a sample: a prompt is analysed by a relay that holds a key. *)
Lemma relay_outcome_reaches_the_analysis_tab_witness :
  let r := jsonResponse Samples.analysis_document 200 in
  let network : Client.Network :=
    fun _ => Some (inr (Client.served (fun _ => ""%string) r)) in
  let service :=
    fun p =>
      option_map fst
        (@Client.analyzePromptQuality Samples.engine Samples.browser
           network p) in
  @Component.analyzePrompt Samples.engine service Samples.analysing
  = Component.set_analysisState
      {| Component.result := Samples.analysis_document;
         Component.analysis_isLoading := false;
         Component.analysis_error := None |} Samples.analysing.
Proof.
  intros r network service.
  destruct (@relay_outcome_reaches_the_analysis_tab Samples.engine
              Samples.browser Samples.analysing) as [_ Hfilled].
  destruct (Hfilled eq_refl (Samples.critic (inl NonError))
              Examples.configured (Some r) network (fun _ => ""%string))
    as [[_ [H _]]|[message [Hstatus _]]].
  - exists 2. eexists. reflexivity.
  - reflexivity.
  - exact H.
  - exfalso. apply Hstatus. reflexivity.
Defined.

(** X18. The form announces the generation of media exactly when the relay
    will take a media pathway, for every output type the form offers; for
    any output type, when the form announces media the relay does not take
    the text pathway. *)
Theorem loading_message_matches_the_pathway :
  (forall s : Component.State,
     Component.isMediaOutput s = true ->
     pathway_of s.(Component.outputType) <> TextPathway)
  /\ (forall (s : Component.State),
        In s.(Component.outputType) Component.outputTypes ->
        Component.isMediaOutput s = true
        <-> pathway_of s.(Component.outputType) <> TextPathway).
Proof.
  split.
  - intros s. unfold Component.isMediaOutput, includes. cbn [existsb].
    rewrite orb_false_r. intros H. apply orb_true_iff in H.
    destruct H as [H|H]; apply String.eqb_eq in H; rewrite H; discriminate.
  - intros s. unfold Component.isMediaOutput.
    generalize (Component.outputType s) as o. intros o Hin.
    cbn [Component.outputTypes In] in Hin.
    repeat (destruct Hin as [<-|Hin];
            [cbv; split; [discriminate || (intros _; discriminate)
                         |intros H; try reflexivity; exfalso; apply H;
                          reflexivity]|]).
    contradiction.
Qed.

End TabFacts.

(* ===================================================================== *)
(** * The project file: what an import does not check *)
(* ===================================================================== *)

Module ImportFacts.
Import Js App ProjectFacts.

Lemma assoc_set_prop_same k v fields :
  assoc k (set_prop k v fields) = Some v.
Proof.
  induction fields as [|[k' v'] fields IH]; cbn [set_prop assoc].
  - rewrite String.eqb_refl. reflexivity.
  - destruct (String.eqb_spec k' k) as [->|Hne]; cbn [assoc].
    + rewrite String.eqb_refl. reflexivity.
    + destruct (String.eqb_spec k' k); [contradiction|exact IH].
Qed.

Lemma assoc_set_prop_other k l v fields :
  l <> k -> assoc l (set_prop k v fields) = assoc l fields.
Proof.
  intros Hl. induction fields as [|[k' v'] fields IH]; cbn [set_prop assoc].
  - destruct (String.eqb_spec k l); [congruence|reflexivity].
  - destruct (String.eqb_spec k' k) as [->|Hne]; cbn [assoc].
    + destruct (String.eqb_spec k l); [congruence|reflexivity].
    + destruct (String.eqb_spec k' l); [reflexivity|exact IH].
Qed.

(** X19. An import that fails changes nothing but the error.  With no file
    chosen the signals stay as they are.  With a file whose text is not
    JSON, or is the document [null], every input signal keeps its value,
    the create tab is shown, and in a generation state that is an object
    the error becomes the fixed message while every other property, the
    master prompts and the preview of the last response among them, keeps
    its value. *)
Theorem failed_import_keeps_the_form (s : Signals) (fields : list (string * json)) :
  s.(generationState) = JObj fields ->
  onProjectImport NoFile s = s
  /\ forall chosen,
       (exists message, chosen = FileText (inl message))
       \/ chosen = FileText (inr JNull) ->
       let after := onProjectImport chosen s in
       after.(activeTab) = create
       /\ (forall f, f <> f_generationState -> read f after = read f s)
       /\ get "error" after.(generationState)
          = Some (JStr "Tệp dự án không hợp lệ hoặc bị hỏng.")
       /\ (forall k, k <> "error"%string ->
             get k after.(generationState) = get k s.(generationState)).
Proof.
  intros Hstate. split; [reflexivity|].
  intros chosen Hchosen after.
  assert (Hafter : after = import_failed s).
  { unfold after. destruct Hchosen as [[message ->]| ->]; reflexivity. }
  rewrite Hafter. split; [reflexivity|]. split.
  - intros f Hf. destruct f; reflexivity || contradiction.
  - cbn [import_failed generationState get]. rewrite Hstate.
    cbn [spread get]. split.
    + apply assoc_set_prop_same.
    + intros k Hk. apply assoc_set_prop_other. exact Hk.
Qed.

Lemma failed_import_keeps_the_form_witness :
  onProjectImport NoFile Examples.session = Examples.session
  /\ forall chosen,
       (exists message, chosen = FileText (inl message))
       \/ chosen = FileText (inr JNull) ->
       let after := onProjectImport chosen Examples.session in
       after.(activeTab) = create
       /\ (forall f, f <> f_generationState ->
             read f after = read f Examples.session)
       /\ get "error" after.(generationState)
          = Some (JStr "Tệp dự án không hợp lệ hoặc bị hỏng.")
       /\ (forall k, k <> "error"%string ->
             get k after.(generationState)
             = get k Examples.session.(generationState)).
Proof.
  apply (failed_import_keeps_the_form Examples.session
           [("masterPrompts",
             JArr (map Relay.masterPrompt_json Examples.bilingual));
            ("preview",
             JObj [("type", JStr "video");
                   ("content", JStr "data:video/mp4;base64,TWFu")]);
            ("isLoading", JBool false);
            ("error", JNull);
            ("loadingMessage", JStr "")]).
  reflexivity.
Defined.

(** X20. An import checks nothing of the document but that it is not
    [null].  A value that is not [null] is stored in its signal whatever its
    type.  A document that has none of the sixteen properties, which is the
    case of every number, string, truth value and array, raises no error: it
    sets every signal to its default, so that the form is the one of a fresh
    page, on the create tab. *)
Theorem import_checks_nothing :
  (forall (project : json) (before : Signals) (f : Field) (v : json),
     project <> JNull ->
     get (key f) project = Some v ->
     v <> JNull ->
     read f (onProjectImport (FileText (inr project)) before) = v)
  /\ (forall (project : json) (before : Signals),
        project <> JNull ->
        (forall f, get (key f) project = None) ->
        onProjectImport (FileText (inr project)) before
        = on_create_tab initial)
  /\ (forall (project : json) (before : Signals),
        project <> JNull ->
        is_object project = false ->
        onProjectImport (FileText (inr project)) before
        = on_create_tab initial).
Proof.
  assert (Hreset : forall (project : json) (before : Signals),
            project <> JNull ->
            (forall f, get (key f) project = None) ->
            onProjectImport (FileText (inr project)) before
            = on_create_tab initial).
  { intros project before Hproject Hnone. apply signals_eq.
    - destruct project; reflexivity.
    - intros f. rewrite import_reads by exact Hproject. rewrite Hnone.
      destruct f; reflexivity. }
  split; [|split; [exact Hreset|]].
  - intros project before f v Hproject Hget Hv.
    rewrite import_reads by exact Hproject. rewrite Hget.
    apply nullish_value. exact Hv.
  - intros project before Hproject Hobject. apply Hreset; [exact Hproject|].
    intros f. destruct project; try reflexivity. discriminate Hobject.
Qed.

(** X21. Nothing of the generation state is reset by the project file.  A
    project exported while [generatePrompt] awaits the service is imported
    as loading, with the loading message of the pathway and without error,
    although the importing form awaits nothing; the master prompts and the
    preview of the earlier response come with it, as they are read back from
    the file; the create tab is shown. *)
Theorem export_keeps_the_loading_state
    {platform : Platform} {browser : Browser} (s : Component.State)
    (before : Signals) :
  Component.selectedLanguages s <> [] ->
  let awaiting := fst (Component.generatePrompt_begin s) in
  let imported :=
    onProjectImport
      (FileText (inr (exportProject (Component.signals awaiting)))) before in
  imported.(activeTab) = create
  /\ get "isLoading" imported.(generationState) = Some (JBool true)
  /\ get "error" imported.(generationState) = Some JNull
  /\ get "loadingMessage" imported.(generationState)
     = Some (JStr (if Component.isMediaOutput s
                   then "Đang tạo media... Quá trình này có thể mất vài phút."
                   else "AI đang sáng tạo prompt và kết quả..."))
  /\ get "masterPrompts" imported.(generationState)
     = option_map written
         s.(Component.generationState).(Component.masterPrompts)
  /\ get "preview" imported.(generationState)
     = option_map written s.(Component.generationState).(Component.preview).
Proof.
  intros Hselected awaiting imported. split; [reflexivity|].
  subst imported.
  change (generationState
            (onProjectImport
               (FileText (inr (exportProject (Component.signals awaiting))))
               before))
    with (read f_generationState
            (onProjectImport
               (FileText (inr (exportProject (Component.signals awaiting))))
               before)).
  rewrite export_read_back. subst awaiting.
  unfold Component.generatePrompt_begin.
  destruct (Component.selectedLanguages s) as [|lang rest];
    [contradiction|].
  cbn [length Nat.eqb fst read generationState Component.signals
       Component.set_generationState Component.generationState
       Component.generationState_json Component.masterPrompts
       Component.preview Component.isLoading Component.error
       Component.loadingMessage Component.error_json].
  destruct (Component.masterPrompts (Component.generationState s))
    as [masterPrompts|];
    destruct (Component.preview (Component.generationState s))
      as [preview|];
    repeat split; reflexivity.
Qed.

(** X21, on a sample: the form as it is created, exported while it awaits
    its first generation. *)
Lemma export_keeps_the_loading_state_witness :
  let awaiting :=
    fst (@Component.generatePrompt_begin Samples.browser Component.initial) in
  let imported :=
    onProjectImport
      (FileText (inr (exportProject (Component.signals awaiting))))
      Examples.session in
  imported.(activeTab) = create
  /\ get "isLoading" imported.(generationState) = Some (JBool true)
  /\ get "error" imported.(generationState) = Some JNull
  /\ get "loadingMessage" imported.(generationState)
     = Some (JStr "Đang tạo media... Quá trình này có thể mất vài phút.")
  /\ get "masterPrompts" imported.(generationState) = Some (JArr [])
  /\ get "preview" imported.(generationState)
     = Some (JObj [("type", JNull); ("content", JStr "")]).
Proof.
  apply (@export_keeps_the_loading_state Examples.engine Samples.browser
           Component.initial Examples.session).
  discriminate.
Defined.

End ImportFacts.
